(** * food_araise: resilience layer of the food-analysis service

    A shallow embedding of

    - [app/core/local_intelligence.py]  (the local model lifecycle manager
      [LocalIntelligenceClient]),
    - [app/core/search.py]              (the throttled, retried and cached
      [SerpAPIWrapper]),
    - [app/routers/food.py]             (the [/analyze] route),

    together with the properties stated about them.  Python values are
    embedded as an inductive type of JSON-like values, exceptions as values
    of a sum type, and the mutable objects as explicit state. *)

From Stdlib Require Import String Ascii ZArith QArith Qminmax List Bool Lia Lqa.
From Stdlib Require Import DecimalString.
Import ListNotations.

Set Warnings "-register-all".
Open Scope string_scope.
Open Scope Z_scope.

(** ** Python preliminaries *)

Module Py.

(** The exception classes the sources raise or catch.  [HTTPStatusError] is
    a subclass of httpx's [HTTPError]; every class below is a subclass of
    [Exception]. *)
Inductive exn : Type :=
| HTTPException (status_code : Z) (detail : string)   (* fastapi *)
| HTTPStatusError (status_code : Z)                   (* httpx, raise_for_status *)
| HTTPError (msg : string)                            (* httpx, transport level *)
| Exception (msg : string).                           (* anything else *)

Inductive result (A : Type) : Type :=
| Return (a : A)
| Raise (e : exn).
Arguments Return {A} a.
Arguments Raise {A} e.

Definition is_httpx_HTTPError (e : exn) : bool :=
  match e with
  | HTTPStatusError _ | HTTPError _ => true
  | _ => false
  end.

(** JSON-like Python values.  A dict is an association list in insertion
    order; [PyFloat] keeps the literal. *)
Inductive pyval : Type :=
| PyNone
| PyBool (b : bool)
| PyInt (z : Z)
| PyFloat (repr : string)
| PyStr (s : string)
| PyList (l : list pyval)
| PyDict (d : list (string * pyval)).

Definition pydict := list (string * pyval).

(** Sequencing of steps that may raise. *)
Definition rbind {A B} (r : result A) (f : A -> result B) : result B :=
  match r with
  | Return a => f a
  | Raise e => Raise e
  end.

Fixpoint rmap {A B} (f : A -> result B) (l : list A) : result (list B) :=
  match l with
  | [] => Return []
  | x :: l' => rbind (f x) (fun y => rbind (rmap f l') (fun ys => Return (y :: ys)))
  end.

Fixpoint dict_lookup (d : pydict) (k : string) : option pyval :=
  match d with
  | [] => None
  | (k', v) :: d' => if String.eqb k' k then Some v else dict_lookup d' k
  end.

(** [v.get(k, default)]: only dicts have the method. *)
Definition py_get (v : pyval) (k : string) (default : pyval) : result pyval :=
  match v with
  | PyDict d =>
      match dict_lookup d k with
      | Some x => Return x
      | None => Return default
      end
  | _ => Raise (Exception "AttributeError")
  end.

(** [v[k]] for a string key. *)
Definition py_getitem (v : pyval) (k : string) : result pyval :=
  match v with
  | PyDict d =>
      match dict_lookup d k with
      | Some x => Return x
      | None => Raise (Exception "KeyError")
      end
  | _ => Raise (Exception "TypeError")
  end.

(** [v[0]]. *)
Definition py_getitem0 (v : pyval) : result pyval :=
  match v with
  | PyList (x :: _) => Return x
  | PyList [] => Raise (Exception "IndexError")
  | PyStr (String a _) => Return (PyStr (String a EmptyString))
  | PyStr EmptyString => Raise (Exception "IndexError")
  | PyDict _ => Raise (Exception "KeyError")
  | _ => Raise (Exception "TypeError")
  end.

(** [k in v], where [v] has answered [v.get] before: [get] raises on
    everything but a dict, so only that case is ever reached. *)
Definition py_in (k : string) (v : pyval) : result bool :=
  match v with
  | PyDict d =>
      match dict_lookup d k with
      | Some _ => Return true
      | None => Return false
      end
  | _ => Raise (Exception "TypeError")
  end.

Fixpoint chars (s : string) : list pyval :=
  match s with
  | EmptyString => []
  | String a s' => PyStr (String a EmptyString) :: chars s'
  end.

(** The items [for res in v[:n]] iterates over: a list yields its first
    [n] elements, a str its first [n] characters; nothing else can be
    sliced. *)
Definition py_slice_items (v : pyval) (n : nat) : result (list pyval) :=
  match v with
  | PyList l => Return (firstn n l)
  | PyStr s => Return (firstn n (chars s))
  | _ => Raise (Exception "TypeError")
  end.

(** Truthiness of an attribute that holds either [None] or an engine
    object (an object without [__bool__] or [__len__] is true). *)
Definition truthy {A : Type} (o : option A) : bool :=
  match o with Some _ => true | None => false end.

(** *** [str] methods used by the sources *)

Fixpoint find_from (c : ascii) (s : string) (i : Z) : Z :=
  match s with
  | EmptyString => -1
  | String a s' => if Ascii.eqb a c then i else find_from c s' (i + 1)
  end.

(** [s.find(c)] for a one-character needle. *)
Definition find (s : string) (c : ascii) : Z := find_from c s 0.

Fixpoint rfind_from (c : ascii) (s : string) (i : Z) (last : Z) : Z :=
  match s with
  | EmptyString => last
  | String a s' => rfind_from c s' (i + 1) (if Ascii.eqb a c then i else last)
  end.

(** [s.rfind(c)]. *)
Definition rfind (s : string) (c : ascii) : Z := rfind_from c s 0 (-1).

Definition len (s : string) : Z := Z.of_nat (String.length s).

(** Index normalisation of a slice bound. *)
Definition clamp (n i : Z) : Z :=
  if i <? 0 then Z.max (i + n) 0 else Z.min i n.

(** [s[a:b]]. *)
Definition slice (s : string) (a b : Z) : string :=
  let a' := clamp (len s) a in
  let b' := clamp (len s) b in
  substring (Z.to_nat a') (Z.to_nat (b' - a')) s.

(** [s[:n]]. *)
Definition slice_to (s : string) (n : Z) : string := slice s 0 n.

(** The double-quote character, and a string between double quotes as it
    appears inside JSON text. *)
Definition dq : string := String "034"%char EmptyString.
Definition quoted (s : string) : string := dq ++ s ++ dq.

End Py.
Export Py.

(** ** A decoder for plain JSON text

    [json.loads] is a parameter of the development.  The decoder below
    reads the part of JSON without escapes, fractions or exponents; it
    serves as an instance of the parameter on concrete texts. *)

Module Json.

Definition is_ws (a : ascii) : bool :=
  Ascii.eqb a " " || Ascii.eqb a "009" || Ascii.eqb a "010" || Ascii.eqb a "013".

Fixpoint skip_ws (s : string) : string :=
  match s with
  | String a s' => if is_ws a then skip_ws s' else s
  | EmptyString => s
  end.

(** The characters up to the closing quote, and what follows it. *)
Fixpoint read_string (s : string) : option (string * string) :=
  match s with
  | EmptyString => None
  | String a s' =>
      if Ascii.eqb a "034" then Some (EmptyString, s')
      else if Ascii.eqb a "\" then None
      else match read_string s' with
           | Some (body, rest) => Some (String a body, rest)
           | None => None
           end
  end.

Definition digit (a : ascii) : option Z :=
  let n := Z.of_nat (nat_of_ascii a) in
  if (48 <=? n) && (n <=? 57) then Some (n - 48) else None.

Fixpoint read_digits (s : string) (acc : Z) : Z * string :=
  match s with
  | String a s' =>
      match digit a with
      | Some d => read_digits s' (10 * acc + d)
      | None => (acc, s)
      end
  | EmptyString => (acc, s)
  end.

Definition starts_number (s : string) : bool :=
  match s with
  | String a _ => match digit a with Some _ => true | None => false end
  | EmptyString => false
  end.

Definition literal (word : string) (v : pyval) (s : string) : option (pyval * string) :=
  if String.prefix word s
  then Some (v, substring (String.length word) (String.length s - String.length word) s)
  else None.

Fixpoint value (fuel : nat) (s : string) : option (pyval * string) :=
  match fuel with
  | O => None
  | Datatypes.S fuel' =>
      match skip_ws s with
      | String "{" s1 =>
          match skip_ws s1 with
          | String "}" s2 => Some (PyDict [], s2)
          | _ =>
              match members fuel' s1 with
              | Some (d, rest) => Some (PyDict d, rest)
              | None => None
              end
          end
      | String "[" s1 =>
          match skip_ws s1 with
          | String "]" s2 => Some (PyList [], s2)
          | _ =>
              match elements fuel' s1 with
              | Some (l, rest) => Some (PyList l, rest)
              | None => None
              end
          end
      | String "034" s1 =>
          match read_string s1 with
          | Some (body, rest) => Some (PyStr body, rest)
          | None => None
          end
      | String "-" s1 =>
          if starts_number s1
          then let '(n, rest) := read_digits s1 0 in Some (PyInt (- n), rest)
          else None
      | String "t" _ => literal "true" (PyBool true) (skip_ws s)
      | String "f" _ => literal "false" (PyBool false) (skip_ws s)
      | String "n" _ => literal "null" PyNone (skip_ws s)
      | s0 =>
          if starts_number s0
          then let '(n, rest) := read_digits s0 0 in Some (PyInt n, rest)
          else None
      end
  end

with members (fuel : nat) (s : string) : option (pydict * string) :=
  match fuel with
  | O => None
  | Datatypes.S fuel' =>
      match skip_ws s with
      | String "034" s1 =>
          match read_string s1 with
          | Some (key, s2) =>
              match skip_ws s2 with
              | String ":" s3 =>
                  match value fuel' s3 with
                  | Some (v, s4) =>
                      match skip_ws s4 with
                      | String "}" s5 => Some ([(key, v)], s5)
                      | String "," s5 =>
                          match members fuel' s5 with
                          | Some (d, rest) => Some ((key, v) :: d, rest)
                          | None => None
                          end
                      | _ => None
                      end
                  | None => None
                  end
              | _ => None
              end
          | None => None
          end
      | _ => None
      end
  end

with elements (fuel : nat) (s : string) : option (list pyval * string) :=
  match fuel with
  | O => None
  | Datatypes.S fuel' =>
      match value fuel' s with
      | Some (v, s1) =>
          match skip_ws s1 with
          | String "]" s2 => Some ([v], s2)
          | String "," s2 =>
              match elements fuel' s2 with
              | Some (l, rest) => Some (v :: l, rest)
              | None => None
              end
          | _ => None
          end
      | None => None
      end
  end.

Definition loads (s : string) : result pyval :=
  match value (2 * String.length s + 2) s with
  | Some (v, rest) =>
      match skip_ws rest with
      | EmptyString => Return v
      | _ => Raise (Exception "JSONDecodeError")
      end
  | None => Raise (Exception "JSONDecodeError")
  end.

End Json.

(** ** Configuration

    [app/config.py] is not part of the sources at hand; the settings the
    code reads are taken as a record of parameters. *)

Record Settings : Type := {
  LOCAL_MODELS_DIR : string;
  LOCAL_MODEL_LIGHT_REPO : string;
  LOCAL_MODEL_LIGHT_FILENAME : string;
  LOCAL_MODEL_HEAVY_REPO : string;
  LOCAL_MODEL_HEAVY_FILENAME : string;
  SERPAPI_API_KEY : option string;
  SERPAPI_MIN_INTERVAL : Q;
  SERPAPI_MAX_RETRIES : Z;
  SERPAPI_BACKOFF_FACTOR : Q
}.

(** ** [app/core/local_intelligence.py] *)

Module LocalIntelligence.

(** An engine object, identified by the arguments it was built with. *)
Record Llama : Type := mkLlama {
  model_path : string;
  n_ctx : Z;
  n_gpu_layers : Z;
  verbose : bool
}.

(** The attributes of a [LocalIntelligenceClient]. *)
Record LocalIntelligenceClient : Type := mkClient {
  models_dir : string;
  light_model : option Llama;
  heavy_model : option Llama
}.

(** Calls that leave the process: artifact download, handler and engine
    construction, inference. *)
Inductive event : Type :=
| Ev_hf_hub_download (repo_id filename local_dir : string)
| Ev_MoondreamChatHandler (clip_model_path : string)
| Ev_Llama (args : Llama)
| Ev_create_chat_completion (model : Llama) (messages : pyval) (max_tokens : Z).

(** What the outside answers during one call of a method: each of the
    two import statements at the head of [_load_model] and each external
    operation either returns or raises. *)
Record world : Type := {
  import_llama_cpp : result unit;
      (* from llama_cpp import Llama *)
  import_llama_chat_format : result unit;
      (* from llama_cpp.llama_chat_format import MoondreamChatHandler, Llava15ChatHandler *)
  hf_hub_download : string -> string -> string -> result string;
  MoondreamChatHandler : string -> result unit;
  Llama_init : Llama -> result unit;
  create_chat_completion : Llama -> pyval -> Z -> pyval -> result pyval
}.

(** *** A monad for methods of the client

    A computation starts from the attributes of [self] and yields an
    outcome, the final attributes, every intermediate value the attributes
    took (one entry per assignment, oldest first) and the external calls
    made (oldest first). *)

Record run (A : Type) : Type := mkRun {
  outcome : result A;
  final : LocalIntelligenceClient;
  writes : list LocalIntelligenceClient;
  calls : list event
}.
Arguments mkRun {A}.
Arguments outcome {A}.
Arguments final {A}.
Arguments writes {A}.
Arguments calls {A}.

Definition M (A : Type) : Type := LocalIntelligenceClient -> run A.

Definition ret {A} (a : A) : M A := fun self => mkRun (Return a) self [] [].

Definition raise {A} (e : exn) : M A := fun self => mkRun (Raise e) self [] [].

Definition bind {A B} (m : M A) (f : A -> M B) : M B :=
  fun self =>
    match m self with
    | mkRun (Return a) self' ws cs =>
        match f a self' with
        | mkRun o self'' ws' cs' => mkRun o self'' (ws ++ ws') (cs ++ cs')
        end
    | mkRun (Raise e) self' ws cs => mkRun (Raise e) self' ws cs
    end.

(** [try: m  except Exception as e: h e]. *)
Definition try_except {A} (m : M A) (h : exn -> M A) : M A :=
  fun self =>
    match m self with
    | mkRun (Return a) self' ws cs => mkRun (Return a) self' ws cs
    | mkRun (Raise e) self' ws cs =>
        match h e self' with
        | mkRun o self'' ws' cs' => mkRun o self'' (ws ++ ws') (cs ++ cs')
        end
    end.

Definition get_self : M LocalIntelligenceClient :=
  fun self => mkRun (Return self) self [] [].

Definition put_self (self' : LocalIntelligenceClient) : M unit :=
  fun _ => mkRun (Return tt) self' [self'] [].

(** An external call: logged, then its answer is returned or raised. *)
Definition extern {A} (ev : event) (answer : result A) : M A :=
  fun self => mkRun answer self [] [ev].

(** A pure step that may raise. *)
Definition lift {A} (r : result A) : M A :=
  fun self => mkRun r self [] [].

Declare Scope py_scope.
Delimit Scope py_scope with py.
Notation "x <- m ;; k" := (bind m (fun x => k))
  (at level 61, m at next level, right associativity) : py_scope.
Notation "m ;;; k" := (bind m (fun _ => k))
  (at level 61, right associativity) : py_scope.
Open Scope py_scope.

Definition set_light_model (v : option Llama) : M unit :=
  self <- get_self ;;
  put_self (mkClient (models_dir self) v (heavy_model self)).

Definition set_heavy_model (v : option Llama) : M unit :=
  self <- get_self ;;
  put_self (mkClient (models_dir self) (light_model self) v).

Section Client.

Variable settings : Settings.
(** [json.loads] and [base64.b64encode(...).decode('utf-8')], library
    functions. *)
Variable json_loads : string -> result pyval.
Variable b64encode : list Byte.byte -> string.

(** [__init__]; [cwd] is [os.getcwd()] joined with the configured
    directory. *)
Definition __init__ (cwd_models_dir : string) : LocalIntelligenceClient :=
  mkClient cwd_models_dir None None.

Definition _get_model_path (w : world) (repo_id filename : string) : M string :=
  self <- get_self ;;
  try_except
    (extern (Ev_hf_hub_download repo_id filename (models_dir self))
            (hf_hub_download w repo_id filename (models_dir self)))
    (fun e => raise e).

(** [_load_model].  The two [from llama_cpp ... import ...] statements at
    its head run at every call, whatever the name; an import that fails
    raises before anything else is done. *)
Definition _load_model (w : world) (model_type : string) : M unit :=
  lift (import_llama_cpp w) ;;;
  lift (import_llama_chat_format w) ;;;
  if String.eqb model_type "light" then
    self <- get_self ;;
    if truthy (light_model self) then ret tt
    else
      (if truthy (heavy_model self) then set_heavy_model None else ret tt) ;;;
      path <- _get_model_path w (LOCAL_MODEL_LIGHT_REPO settings)
                                (LOCAL_MODEL_LIGHT_FILENAME settings) ;;
      extern (Ev_MoondreamChatHandler path) (MoondreamChatHandler w path) ;;;
      let m := mkLlama path 2048 0 false in
      extern (Ev_Llama m) (Llama_init w m) ;;;
      set_light_model (Some m)
  else if String.eqb model_type "heavy" then
    self <- get_self ;;
    if truthy (heavy_model self) then ret tt
    else
      (if truthy (light_model self) then set_light_model None else ret tt) ;;;
      path <- _get_model_path w (LOCAL_MODEL_HEAVY_REPO settings)
                                (LOCAL_MODEL_HEAVY_FILENAME settings) ;;
      let m := mkLlama path 4096 0 true in
      extern (Ev_Llama m) (Llama_init w m) ;;;
      set_heavy_model (Some m)
  else ret tt.

(** [_parse_local_response].  [content] is whatever the engine put in the
    message: the method is written for a [str]; on any other value the
    [try] block swallows the [AttributeError] of [content.find] and the
    fallback expression [content[:200] + "..."] raises. *)
Definition parse_attempt (content : string) : option pyval :=
  let start := find content "{"%char in
  let end_ := rfind content "}"%char + 1 in
  if negb (start =? -1) && negb (end_ =? -1) then
    let json_str := slice content start end_ in
    match json_loads json_str with
    | Return v => Some v
    | Raise _ => None
    end
  else None.

Definition parse_fallback (content : string) : pyval :=
  PyDict [ ("overall_description", PyStr (slice_to content 200 ++ "..."));
           ("total_calories_estimate", PyStr "Estimated");
           ("items", PyList []);
           ("note", PyStr "Raw output returned due to parsing error.") ].

Definition _parse_local_response (content : pyval) : result pyval :=
  match content with
  | PyStr s =>
      match parse_attempt s with
      | Some v => Return v
      | None => Return (parse_fallback s)
      end
  | _ => Raise (Exception "TypeError")
  end.

Definition system_prompt : string :=
  "You are a food AI. Identify food items and estimate calories. " ++
  "Return JSON with keys: 'overall_description', 'items' (list of {name, nutrition}), 'total_calories_estimate'. " ++
  "Keep description brief.".

Definition messages_for (image_url : string) : pyval :=
  PyList [
    PyDict [ ("role", PyStr "system"); ("content", PyStr system_prompt) ];
    PyDict [ ("role", PyStr "user");
             ("content", PyList [
                PyDict [ ("type", PyStr "text"); ("text", PyStr "Analyze this food.") ];
                PyDict [ ("type", PyStr "image_url");
                         ("image_url", PyDict [ ("url", PyStr image_url) ]) ] ]) ] ].

Definition emergency_fallback : pyval :=
  PyDict [ ("overall_description", PyStr "Error in local analysis.");
           ("total_calories_estimate", PyStr "Unknown");
           ("items", PyList [
              PyDict [ ("name", PyStr "Unidentified");
                       ("nutrition", PyDict []);
                       ("description", PyStr "Analysis failed") ] ]) ].

Definition max_tokens_for (deep_search : bool) : Z :=
  if deep_search then 300 else 150.

(** [response["choices"][0]["message"]["content"]]. *)
Definition content_of (response : pyval) : result pyval :=
  rbind (py_getitem response "choices") (fun choices =>
  rbind (py_getitem0 choices) (fun choice =>
  rbind (py_getitem choice "message") (fun message =>
  py_getitem message "content"))).

(** The [try] block of [analyze_image]. *)
Definition infer (w : world) (model : option Llama) (messages : pyval)
    (deep_search : bool) : M pyval :=
  match model with
  | None => raise (Exception "AttributeError")
  | Some m =>
      response <- extern
        (Ev_create_chat_completion m messages (max_tokens_for deep_search))
        (create_chat_completion w m messages (max_tokens_for deep_search)
                                (PyFloat "0.2")) ;;
      lift (rbind (content_of response) _parse_local_response)
  end.

(** [analyze_image].  Its [import base64] loads a module of the standard
    library.  Encoding the bytes and building the messages lie outside
    the [try] block; on [bytes] they cannot fail. *)
Definition analyze_image (w : world) (image_bytes : list Byte.byte)
    (deep_search : bool) : M pyval :=
  let target_model_type := if deep_search then "heavy" else "light" in
  _load_model w target_model_type ;;;
  self <- get_self ;;
  let model := if deep_search then heavy_model self else light_model self in
  let base64_image := b64encode image_bytes in
  let image_url := "data:image/jpeg;base64," ++ base64_image in
  let messages := messages_for image_url in
  try_except (infer w model messages deep_search)
             (fun _ => ret emergency_fallback).

(** What the guarded [try] block of [analyze_image] evaluates to when it
    runs on engine [m]. *)
Definition local_answer (w : world) (m : Llama) (messages : pyval)
    (deep_search : bool) : pyval :=
  match create_chat_completion w m messages (max_tokens_for deep_search)
                               (PyFloat "0.2") with
  | Return response =>
      match rbind (content_of response) _parse_local_response with
      | Return v => v
      | Raise _ => emergency_fallback
      end
  | Raise _ => emergency_fallback
  end.

(** The name [analyze_image] passes to [_load_model], the slot it reads
    afterwards and the context size the engine of that slot is built
    with. *)
Definition tier_name (deep_search : bool) : string :=
  if deep_search then "heavy" else "light".

Definition slot (deep_search : bool) (self : LocalIntelligenceClient) : option Llama :=
  if deep_search then heavy_model self else light_model self.

Definition n_ctx_for (deep_search : bool) : Z :=
  if deep_search then 4096 else 2048.

(** An external call that belongs to the tier of the flag: the download
    of that tier's artifact, the construction of that tier's engine, an
    inference on an engine of that tier with that tier's token budget. *)
Definition of_tier (deep_search : bool) (ev : event) : Prop :=
  match ev with
  | Ev_hf_hub_download repo_id filename _ =>
      repo_id = (if deep_search then LOCAL_MODEL_HEAVY_REPO settings
                 else LOCAL_MODEL_LIGHT_REPO settings) /\
      filename = (if deep_search then LOCAL_MODEL_HEAVY_FILENAME settings
                  else LOCAL_MODEL_LIGHT_FILENAME settings)
  | Ev_MoondreamChatHandler _ => deep_search = false
  | Ev_Llama args => n_ctx args = n_ctx_for deep_search
  | Ev_create_chat_completion m _ max_tokens =>
      n_ctx m = n_ctx_for deep_search /\ max_tokens = max_tokens_for deep_search
  end.

(** Both import statements of [_load_model] succeed, as they do once the
    modules are loaded; and the failure [e] of one of them. *)
Definition imported (w : world) : Prop :=
  import_llama_cpp w = Return tt /\ import_llama_chat_format w = Return tt.

Definition import_failure (w : world) (e : exn) : Prop :=
  import_llama_cpp w = Raise e \/ import_llama_chat_format w = Raise e.

(** A failure [e] of the artifact download or of the construction of the
    engine for the tier of the flag. *)
Definition load_failure (w : world) (self : LocalIntelligenceClient)
    (deep_search : bool) (e : exn) : Prop :=
  (if deep_search
   then hf_hub_download w (LOCAL_MODEL_HEAVY_REPO settings)
          (LOCAL_MODEL_HEAVY_FILENAME settings) (models_dir self)
   else hf_hub_download w (LOCAL_MODEL_LIGHT_REPO settings)
          (LOCAL_MODEL_LIGHT_FILENAME settings) (models_dir self)) = Raise e \/
  (exists path, deep_search = false /\ MoondreamChatHandler w path = Raise e) \/
  (exists args, Llama_init w args = Raise e).

(** *** Sequences of calls on one client

    Each call comes with the answers the outside gives while it runs. *)

Inductive call : Type :=
| Call_load_model (model_type : string)
| Call_analyze_image (image_bytes : list Byte.byte) (deep_search : bool).

(** The final attributes and the intermediate assignments of one call. *)
Definition perform (wc : world * call) (self : LocalIntelligenceClient)
    : LocalIntelligenceClient * list LocalIntelligenceClient :=
  match snd wc with
  | Call_load_model model_type =>
      let r := _load_model (fst wc) model_type self in (final r, writes r)
  | Call_analyze_image image_bytes deep_search =>
      let r := analyze_image (fst wc) image_bytes deep_search self in (final r, writes r)
  end.

(** The attributes after a sequence of calls. *)
Fixpoint after (cs : list (world * call)) (self : LocalIntelligenceClient)
    : LocalIntelligenceClient :=
  match cs with
  | [] => self
  | wc :: cs' => after cs' (fst (perform wc self))
  end.

(** Every value the attributes take while a sequence of calls runs. *)
Fixpoint timeline (cs : list (world * call)) (self : LocalIntelligenceClient)
    : list LocalIntelligenceClient :=
  match cs with
  | [] => [self]
  | wc :: cs' => self :: snd (perform wc self) ++ timeline cs' (fst (perform wc self))
  end.

End Client.

(** At most one of the two engines is resident. *)
Definition single_slot (self : LocalIntelligenceClient) : Prop :=
  light_model self = None \/ heavy_model self = None.

(** Each resident engine was built with the context size of its slot. *)
Definition well_configured (self : LocalIntelligenceClient) : Prop :=
  forall deep_search m,
    slot deep_search self = Some m -> n_ctx m = n_ctx_for deep_search.

End LocalIntelligence.

(** ** [app/core/vision.py]: the failover dispatcher *)

Module Vision.
Import LocalIntelligence.

Definition all_systems_failed : exn :=
  HTTPException 500 "All AI systems failed".

(** Modelled from the spec: [analyze_food_image_with_search], the
    dispatcher of [app/core/vision.py], is missing from the sources; only
    its tests and its caller are present.  Following section 4.3: the
    primary (cloud) attempt is made first and its result returned on
    success; on any exception of the primary path the local client's
    [analyze_image] is called with the request's image and quality flag;
    if that raises too, the request fails with the distinguished
    "all systems failed" error, which the tests observe as an
    [HTTPException] of status 500.  [cloud] is the outcome of the primary
    attempt. *)
Definition analyze_food_image_with_search
    (settings : Settings) (json_loads : string -> result pyval)
    (b64encode : list Byte.byte -> string)
    (cloud : result pyval) (w : world)
    (image_bytes : list Byte.byte) (deep_search : bool) : M pyval :=
  match cloud with
  | Return r => ret r
  | Raise _ =>
      try_except
        (analyze_image settings json_loads b64encode w image_bytes deep_search)
        (fun _ => raise all_systems_failed)
  end.

End Vision.

(** ** [app/routers/food.py] *)

Module Router.
Import LocalIntelligence.

Section Route.

Variable settings : Settings.
Variable json_loads : string -> result pyval.
Variable b64encode : list Byte.byte -> string.
(** [str(e)] of an exception. *)
Variable str : exn -> string.

(** The uploaded file: its declared content type and what reading it
    gives. *)
Record UploadFile : Type := {
  content_type : option string;
  read : result (list Byte.byte)
}.

Definition analyze_food (cloud : result pyval) (w : world)
    (file : UploadFile) (deep_search : bool) : M pyval :=
  match content_type file with
  | None => raise (Exception "AttributeError")
  | Some ct =>
      if negb (String.prefix "image/" ct) then
        raise (HTTPException 400 "File must be an image.")
      else
        try_except
          (contents <- lift (read file) ;;
           Vision.analyze_food_image_with_search settings json_loads b64encode
             cloud w contents deep_search)
          (fun e => raise (HTTPException 500 (str e)))
  end.

End Route.

End Router.

(** ** [app/core/search.py] *)

Module Search.

(** The attributes [__init__] fixes once and for all. *)
Record SerpAPIWrapper : Type := mkWrapper {
  api_key : option string;
  base_url : string;
  min_interval : Q;
  max_retries : Z;
  backoff_factor : Q
}.

Definition __init__ (settings : Settings) : SerpAPIWrapper :=
  {| api_key := SERPAPI_API_KEY settings;
     base_url := "https://serpapi.com/search";
     min_interval := Qmax 0 (SERPAPI_MIN_INTERVAL settings);
     max_retries := Z.max 0 (SERPAPI_MAX_RETRIES settings);
     backoff_factor := Qmax 1 (SERPAPI_BACKOFF_FACTOR settings) |}.

(** [not self.api_key]. *)
Definition key_missing (k : option string) : bool :=
  match k with
  | None => true
  | Some EmptyString => true
  | Some _ => false
  end.

(** An httpx response, as far as the code looks at it: its status and
    what [response.json()] gives. *)
Record Response : Type := {
  status_code : Z;
  json : result pyval
}.

Inductive event : Type :=
| EvSleep (seconds : Q)                    (* asyncio.sleep *)
| EvGet (url : string) (params : pydict).   (* client.get *)

Definition is_get (e : event) : bool :=
  match e with EvGet _ _ => true | EvSleep _ => false end.

(** The outside, indexed by the number of events so far: how long the
    next network attempt takes and what it answers; by how much the next
    sleep overshoots. *)
Record world : Type := {
  network : nat -> Q * result Response;
  oversleep : nat -> Q
}.

(** The mutable part: the throttle stamp, the monotonic clock, the
    events so far (oldest first), the time of each network attempt
    (oldest first) and the entries of [alru_cache] (most recently used
    first). *)
Record state : Type := mkState {
  _last_request_ts : Q;
  clock : Q;
  trace : list event;
  issued : list Q;
  cache : list (string * pyval)
}.

Definition initial (t0 : Q) : state := mkState 0 t0 [] [] [].

Definition S (A : Type) : Type := state -> state * result A.

Definition ret {A} (a : A) : S A := fun st => (st, Return a).
Definition raise {A} (e : exn) : S A := fun st => (st, Raise e).
Definition lift {A} (r : result A) : S A := fun st => (st, r).

Definition bind {A B} (m : S A) (f : A -> S B) : S B :=
  fun st =>
    match m st with
    | (st', Return a) => f a st'
    | (st', Raise e) => (st', Raise e)
    end.

(** [try: m  except <classes accepted by catches> as e: h e]. *)
Definition try_except {A} (catches : exn -> bool) (m : S A) (h : exn -> S A) : S A :=
  fun st =>
    match m st with
    | (st', Return a) => (st', Return a)
    | (st', Raise e) => if catches e then h e st' else (st', Raise e)
    end.

Declare Scope search_scope.
Delimit Scope search_scope with search.
Notation "x <- m ;; k" := (bind m (fun x => k))
  (at level 61, m at next level, right associativity) : search_scope.
Notation "m ;;; k" := (bind m (fun _ => k))
  (at level 61, right associativity) : search_scope.
Open Scope search_scope.

Definition gt0 (x : Q) : bool := negb (Qle_bool x 0).

Section Wrapper.

Variable self : SerpAPIWrapper.
Variable w : world.
(** [str(e)] of an exception. *)
Variable str : exn -> string.

Definition monotonic : S Q := fun st => (st, Return (clock st)).

(** [asyncio.sleep]: a delay that is not positive returns at once. *)
Definition sleep (seconds : Q) : S unit :=
  fun st =>
    (mkState (_last_request_ts st)
             (clock st + Qmax 0 seconds + oversleep w (length (trace st)))%Q
             (trace st ++ [EvSleep seconds]) (issued st) (cache st),
     Return tt).

Definition stamp : S unit :=
  fun st =>
    (mkState (clock st) (clock st) (trace st) (issued st) (cache st), Return tt).

(** The wait [_throttle] computes. *)
Definition throttle_wait (interval now last : Q) : Q :=
  (interval - (now - last))%Q.

(** [_throttle]; run to completion by one caller, so the lock is free
    when it is entered and free again when it is left. *)
Definition _throttle : S unit :=
  now <- monotonic ;;
  last <- (fun st => (st, Return (_last_request_ts st))) ;;
  let wait := throttle_wait (min_interval self) now last in
  (if gt0 wait then sleep wait else ret tt) ;;;
  stamp.

(** [async with httpx.AsyncClient(timeout=10.0) as client:
     response = await client.get(self.base_url, params=params)]. *)
Definition client_get (params : pydict) : S Response :=
  fun st =>
    let '(dt, answer) := network w (length (trace st)) in
    (mkState (_last_request_ts st) (clock st + dt)%Q
             (trace st ++ [EvGet (base_url self) params])
             (issued st ++ [clock st]) (cache st),
     answer).

(** httpx: [raise_for_status] raises unless the status is 2xx. *)
Definition is_success (status : Z) : bool := (200 <=? status) && (status <=? 299).

Definition raise_for_status (r : Response) : S unit :=
  if is_success (status_code r) then ret tt
  else raise (HTTPStatusError (status_code r)).

(** How one turn of the [for] loop ends. *)
Inductive ctl : Type :=
| Continue (backoff : Q)
| Break (data : pyval).

Definition is_HTTPStatusError (e : exn) : bool :=
  match e with HTTPStatusError _ => true | _ => false end.

Definition back_off (backoff : Q) : S ctl :=
  let backoff := (backoff * backoff_factor self)%Q in
  sleep backoff ;;; ret (Continue backoff).

(** One turn of the loop for [attempt], entered with [backoff]. *)
Definition turn (params : pydict) (attempt : Z) (backoff : Q) : S ctl :=
  _throttle ;;;
  try_except is_HTTPStatusError
    (response <- client_get params ;;
     let rest :=
       raise_for_status response ;;;
       data <- lift (json response) ;;
       ret (Break data) in
     if status_code response =? 429 then
       if attempt <? max_retries self then back_off backoff
       else raise_for_status response ;;; rest
     else rest)
    (fun e =>
       match e with
       | HTTPStatusError st =>
           if (st =? 429) && (attempt <? max_retries self) then back_off backoff
           else raise e
       | _ => raise e
       end).

(** [for attempt in attempts: ...]; leaving the loop without [break]
    leaves [data] unbound. *)
Fixpoint retry_loop (params : pydict) (attempts : list Z) (backoff : Q) : S pyval :=
  match attempts with
  | [] => raise (Exception "UnboundLocalError")
  | attempt :: attempts' =>
      c <- turn params attempt backoff ;;
      match c with
      | Continue backoff' => retry_loop params attempts' backoff'
      | Break data => ret data
      end
  end.

Definition range (n : Z) : list Z := map Z.of_nat (seq 0 (Z.to_nat n)).

Definition snippet_of (res : pyval) : result pyval :=
  rbind (py_get res "title" PyNone) (fun title =>
  rbind (py_get res "snippet" PyNone) (fun snippet =>
  rbind (py_get res "link" PyNone) (fun link =>
  Return (PyDict [ ("title", title); ("snippet", snippet); ("link", link) ])))).

(** The projection of the payload ("Extract only what's needed"). *)
Definition shape_results (data : pyval) : result pyval :=
  rbind (py_get data "knowledge_graph" (PyDict [])) (fun kg =>
  rbind (py_in "organic_results" data) (fun present =>
  rbind (if present : bool then
           rbind (py_getitem data "organic_results") (fun organic =>
           rbind (py_slice_items organic 3) (fun items =>
           rmap snippet_of items))
         else Return []) (fun snippets =>
  Return (PyDict [ ("snippets", PyList snippets); ("knowledge_graph", kg) ])))).

Definition error_result (msg : string) : pyval := PyDict [ ("error", PyStr msg) ].

Definition params_for (key query : string) : pydict :=
  [ ("engine", PyStr "google"); ("q", PyStr query); ("api_key", PyStr key);
    ("hl", PyStr "en"); ("gl", PyStr "us") ].

(** The body of [search_food_info], below the cache decorator. *)
Definition search_body (query : string) : S pyval :=
  if key_missing (api_key self) then ret (error_result "API Key missing")
  else
    let params := params_for (match api_key self with Some k => k | None => "" end) query in
    try_except (fun _ => true)
      (data <- retry_loop params (range (max_retries self + 1)) (min_interval self) ;;
       lift (shape_results data))
      (fun e =>
         if is_httpx_HTTPError e
         then ret (error_result (str e))     (* except httpx.HTTPError *)
         else ret (error_result (str e))).   (* except Exception *)

(** *** [alru_cache(maxsize=128)]

    async_lru keeps what the wrapped coroutine returned, keyed by the
    arguments; a call that raises leaves no entry; a hit runs nothing and
    makes the entry the most recent one; beyond [maxsize] entries the
    least recently used one is dropped. *)
Definition maxsize : nat := 128.

Fixpoint cache_find (k : string) (c : list (string * pyval)) : option pyval :=
  match c with
  | [] => None
  | (k', v) :: c' => if String.eqb k' k then Some v else cache_find k c'
  end.

Definition cache_remove (k : string) (c : list (string * pyval)) :=
  filter (fun kv => negb (String.eqb (fst kv) k)) c.

Definition set_cache (c : list (string * pyval)) (st : state) : state :=
  mkState (_last_request_ts st) (clock st) (trace st) (issued st) c.

Definition search_food_info (query : string) : S pyval :=
  fun st =>
    match cache_find query (cache st) with
    | Some v => (set_cache ((query, v) :: cache_remove query (cache st)) st, Return v)
    | None =>
        match search_body query st with
        | (st', Return v) =>
            (set_cache (firstn maxsize ((query, v) :: cache st')) st', Return v)
        | (st', Raise e) => (st', Raise e)
        end
    end.

(** A sequence of lookups made one after the other. *)
Fixpoint lookups (queries : list string) (st : state) : state * list (result pyval) :=
  match queries with
  | [] => (st, [])
  | q :: queries' =>
      let '(st1, r) := search_food_info q st in
      let '(st2, rs) := lookups queries' st1 in
      (st2, r :: rs)
  end.

(** The state after [_throttle], after a [client.get] and after a sleep. *)
Definition throttled (st : state) : state := fst (_throttle st).
Definition got (params : pydict) (st : state) : state := fst (client_get params st).
Definition slept (seconds : Q) (st : state) : state := fst (sleep seconds st).

(** The answer the next network attempt from [st] receives. *)
Definition next_answer (st : state) : result Response :=
  snd (network w (length (trace st))).

End Wrapper.

(** What the projection keeps of one organic result, and of a payload
    that has the documented shape: a JSON object whose [organic_results],
    when present, is an array of objects. *)
Definition field (res : pyval) (k : string) : pyval :=
  match res with
  | PyDict r => match dict_lookup r k with Some v => v | None => PyNone end
  | _ => PyNone
  end.

Definition projection_of (res : pyval) : pyval :=
  PyDict [ ("title", field res "title"); ("snippet", field res "snippet");
           ("link", field res "link") ].

Definition is_dict (v : pyval) : bool :=
  match v with PyDict _ => true | _ => false end.

Definition organic_of (data : pyval) : list pyval :=
  match data with
  | PyDict d => match dict_lookup d "organic_results" with
                | Some (PyList l) => l
                | _ => []
                end
  | _ => []
  end.

Definition knowledge_graph_of (data : pyval) : pyval :=
  match data with
  | PyDict d => match dict_lookup d "knowledge_graph" with
                | Some kg => kg
                | None => PyDict []
                end
  | _ => PyDict []
  end.

Definition documented_shape (data : pyval) : bool :=
  match data with
  | PyDict d =>
      match dict_lookup d "organic_results" with
      | None => true
      | Some (PyList l) => forallb is_dict l
      | Some _ => false
      end
  | _ => false
  end.

(** The number of network attempts and the delays slept in a trace. *)
Definition attempts (tr : list event) : nat := length (filter is_get tr).

Fixpoint sleeps (tr : list event) : list Q :=
  match tr with
  | [] => []
  | EvSleep d :: tr' => d :: sleeps tr'
  | EvGet _ _ :: tr' => sleeps tr'
  end.

(** Time never runs backwards: every network attempt and every
    overshoot of a sleep takes a non-negative time. *)
Definition patient (w : world) : Prop :=
  forall n, (0 <= fst (network w n))%Q /\ (0 <= oversleep w n)%Q.

(** Every network attempt is answered with status 429. *)
Definition always_429 (w : world) : Prop :=
  forall n, exists r, snd (network w n) = Return r /\ status_code r = 429.

(** An answer that is a failure other than a rate limit: a transport
    error raised by [client.get], or a response whose status is neither
    429 nor 2xx.  [failure_of] is the exception it ends in. *)
Definition failure_of (a : result Response) : option exn :=
  match a with
  | Raise e => if is_HTTPStatusError e then None else Some e
  | Return r =>
      if (status_code r =? 429) || is_success (status_code r) then None
      else Some (HTTPStatusError (status_code r))
  end.

End Search.

(** ** Concurrent callers of one [SerpAPIWrapper]

    Coroutines on one event loop interleave at their [await]s only.  A
    task running the body of [search_food_info] is suspended at one of
    the points below; a step of the system resumes one task and runs it
    to its next suspension, or lets time pass. *)

Module EventLoop.
Import Search.

Inductive pc : Type :=
| Idle                                          (* not called yet *)
| AtLock (attempt : Z) (backoff : Q)            (* at [async with self._lock] *)
| ThrottleSleep (attempt : Z) (backoff : Q) (wake : Q)
                                                (* in [asyncio.sleep(wait)], lock held *)
| InGet (attempt : Z) (backoff : Q)             (* awaiting [client.get] *)
| BackoffSleep (attempt : Z) (backoff : Q) (wake : Q)
                                                (* in [asyncio.sleep(backoff)] *)
| Finished.

Record loop : Type := mkLoop {
  now : Q;                  (* time.monotonic() *)
  last_request_ts : Q;      (* self._last_request_ts *)
  locked : bool;            (* self._lock *)
  tasks : nat -> pc;
  stamps : list Q           (* time of each attempt issued, newest first *)
}.

Definition start (t0 : Q) : loop := mkLoop t0 0 false (fun _ => Idle) [].

Definition set_task (i : nat) (p : pc) (ts : nat -> pc) : nat -> pc :=
  fun j => if Nat.eqb j i then p else ts j.

(** Whether the turn for [attempt] goes round again after the answer. *)
Definition retries (self : SerpAPIWrapper) (attempt : Z) (answer : result Response) : bool :=
  match answer with
  | Return r => (status_code r =? 429) && (attempt <? max_retries self)
  | Raise (HTTPStatusError st) => (st =? 429) && (attempt <? max_retries self)
  | Raise _ => false
  end.

Inductive step (self : SerpAPIWrapper) : loop -> loop -> Prop :=
| step_time s d :
    (0 <= d)%Q ->
    step self s (mkLoop (now s + d)%Q (last_request_ts s) (locked s) (tasks s) (stamps s))
| step_call s i :
    tasks s i = Idle ->
    step self s
      (mkLoop (now s) (last_request_ts s) (locked s)
         (set_task i (if key_missing (api_key self) || (max_retries self + 1 <=? 0)
                      then Finished else AtLock 0 (min_interval self)) (tasks s))
         (stamps s))
| step_throttle_pass s i attempt backoff :
    tasks s i = AtLock attempt backoff ->
    locked s = false ->
    gt0 (throttle_wait (min_interval self) (now s) (last_request_ts s)) = false ->
    step self s
      (mkLoop (now s) (now s) false
         (set_task i (InGet attempt backoff) (tasks s)) (now s :: stamps s))
| step_throttle_wait s i attempt backoff :
    tasks s i = AtLock attempt backoff ->
    locked s = false ->
    gt0 (throttle_wait (min_interval self) (now s) (last_request_ts s)) = true ->
    step self s
      (mkLoop (now s) (last_request_ts s) true
         (set_task i (ThrottleSleep attempt backoff
                        (now s + throttle_wait (min_interval self) (now s) (last_request_ts s))%Q)
                   (tasks s))
         (stamps s))
| step_throttle_wake s i attempt backoff wake :
    tasks s i = ThrottleSleep attempt backoff wake ->
    (wake <= now s)%Q ->
    step self s
      (mkLoop (now s) (now s) false
         (set_task i (InGet attempt backoff) (tasks s)) (now s :: stamps s))
| step_answer s i attempt backoff answer :
    tasks s i = InGet attempt backoff ->
    step self s
      (mkLoop (now s) (last_request_ts s) (locked s)
         (set_task i
            (if retries self attempt answer
             then BackoffSleep attempt (backoff * backoff_factor self)%Q
                    (now s + backoff * backoff_factor self)%Q
             else Finished) (tasks s))
         (stamps s))
| step_backoff_wake s i attempt backoff wake :
    tasks s i = BackoffSleep attempt backoff wake ->
    (wake <= now s)%Q ->
    step self s
      (mkLoop (now s) (last_request_ts s) (locked s)
         (set_task i (AtLock (attempt + 1) backoff) (tasks s)) (stamps s)).

Inductive reachable (self : SerpAPIWrapper) (t0 : Q) : loop -> Prop :=
| reach_start : reachable self t0 (start t0)
| reach_step s s' : reachable self t0 s -> step self s s' -> reachable self t0 s'.

(** Consecutive attempts, newest first, are at least [interval] apart. *)
Fixpoint spaced (interval : Q) (l : list Q) : Prop :=
  match l with
  | t2 :: ((t1 :: _) as l') => (t1 + interval <= t2)%Q /\ spaced interval l'
  | _ => True
  end.

(** What every reachable state of the event loop satisfies: the attempts
    issued so far are spaced, the stamp is the time of the newest one, and
    the only task that can sleep inside [_throttle] is the holder of the
    lock, due to wake no earlier than one interval after the stamp. *)
Record invariant (self : SerpAPIWrapper) (s : loop) : Prop := {
  inv_spaced : spaced (min_interval self) (stamps s);
  inv_stamp : forall t rest, stamps s = t :: rest -> last_request_ts s = t;
  inv_holder : forall i attempt backoff wake,
    tasks s i = ThrottleSleep attempt backoff wake ->
    locked s = true /\ (last_request_ts s + min_interval self <= wake)%Q;
  inv_unique : forall i j attempt backoff wake attempt' backoff' wake',
    tasks s i = ThrottleSleep attempt backoff wake ->
    tasks s j = ThrottleSleep attempt' backoff' wake' -> i = j
}.

(** The same for one caller at a time: the attempts issued so far (oldest
    first in the state) are spaced and the stamp is the time of the newest
    one. *)
Definition stamped (self : SerpAPIWrapper) (st : state) : Prop :=
  spaced (min_interval self) (rev (issued st)) /\
  (forall t rest, rev (issued st) = t :: rest -> _last_request_ts st = t).

End EventLoop.

(** ** Observations on runs *)

Module Observations.

(** Kinds of external calls of the lifecycle manager. *)
Definition is_download (ev : LocalIntelligence.event) : bool :=
  match ev with LocalIntelligence.Ev_hf_hub_download _ _ _ => true | _ => false end.

Definition is_inference (ev : LocalIntelligence.event) : bool :=
  match ev with
  | LocalIntelligence.Ev_create_chat_completion _ _ _ => true
  | _ => false
  end.

(** The delays the retry loop sleeps when it backs off [n] times in a
    row, entered with [backoff]: each is the previous one times
    [factor]. *)
Fixpoint backoffs (factor : Q) (n : nat) (backoff : Q) : list Q :=
  match n with
  | O => []
  | Datatypes.S n' => (backoff * factor)%Q :: backoffs factor n' (backoff * factor)%Q
  end.

(** The two shapes of a lookup result. *)
Definition is_error_dict (v : pyval) : Prop :=
  exists msg, v = PyDict [ ("error", PyStr msg) ].

Definition is_projection (v : pyval) : Prop :=
  exists snippets kg,
    v = PyDict [ ("snippets", PyList snippets); ("knowledge_graph", kg) ] /\
    (length snippets <= 3)%nat.

Definition well_shaped (v : pyval) : Prop := is_error_dict v \/ is_projection v.

End Observations.

(** ** [ui_tester.py] *)

Module UiTester.

(** [s.rstrip(c)] for a one-character set. *)
Fixpoint rstrip (s : string) (c : ascii) : string :=
  match s with
  | EmptyString => EmptyString
  | String a s' =>
      match rstrip s' c with
      | EmptyString => if Ascii.eqb a c then EmptyString else String a EmptyString
      | r => String a r
      end
  end.

(** [str(n)] of an int. *)
Definition str_int (n : Z) : string := NilZero.string_of_int (Z.to_int n).

(** [str(b).lower()] of a bool. *)
Definition lower_bool (b : bool) : string := if b then "true" else "false".

(** The multipart request [client.post] sends. *)
Record request : Type := {
  url : string;
  file : string * list Byte.byte * string;   (* name, content, content type *)
  data : list (string * string)
}.

Record response : Type := {
  status_code : Z;
  text : string;
  json : result pyval
}.

Section Ui.

(** [os.getenv("API_BASE_URL", "http://127.0.0.1:8000")], read once at
    import. *)
Variable DEFAULT_API_BASE : string.
(** [json.dumps(payload, indent=2)] and [str(e)]. *)
Variable json_dumps : pyval -> result string.
Variable str : exn -> string.
(** The server behind [client.post]. *)
Variable post : request -> result response.

(** [api_base_url.rstrip("/") or DEFAULT_API_BASE]. *)
Definition api_base (api_base_url : string) : string :=
  match rstrip api_base_url "/" with
  | EmptyString => DEFAULT_API_BASE
  | b => b
  end.

(** [call_api].  [image] is [None] or a PIL image, given by what saving it
    as JPEG yields.  The result is the text shown and the requests sent. *)
Definition call_api (image : option (result (list Byte.byte))) (deep_search : bool)
    (api_base_url : string) : string * list request :=
  match image with
  | None => ("Please upload an image.", [])
  | Some save =>
      let url := api_base api_base_url ++ "/api/v1/food/analyze" in
      match save with
      | Raise e => ("Error: " ++ str e, [])
      | Return image_bytes =>
          let req := {| url := url;
                        file := ("upload.jpg", image_bytes, "image/jpeg");
                        data := [ ("deep_search", lower_bool deep_search) ] |} in
          match post req with
          | Raise e => ("Error: " ++ str e, [req])
          | Return resp =>
              if negb (status_code resp =? 200)
              then ("HTTP " ++ str_int (status_code resp) ++ ": " ++ text resp, [req])
              else
                match rbind (json resp) json_dumps with
                | Return shown => (shown, [req])
                | Raise e => ("Error: " ++ str e, [req])
                end
          end
      end
  end.

End Ui.

(** The last character of a string, if any. *)
Fixpoint last_char (s : string) : option ascii :=
  match s with
  | EmptyString => None
  | String a EmptyString => Some a
  | String _ s' => last_char s'
  end.

(** [n] copies of a character. *)
Fixpoint replicate (n : nat) (c : ascii) : string :=
  match n with
  | O => EmptyString
  | Datatypes.S n' => String c (replicate n' c)
  end.

End UiTester.

(** ** Concrete data for the examples *)

Module Samples.

(** The raw model text of the normalisation example. *)
Definition noisy_text : string :=
  "noise { " ++ quoted "overall_description" ++ ": " ++ quoted "apple" ++ " } trailing".

Definition apple : pyval := PyDict [ ("overall_description", PyStr "apple") ].

Definition settings : Settings :=
  {| LOCAL_MODELS_DIR := "models";
     LOCAL_MODEL_LIGHT_REPO := "light/repo";
     LOCAL_MODEL_LIGHT_FILENAME := "light.gguf";
     LOCAL_MODEL_HEAVY_REPO := "heavy/repo";
     LOCAL_MODEL_HEAVY_FILENAME := "heavy.gguf";
     SERPAPI_API_KEY := Some "key";
     SERPAPI_MIN_INTERVAL := 1;
     SERPAPI_MAX_RETRIES := 2;
     SERPAPI_BACKOFF_FACTOR := 2 |}.

Definition settings_without_key : Settings :=
  {| LOCAL_MODELS_DIR := "models";
     LOCAL_MODEL_LIGHT_REPO := "light/repo";
     LOCAL_MODEL_LIGHT_FILENAME := "light.gguf";
     LOCAL_MODEL_HEAVY_REPO := "heavy/repo";
     LOCAL_MODEL_HEAVY_FILENAME := "heavy.gguf";
     SERPAPI_API_KEY := None;
     SERPAPI_MIN_INTERVAL := 1;
     SERPAPI_MAX_RETRIES := 2;
     SERPAPI_BACKOFF_FACTOR := 2 |}.

(** A rendering of exceptions as text. *)
Definition str (e : exn) : string :=
  match e with
  | HTTPException _ detail => detail
  | HTTPStatusError 429 => "429 Too Many Requests"
  | HTTPStatusError _ => "server error"
  | HTTPError msg => msg
  | Exception msg => msg
  end.

(** A server that answers every attempt at once with the given status
    and no usable body. *)
Definition server (status : Z) : Search.world :=
  {| Search.network := fun _ =>
       (0%Q, Return {| Search.status_code := status;
                       Search.json := Raise (Exception "JSONDecodeError") |});
     Search.oversleep := fun _ => 0%Q |}.

(** A server whose every answer is the given payload with status 200. *)
Definition server_ok (payload : pyval) : Search.world :=
  {| Search.network := fun _ =>
       (0%Q, Return {| Search.status_code := 200; Search.json := Return payload |});
     Search.oversleep := fun _ => 0%Q |}.

(** An outside where the artifact download fails, and one where
    everything works and the engine answers the noisy text. *)
Definition offline : LocalIntelligence.world :=
  {| LocalIntelligence.import_llama_cpp := Return tt;
     LocalIntelligence.import_llama_chat_format := Return tt;
     LocalIntelligence.hf_hub_download := fun _ _ _ => Raise (Exception "ConnectionError");
     LocalIntelligence.MoondreamChatHandler := fun _ => Return tt;
     LocalIntelligence.Llama_init := fun _ => Return tt;
     LocalIntelligence.create_chat_completion := fun _ _ _ _ =>
       Raise (Exception "RuntimeError") |}.

Definition chat_response (content : pyval) : pyval :=
  PyDict [ ("choices",
            PyList [ PyDict [ ("message", PyDict [ ("content", content) ]) ] ]) ].

Definition online : LocalIntelligence.world :=
  {| LocalIntelligence.import_llama_cpp := Return tt;
     LocalIntelligence.import_llama_chat_format := Return tt;
     LocalIntelligence.hf_hub_download := fun _ filename dir =>
       Return (dir ++ "/" ++ filename);
     LocalIntelligence.MoondreamChatHandler := fun _ => Return tt;
     LocalIntelligence.Llama_init := fun _ => Return tt;
     LocalIntelligence.create_chat_completion := fun _ _ _ _ =>
       Return (chat_response (PyStr noisy_text)) |}.

(** The engine is there but its inference call fails. *)
Definition broken_engine : LocalIntelligence.world :=
  {| LocalIntelligence.import_llama_cpp := Return tt;
     LocalIntelligence.import_llama_chat_format := Return tt;
     LocalIntelligence.hf_hub_download := fun _ filename dir =>
       Return (dir ++ "/" ++ filename);
     LocalIntelligence.MoondreamChatHandler := fun _ => Return tt;
     LocalIntelligence.Llama_init := fun _ => Return tt;
     LocalIntelligence.create_chat_completion := fun _ _ _ _ =>
       Raise (Exception "RuntimeError") |}.

(** Stands for [base64.b64encode]: the encoding of the five bytes of
    [b"image"], the only input the examples use. *)
Definition b64encode (bytes : list Byte.byte) : string := "aW1hZ2U=".

Definition image : list Byte.byte :=
  [Byte.x69; Byte.x6d; Byte.x61; Byte.x67; Byte.x65].

(** A fast request, then an explicit load of the heavy tier. *)
Definition session : list (LocalIntelligence.world * LocalIntelligence.call) :=
  [ (online, LocalIntelligence.Call_analyze_image image false);
    (online, LocalIntelligence.Call_load_model "heavy") ].

(** A payload with a knowledge graph, four organic results and fields the
    projection drops. *)
Definition organic (n : string) : pyval :=
  PyDict [ ("position", PyStr n); ("title", PyStr ("title " ++ n));
           ("link", PyStr ("https://example.org/" ++ n));
           ("snippet", PyStr ("snippet " ++ n)) ].

Definition payload : pyval :=
  PyDict [ ("search_metadata", PyDict [ ("status", PyStr "Success") ]);
           ("knowledge_graph", PyDict [ ("title", PyStr "Apple") ]);
           ("organic_results",
            PyList [ organic "1"; organic "2"; organic "3"; organic "4" ]) ].

End Samples.

(** ** More concrete data *)

Module MoreSamples.

(** A client whose heavy engine is resident. *)
Definition heavy_engine : LocalIntelligence.Llama :=
  LocalIntelligence.mkLlama "models/heavy.gguf" 4096 0 true.

Definition with_heavy : LocalIntelligence.LocalIntelligenceClient :=
  LocalIntelligence.mkClient "models" None (Some heavy_engine).

Definition light_engine : LocalIntelligence.Llama :=
  LocalIntelligence.mkLlama "models/light.gguf" 2048 0 false.

(** A server that is rate limited for the first attempt only. *)
Definition flaky : Search.world :=
  {| Search.network := fun n =>
       if Nat.eqb n 0
       then (0%Q, Return {| Search.status_code := 429;
                            Search.json := Raise (Exception "JSONDecodeError") |})
       else (0%Q, Return {| Search.status_code := 200;
                            Search.json := Return Samples.payload |});
     Search.oversleep := fun _ => 0%Q |}.

(** An outside where the engine library is not installed; the download
    and the constructors would work. *)
Definition no_llama_cpp : LocalIntelligence.world :=
  {| LocalIntelligence.import_llama_cpp := Raise (Exception "ModuleNotFoundError");
     LocalIntelligence.import_llama_chat_format := Raise (Exception "ModuleNotFoundError");
     LocalIntelligence.hf_hub_download := fun _ filename dir =>
       Return (dir ++ "/" ++ filename);
     LocalIntelligence.MoondreamChatHandler := fun _ => Return tt;
     LocalIntelligence.Llama_init := fun _ => Return tt;
     LocalIntelligence.create_chat_completion := fun _ _ _ _ =>
       Return (Samples.chat_response (PyStr Samples.noisy_text)) |}.

(** A server that is rate limited for the first attempt and fails with
    status 500 from then on. *)
Definition overloaded : Search.world :=
  {| Search.network := fun n =>
       (0%Q, Return {| Search.status_code := if Nat.eqb n 0 then 429 else 500;
                       Search.json := Raise (Exception "JSONDecodeError") |});
     Search.oversleep := fun _ => 0%Q |}.

(** An upload that is not an image. *)
Definition text_file : Router.UploadFile :=
  {| Router.content_type := Some "text/plain";
     Router.read := Return Samples.image |}.

(** A backend that answers every request with status 503. *)
Definition unavailable (req : UiTester.request) : result UiTester.response :=
  Return {| UiTester.status_code := 503;
            UiTester.text := "Service Unavailable";
            UiTester.json := Raise (Exception "JSONDecodeError") |}.

(** The request the front end sends for the sample image with the deep
    flag set and the base URL [http://localhost:8000//]. *)
Definition upload_request : UiTester.request :=
  {| UiTester.url := "http://localhost:8000/api/v1/food/analyze";
     UiTester.file := ("upload.jpg", Samples.image, "image/jpeg");
     UiTester.data := [ ("deep_search", "true") ] |}.

(** A stand-in for [json.dumps]; the runs below never reach it. *)
Definition json_dumps (v : pyval) : result string := Return "{}".

End MoreSamples.

(** * Properties *)

(** ** The lifecycle manager, the dispatcher and the route *)

Module LocalIntelligenceFacts.
Import LocalIntelligence.

Section Facts.
Variable settings : Settings.
Variable json_loads : string -> result pyval.
Variable b64encode : list Byte.byte -> string.

Ltac unfold_run :=
  unfold _load_model, _get_model_path, set_light_model, set_heavy_model,
    try_except, bind, extern, lift, get_self, put_self, ret, raise in *;
  cbn [outcome final writes calls light_model heavy_model models_dir truthy app] in *.

Ltac answers w :=
  repeat match goal with
    | |- context [import_llama_cpp w] =>
        destruct (import_llama_cpp w) as [[]|]; unfold_run
    | |- context [import_llama_chat_format w] =>
        destruct (import_llama_chat_format w) as [[]|]; unfold_run
    | |- context [hf_hub_download w ?a ?b ?c] =>
        destruct (hf_hub_download w a b c); unfold_run
    | |- context [MoondreamChatHandler w ?a] =>
        destruct (MoondreamChatHandler w a); unfold_run
    | |- context [Llama_init w ?a] =>
        destruct (Llama_init w a) as [[]|]; unfold_run
    end.

Ltac tiers model_type :=
  unfold _load_model;
  (destruct (String.eqb model_type "light");
   [ | destruct (String.eqb model_type "heavy") ]).

Lemma load_model_single_slot (w : world) (model_type : string) self :
  single_slot self ->
  Forall single_slot (writes (_load_model settings w model_type self)) /\
  single_slot (final (_load_model settings w model_type self)).
Proof.
  intros Hs. unfold single_slot in *.
  destruct self as [dir [l|] [h|]]; cbn in Hs;
    try (destruct Hs; discriminate);
    tiers model_type;
    unfold_run; answers w;
    (split; [ repeat apply Forall_cons; try apply Forall_nil | ]);
    cbn; auto.
Qed.

(** The [try] block of [analyze_image] with its handler always returns,
    assigns nothing and makes exactly the inference call on the engine it
    is given. *)
Lemma guarded_infer_run (w : world) m messages deep_search self :
  try_except (infer json_loads w (Some m) messages deep_search)
             (fun _ => ret emergency_fallback) self
  = mkRun (Return (local_answer json_loads w m messages deep_search)) self []
          [Ev_create_chat_completion m messages (max_tokens_for deep_search)].
Proof.
  unfold infer, local_answer. unfold_run.
  destruct (create_chat_completion w m messages (max_tokens_for deep_search) (PyFloat "0.2"))
    as [response|e]; cbn.
  - destruct (rbind (content_of response) (_parse_local_response json_loads)); reflexivity.
  - reflexivity.
Qed.

Lemma guarded_infer_returns (w : world) model messages deep_search self :
  exists v cs,
    try_except (infer json_loads w model messages deep_search)
               (fun _ => ret emergency_fallback) self
    = mkRun (Return v) self [] cs.
Proof.
  destruct model as [m|].
  - rewrite guarded_infer_run. eauto.
  - cbn. eauto.
Qed.

(** [analyze_image] is [_load_model] for the tier of the flag, followed,
    when that returns, by the guarded inference on the slot of the flag. *)
Lemma analyze_image_cases (w : world) image_bytes deep_search self :
  match _load_model settings w (if deep_search : bool then "heavy" else "light") self with
  | mkRun (Return _) self' ws cs =>
      exists v cs',
        try_except
          (infer json_loads w
             (if deep_search then heavy_model self' else light_model self')
             (messages_for ("data:image/jpeg;base64," ++ b64encode image_bytes))
             deep_search)
          (fun _ => ret emergency_fallback) self'
        = mkRun (Return v) self' [] cs' /\
        analyze_image settings json_loads b64encode w image_bytes deep_search self
        = mkRun (Return v) self' ws (cs ++ cs')
  | mkRun (Raise e) self' ws cs =>
      analyze_image settings json_loads b64encode w image_bytes deep_search self
      = mkRun (Raise e) self' ws cs
  end.
Proof.
  destruct (_load_model settings w (if deep_search then "heavy" else "light") self)
    as [[[]|e] self' ws cs] eqn:L;
    unfold analyze_image; unfold bind at 1; rewrite L; [ | reflexivity ].
  destruct (guarded_infer_returns w
              (if deep_search then heavy_model self' else light_model self')
              (messages_for ("data:image/jpeg;base64," ++ b64encode image_bytes))
              deep_search self') as (v & cs' & E).
  exists v, cs'. split; [ exact E | ].
  unfold bind, get_self. rewrite E. cbn. rewrite app_nil_r. reflexivity.
Qed.

Lemma analyze_image_writes (w : world) image_bytes deep_search self :
  writes (analyze_image settings json_loads b64encode w image_bytes deep_search self)
  = writes (_load_model settings w (if deep_search then "heavy" else "light") self) /\
  final (analyze_image settings json_loads b64encode w image_bytes deep_search self)
  = final (_load_model settings w (if deep_search then "heavy" else "light") self).
Proof.
  pose proof (analyze_image_cases w image_bytes deep_search self) as H.
  destruct (_load_model settings w (if deep_search then "heavy" else "light") self)
    as [[[]|e] self' ws cs].
  - destruct H as (v & cs' & _ & ->). auto.
  - rewrite H. auto.
Qed.

Lemma perform_single_slot wc self :
  single_slot self ->
  Forall single_slot (snd (perform settings json_loads b64encode wc self)) /\
  single_slot (fst (perform settings json_loads b64encode wc self)).
Proof.
  intros Hs. destruct wc as [w [model_type | image_bytes deep_search]];
    unfold perform; cbn [fst snd].
  - apply load_model_single_slot; assumption.
  - destruct (analyze_image_writes w image_bytes deep_search self) as [-> ->].
    apply load_model_single_slot; assumption.
Qed.

Lemma timeline_single_slot cs : forall self,
  single_slot self ->
  Forall single_slot (timeline settings json_loads b64encode cs self) /\
  single_slot (after settings json_loads b64encode cs self).
Proof.
  induction cs as [|wc cs IH]; intros self Hs; cbn [timeline after].
  - split; [ constructor; [assumption | constructor] | assumption ].
  - destruct (perform_single_slot wc self Hs) as [Hw Hf].
    destruct (IH _ Hf) as [Ht Ha].
    split; [ | assumption ].
    constructor; [ assumption | ].
    apply Forall_app; split; assumption.
Qed.

Lemma init_single_slot dir : single_slot (__init__ dir).
Proof. left; reflexivity. Qed.

Lemma load_model_well_configured (w : world) (model_type : string) self :
  well_configured self ->
  well_configured (final (_load_model settings w model_type self)).
Proof.
  intros Hc.
  destruct self as [dir [l|] [h|]];
    tiers model_type;
    unfold_run; answers w; try exact Hc;
    intros [] m'; cbn; intros E; try discriminate;
    try (injection E as <-; reflexivity);
    try (apply (Hc true m'); exact E);
    try (apply (Hc false m'); exact E).
Qed.

Lemma perform_well_configured wc self :
  well_configured self ->
  well_configured (fst (perform settings json_loads b64encode wc self)).
Proof.
  intros Hc. destruct wc as [w [model_type | image_bytes deep_search]];
    unfold perform; cbn [fst snd].
  - apply load_model_well_configured; assumption.
  - destruct (analyze_image_writes w image_bytes deep_search self) as [_ ->].
    apply load_model_well_configured; assumption.
Qed.

Lemma after_well_configured cs : forall self,
  well_configured self ->
  well_configured (after settings json_loads b64encode cs self).
Proof.
  induction cs as [|wc cs IH]; intros self Hc; cbn [after]; [ assumption | ].
  apply IH, perform_well_configured, Hc.
Qed.

Lemma init_well_configured dir : well_configured (__init__ dir).
Proof. intros [] m; cbn; discriminate. Qed.

(** [_load_model] called for the tier of the flag: every external call
    belongs to that tier; on return the slot of the flag is filled and
    the other one empty.  A failure comes from an import, from the
    download or from a constructor. *)
Lemma load_tier_spec (w : world) (deep_search : bool) self :
  single_slot self ->
  Forall (of_tier settings deep_search)
         (calls (_load_model settings w (tier_name deep_search) self)) /\
  (outcome (_load_model settings w (tier_name deep_search) self) = Return tt ->
   exists m,
     slot deep_search (final (_load_model settings w (tier_name deep_search) self)) = Some m /\
     slot (negb deep_search) (final (_load_model settings w (tier_name deep_search) self)) = None).
Proof.
  intros Hs. unfold single_slot in Hs.
  destruct self as [dir [l|] [h|]]; cbn in Hs;
    try (destruct Hs; discriminate);
    destruct deep_search; unfold tier_name, _load_model;
    cbn [String.eqb Ascii.eqb Bool.eqb];
    unfold_run; answers w;
    (split; [ repeat apply Forall_cons; try apply Forall_nil; cbn; auto
            | cbn; intros; try discriminate; eauto ]).
Qed.

Lemma load_failure_cause (w : world) (deep_search : bool) self e :
  outcome (_load_model settings w (tier_name deep_search) self) = Raise e ->
  import_failure w e \/ load_failure settings w self deep_search e.
Proof.
  unfold import_failure, load_failure.
  destruct self as [dir [l|] [h|]];
    destruct deep_search; unfold tier_name, _load_model;
    cbn [String.eqb Ascii.eqb Bool.eqb];
    unfold_run;
    repeat match goal with
      | |- context [import_llama_cpp w] =>
          destruct (import_llama_cpp w) as [[]|] eqn:?; unfold_run
      | |- context [import_llama_chat_format w] =>
          destruct (import_llama_chat_format w) as [[]|] eqn:?; unfold_run
      | |- context [hf_hub_download w ?a ?b ?c] =>
          destruct (hf_hub_download w a b c) eqn:?; unfold_run
      | |- context [MoondreamChatHandler w ?a] =>
          destruct (MoondreamChatHandler w a) eqn:?; unfold_run
      | |- context [Llama_init w ?a] =>
          destruct (Llama_init w a) as [[]|] eqn:?; unfold_run
      end;
    cbn; intros E; try discriminate; injection E as <-; eauto 7.
Qed.

(** An import that fails makes [_load_model] raise its error at once,
    whatever the name and the attributes. *)
Lemma import_failure_raises (w : world) (model_type : string) self e :
  import_llama_cpp w = Raise e \/
  (import_llama_cpp w = Return tt /\ import_llama_chat_format w = Raise e) ->
  _load_model settings w model_type self = mkRun (Raise e) self [] [].
Proof.
  unfold _load_model, bind, lift.
  intros [-> | [-> ->]]; reflexivity.
Qed.

(** With both imports succeeding, a load of a resident tier is the empty
    run; in any case it assigns nothing and calls nothing. *)
Lemma resident_load_run (w : world) (deep_search : bool) self m :
  slot deep_search self = Some m ->
  let r := _load_model settings w (tier_name deep_search) self in
  final r = self /\ writes r = [] /\ calls r = [] /\
  (imported w -> r = mkRun (Return tt) self [] []).
Proof.
  unfold imported.
  destruct self as [dir l h]; destruct deep_search; cbn [slot heavy_model light_model];
    intros ->; unfold tier_name, _load_model; cbn [String.eqb Ascii.eqb Bool.eqb];
    unfold_run; answers w; cbn;
    (repeat split; try reflexivity; intros [? ?]; congruence).
Qed.

(** C1.  Single-slot residency: over every sequence of [_load_model] and
    [analyze_image] calls on a fresh client, whatever the outside
    answers, each value the attributes take has at most one of
    [light_model], [heavy_model] set; a load of the heavy tier that
    returns leaves the light slot empty and the heavy one filled, and the
    other way round; loading a tier that is resident assigns nothing,
    calls nothing and leaves the attributes as they are, and it returns
    whenever the two imports at the head of [_load_model] succeed, as
    they do once the modules are loaded (an engine is resident only after
    a load whose imports succeeded). *)
Theorem single_slot_residency (dir : string) (cs : list (world * call)) :
  let self := after settings json_loads b64encode cs (__init__ dir) in
  Forall single_slot (timeline settings json_loads b64encode cs (__init__ dir)) /\
  (forall w,
     outcome (_load_model settings w "heavy" self) = Return tt ->
     light_model (final (_load_model settings w "heavy" self)) = None /\
     heavy_model (final (_load_model settings w "heavy" self)) <> None) /\
  (forall w,
     outcome (_load_model settings w "light" self) = Return tt ->
     heavy_model (final (_load_model settings w "light" self)) = None /\
     light_model (final (_load_model settings w "light" self)) <> None) /\
  (forall w d m h,
     let r := _load_model settings w "light" (mkClient d (Some m) h) in
     final r = mkClient d (Some m) h /\ writes r = [] /\ calls r = [] /\
     (imported w -> r = mkRun (Return tt) (mkClient d (Some m) h) [] [])) /\
  (forall w d l m,
     let r := _load_model settings w "heavy" (mkClient d l (Some m)) in
     final r = mkClient d l (Some m) /\ writes r = [] /\ calls r = [] /\
     (imported w -> r = mkRun (Return tt) (mkClient d l (Some m)) [] [])).
Proof.
  cbn zeta.
  destruct (timeline_single_slot cs (__init__ dir) (init_single_slot dir)) as [Ht Ha].
  split; [ exact Ht | ].
  set (self := after settings json_loads b64encode cs (__init__ dir)) in *.
  clearbody self. clear Ht.
  assert (Hload : forall w,
    (outcome (_load_model settings w "heavy" self) = Return tt ->
     light_model (final (_load_model settings w "heavy" self)) = None /\
     heavy_model (final (_load_model settings w "heavy" self)) <> None) /\
    (outcome (_load_model settings w "light" self) = Return tt ->
     heavy_model (final (_load_model settings w "light" self)) = None /\
     light_model (final (_load_model settings w "light" self)) <> None)).
  { intros w.
    destruct self as [d [l|] [h|]]; unfold single_slot in Ha; cbn in Ha;
      try (destruct Ha; discriminate);
      unfold _load_model; cbn [String.eqb Ascii.eqb Bool.eqb];
      unfold_run; answers w; cbn;
      split; intros; try discriminate; split; congruence. }
  split; [ intros w; apply (Hload w) | ].
  split; [ intros w; apply (Hload w) | ].
  split.
  - intros w d m h. exact (resident_load_run w false (mkClient d (Some m) h) m eq_refl).
  - intros w d l m. exact (resident_load_run w true (mkClient d l (Some m)) m eq_refl).
Qed.

(** C2.  Tier-preserving failover: when the primary path raises, every
    external call of the fallback belongs to the tier of the request's
    flag (download, construction, inference, token budget), and when the
    fallback returns, its last call is the inference on the engine
    resident in the slot of the flag, built with that tier's context
    size, while the opposite slot is empty. *)
Theorem failover_preserves_tier (dir : string) (cs : list (world * call))
    (cloud_error : exn) (w : world) (image_bytes : list Byte.byte)
    (deep_search : bool) :
  let self := after settings json_loads b64encode cs (__init__ dir) in
  let r := Vision.analyze_food_image_with_search settings json_loads b64encode
             (Raise cloud_error) w image_bytes deep_search self in
  Forall (of_tier settings deep_search) (calls r) /\
  (forall v, outcome r = Return v ->
     exists m pre,
       slot deep_search (final r) = Some m /\
       slot (negb deep_search) (final r) = None /\
       n_ctx m = n_ctx_for deep_search /\
       calls r = (pre ++ [Ev_create_chat_completion m
                            (messages_for ("data:image/jpeg;base64," ++ b64encode image_bytes))
                            (max_tokens_for deep_search)])%list /\
       v = local_answer json_loads w m
             (messages_for ("data:image/jpeg;base64," ++ b64encode image_bytes))
             deep_search).
Proof.
  cbn zeta.
  destruct (timeline_single_slot cs (__init__ dir) (init_single_slot dir)) as [_ Hs].
  pose proof (after_well_configured cs _ (init_well_configured dir)) as Hc.
  set (self := after settings json_loads b64encode cs (__init__ dir)) in *.
  clearbody self.
  unfold Vision.analyze_food_image_with_search.
  pose proof (analyze_image_cases w image_bytes deep_search self) as Hcases.
  remember (messages_for ("data:image/jpeg;base64," ++ b64encode image_bytes))
    as messages eqn:Emessages.
  destruct (load_tier_spec w deep_search self Hs) as [Hcalls Hret].
  pose proof (load_model_well_configured w (tier_name deep_search) self Hc) as Hc'.
  unfold tier_name in *.
  destruct (_load_model settings w (if deep_search then "heavy" else "light") self)
    as [[[]|e] self' ws cs0]; cbn [outcome final calls] in *.
  - destruct (Hret eq_refl) as (m & Hm & Hother).
    destruct Hcases as (v & cs' & Hinfer & Hrun).
    change (if deep_search then heavy_model self' else light_model self')
      with (slot deep_search self') in Hinfer.
    rewrite Hm, guarded_infer_run in Hinfer.
    injection Hinfer as <- <-.
    assert (Hrun' :
      try_except
        (analyze_image settings json_loads b64encode w image_bytes deep_search)
        (fun _ => raise Vision.all_systems_failed) self
      = analyze_image settings json_loads b64encode w image_bytes deep_search self)
      by (unfold try_except; rewrite Hrun; reflexivity).
    rewrite Hrun', Hrun. cbn [outcome final calls].
    split.
    + apply Forall_app; split; [ exact Hcalls | ].
      constructor; [ | constructor ].
      cbn. split; [ exact (Hc' _ _ Hm) | reflexivity ].
    + intros v Hv. injection Hv as Hv. subst v. exists m, cs0.
      repeat split; auto.
  - assert (Hrun' :
      try_except
        (analyze_image settings json_loads b64encode w image_bytes deep_search)
        (fun _ => raise Vision.all_systems_failed) self
      = mkRun (Raise Vision.all_systems_failed) self' ws cs0)
      by (unfold try_except; rewrite Hcases; cbn; rewrite !app_nil_r; reflexivity).
    rewrite Hrun'. cbn [outcome final calls].
    split; [ exact Hcalls | intros; discriminate ].
Qed.

(** C3.  Terminal failure: when the primary path and the local path both
    raise, the dispatcher raises the one "all systems failed" error, an
    [HTTPException] of status 500, and returns no result; the route
    surfaces it as a status-500 failure. *)
Theorem all_systems_failed_is_terminal (str : exn -> string)
    (cloud_error local_error : exn) (w : world)
    (image_bytes : list Byte.byte) (deep_search : bool) self
    (Hlocal : outcome (analyze_image settings json_loads b64encode w image_bytes
                         deep_search self) = Raise local_error) :
  outcome (Vision.analyze_food_image_with_search settings json_loads b64encode
             (Raise cloud_error) w image_bytes deep_search self)
  = Raise (HTTPException 500 "All AI systems failed") /\
  (forall ct,
     String.prefix "image/" ct = true ->
     outcome (Router.analyze_food settings json_loads b64encode str
                (Raise cloud_error) w
                {| Router.content_type := Some ct; Router.read := Return image_bytes |}
                deep_search self)
     = Raise (HTTPException 500 (str (HTTPException 500 "All AI systems failed")))).
Proof.
  assert (E : outcome (Vision.analyze_food_image_with_search settings json_loads
                         b64encode (Raise cloud_error) w image_bytes deep_search self)
              = Raise Vision.all_systems_failed).
  { unfold Vision.analyze_food_image_with_search, try_except.
    destruct (analyze_image settings json_loads b64encode w image_bytes deep_search self)
      as [[v|e] self' ws cs0]; cbn in *; [ discriminate | reflexivity ]. }
  split; [ exact E | ].
  intros ct Hct. unfold Router.analyze_food. cbn [Router.content_type Router.read].
  rewrite Hct. cbn [negb].
  unfold try_except at 1, bind, lift.
  destruct (Vision.analyze_food_image_with_search settings json_loads b64encode
              (Raise cloud_error) w image_bytes deep_search self)
    as [[v|e] self' ws cs0]; cbn in *; [ discriminate | ].
  injection E as ->. reflexivity.
Qed.

(** The dispatcher raises nothing but the terminal error, and only after
    both paths have raised. *)
Lemma dispatcher_raises_only_terminal (cloud : result pyval) (w : world)
    (image_bytes : list Byte.byte) (deep_search : bool) self x :
  outcome (Vision.analyze_food_image_with_search settings json_loads b64encode
             cloud w image_bytes deep_search self) = Raise x ->
  x = Vision.all_systems_failed /\
  (exists e, cloud = Raise e) /\
  (exists e, outcome (analyze_image settings json_loads b64encode w image_bytes
                        deep_search self) = Raise e).
Proof.
  unfold Vision.analyze_food_image_with_search.
  destruct cloud as [v|e]; [ cbn; discriminate | ].
  unfold try_except.
  destruct (analyze_image settings json_loads b64encode w image_bytes deep_search self)
    as [[v|e'] self' ws cs0]; cbn; [ discriminate | ].
  intros [= <-]. eauto.
Qed.

(** C10, as amended.  Once [_load_model] has returned for the requested
    tier, [analyze_image] returns: a failing inference call, or a failing
    extraction or parse of its answer, yields the emergency dict with
    description "Error in local analysis.", estimate "Unknown" and the
    single item "Unidentified".  [analyze_image] raises only what
    [_load_model] raises, and that is the failure of one of the two
    imports of the engine library, of the artifact download or of a
    constructor; a failing import does make it raise, before anything is
    assigned or called.  These are the only local causes of the
    dispatcher's terminal error. *)
Theorem local_path_raises_only_on_load (w : world)
    (image_bytes : list Byte.byte) (deep_search : bool) self :
  let L := _load_model settings w (tier_name deep_search) self in
  let r := analyze_image settings json_loads b64encode w image_bytes deep_search self in
  let messages := messages_for ("data:image/jpeg;base64," ++ b64encode image_bytes) in
  let emergency :=
    PyDict [ ("overall_description", PyStr "Error in local analysis.");
             ("total_calories_estimate", PyStr "Unknown");
             ("items", PyList [
                PyDict [ ("name", PyStr "Unidentified");
                         ("nutrition", PyDict []);
                         ("description", PyStr "Analysis failed") ] ]) ] in
  (outcome L = Return tt ->
     exists v, outcome r = Return v /\
       (forall m e,
          slot deep_search (final L) = Some m ->
          create_chat_completion w m messages (max_tokens_for deep_search)
                                 (PyFloat "0.2") = Raise e ->
          v = emergency) /\
       (forall m response e,
          slot deep_search (final L) = Some m ->
          create_chat_completion w m messages (max_tokens_for deep_search)
                                 (PyFloat "0.2") = Return response ->
          rbind (content_of response) (_parse_local_response json_loads) = Raise e ->
          v = emergency)) /\
  (forall e, outcome r = Raise e ->
     outcome L = Raise e /\
     (import_failure w e \/ load_failure settings w self deep_search e)) /\
  (forall e,
     import_llama_cpp w = Raise e \/
     (import_llama_cpp w = Return tt /\ import_llama_chat_format w = Raise e) ->
     r = mkRun (Raise e) self [] []) /\
  (forall cloud x,
     outcome (Vision.analyze_food_image_with_search settings json_loads b64encode
                cloud w image_bytes deep_search self) = Raise x ->
     exists e, import_failure w e \/ load_failure settings w self deep_search e).
Proof.
  cbn zeta.
  pose proof (analyze_image_cases w image_bytes deep_search self) as Hcases.
  pose proof (load_failure_cause w deep_search self) as Hcause.
  pose proof (fun e H => import_failure_raises w (tier_name deep_search) self e H)
    as Himport.
  remember (messages_for ("data:image/jpeg;base64," ++ b64encode image_bytes))
    as messages eqn:Emessages.
  unfold tier_name in *.
  assert (Hraise : forall e,
            outcome (analyze_image settings json_loads b64encode w image_bytes
                       deep_search self) = Raise e ->
            outcome (_load_model settings w (if deep_search then "heavy" else "light") self)
            = Raise e /\
            (import_failure w e \/ load_failure settings w self deep_search e)).
  { intros e He.
    destruct (_load_model settings w (if deep_search then "heavy" else "light") self)
      as [[[]|e0] self' ws cs0]; cbn [outcome final] in *.
    - destruct Hcases as (v & cs' & _ & Hrun). rewrite Hrun in He. discriminate.
    - rewrite Hcases in He. cbn in He. injection He as ->. auto. }
  split; [ | split; [ | split ] ].
  - intros HL.
    destruct (_load_model settings w (if deep_search then "heavy" else "light") self)
      as [[[]|e0] self' ws cs0]; cbn [outcome final] in *; [ | discriminate ].
    destruct Hcases as (v & cs' & Hinfer & Hrun).
    change (if deep_search then heavy_model self' else light_model self')
      with (slot deep_search self') in Hinfer.
    exists v. rewrite Hrun. split; [ reflexivity | ].
    split.
    + intros m e Hm Hchat. rewrite Hm, guarded_infer_run in Hinfer.
      injection Hinfer as <- _. unfold local_answer. rewrite Hchat. reflexivity.
    + intros m response e Hm Hchat Hparse. rewrite Hm, guarded_infer_run in Hinfer.
      injection Hinfer as <- _. unfold local_answer. rewrite Hchat, Hparse. reflexivity.
  - exact Hraise.
  - intros e He. rewrite (Himport e He) in Hcases. exact Hcases.
  - intros cloud x Hx.
    destruct (dispatcher_raises_only_terminal cloud w image_bytes deep_search self x Hx)
      as (_ & _ & e & He).
    exists e. apply (Hraise e He).
Qed.

End Facts.

(** *** Concrete runs *)

Lemma single_slot_residency_witness :
  Forall single_slot
    (timeline Samples.settings Json.loads Samples.b64encode Samples.session
       (__init__ "models")) /\
  outcome (_load_model Samples.settings Samples.online "light"
             (after Samples.settings Json.loads Samples.b64encode Samples.session
                (__init__ "models"))) = Return tt /\
  heavy_model
    (final (_load_model Samples.settings Samples.online "light"
              (after Samples.settings Json.loads Samples.b64encode Samples.session
                 (__init__ "models")))) = None /\
  imported Samples.online /\
  _load_model Samples.settings Samples.online "heavy" MoreSamples.with_heavy
  = mkRun (Return tt) MoreSamples.with_heavy [] [].
Proof.
  pose proof (single_slot_residency Samples.settings Json.loads Samples.b64encode
                "models" Samples.session) as H.
  cbn zeta in H. destruct H as (Htimeline & _ & Hlight & _ & Hresident).
  assert (Himported : imported Samples.online) by (split; reflexivity).
  split; [ exact Htimeline | ].
  split; [ reflexivity | ].
  split; [ exact (proj1 (Hlight Samples.online eq_refl)) | ].
  split; [ exact Himported | ].
  exact (proj2 (proj2 (proj2
           (Hresident Samples.online "models" None MoreSamples.heavy_engine)))
           Himported).
Defined.

Lemma failover_preserves_tier_witness :
  outcome (Vision.analyze_food_image_with_search Samples.settings Json.loads
             Samples.b64encode (Raise (Exception "Cloud API Down")) Samples.online
             Samples.image true
             (after Samples.settings Json.loads Samples.b64encode Samples.session
                (__init__ "models")))
  = Return Samples.apple /\
  exists m,
    heavy_model
      (final (Vision.analyze_food_image_with_search Samples.settings Json.loads
                Samples.b64encode (Raise (Exception "Cloud API Down")) Samples.online
                Samples.image true
                (after Samples.settings Json.loads Samples.b64encode Samples.session
                   (__init__ "models")))) = Some m /\
    n_ctx m = 4096.
Proof.
  split; [ reflexivity | ].
  destruct (proj2 (failover_preserves_tier Samples.settings Json.loads
                     Samples.b64encode "models" Samples.session
                     (Exception "Cloud API Down") Samples.online Samples.image true)
              Samples.apple eq_refl)
    as (m & pre & Hslot & _ & Hctx & _).
  exists m. split; [ exact Hslot | exact Hctx ].
Defined.

Lemma all_systems_failed_witness :
  outcome (analyze_image Samples.settings Json.loads Samples.b64encode
             Samples.offline Samples.image false (__init__ "models"))
  = Raise (Exception "ConnectionError") /\
  outcome (Vision.analyze_food_image_with_search Samples.settings Json.loads
             Samples.b64encode (Raise (Exception "Cloud Down")) Samples.offline
             Samples.image false (__init__ "models"))
  = Raise (HTTPException 500 "All AI systems failed").
Proof.
  split; [ reflexivity | ].
  exact (proj1 (all_systems_failed_is_terminal Samples.settings Json.loads
                  Samples.b64encode Samples.str (Exception "Cloud Down")
                  (Exception "ConnectionError") Samples.offline Samples.image false
                  (__init__ "models") eq_refl)).
Defined.

Lemma local_path_witness :
  outcome (_load_model Samples.settings Samples.broken_engine (tier_name false)
             (__init__ "models")) = Return tt /\
  outcome (analyze_image Samples.settings Json.loads Samples.b64encode
             Samples.broken_engine Samples.image false (__init__ "models"))
  = Return (PyDict [ ("overall_description", PyStr "Error in local analysis.");
                     ("total_calories_estimate", PyStr "Unknown");
                     ("items", PyList [
                        PyDict [ ("name", PyStr "Unidentified");
                                 ("nutrition", PyDict []);
                                 ("description", PyStr "Analysis failed") ] ]) ]) /\
  analyze_image Samples.settings Json.loads Samples.b64encode
    MoreSamples.no_llama_cpp Samples.image true MoreSamples.with_heavy
  = mkRun (Raise (Exception "ModuleNotFoundError")) MoreSamples.with_heavy [] [].
Proof.
  split; [ reflexivity | ].
  split.
  - destruct (proj1 (local_path_raises_only_on_load Samples.settings Json.loads
                       Samples.b64encode Samples.broken_engine Samples.image false
                       (__init__ "models")) eq_refl)
      as (v & Hv & Hchat & _).
    rewrite Hv. f_equal.
    exact (Hchat (mkLlama "models/light.gguf" 2048 0 false) (Exception "RuntimeError")
             eq_refl eq_refl).
  - exact (proj1 (proj2 (proj2
             (local_path_raises_only_on_load Samples.settings Json.loads
                Samples.b64encode MoreSamples.no_llama_cpp Samples.image true
                MoreSamples.with_heavy)))
             (Exception "ModuleNotFoundError") (or_introl eq_refl)).
Defined.

(** Against C10 as stated: where the engine library cannot be imported,
    the local path raises and the dispatcher ends in its terminal error,
    although nothing was downloaded or constructed and neither the
    download nor a constructor fails on any argument. *)
Lemma missing_engine_library_is_terminal :
  let w := MoreSamples.no_llama_cpp in
  let r := analyze_image Samples.settings Json.loads Samples.b64encode w
             Samples.image false (__init__ "models") in
  outcome r = Raise (Exception "ModuleNotFoundError") /\
  calls r = [] /\
  outcome (Vision.analyze_food_image_with_search Samples.settings Json.loads
             Samples.b64encode (Raise (Exception "Cloud Down")) w
             Samples.image false (__init__ "models"))
  = Raise (HTTPException 500 "All AI systems failed") /\
  ~ (exists e, load_failure Samples.settings w (__init__ "models") false e).
Proof.
  cbn zeta. split; [ reflexivity | ]. split; [ reflexivity | ]. split; [ reflexivity | ].
  intros (e & [H | [(path & _ & H) | (args & H)]]); cbn in H; discriminate.
Qed.

End LocalIntelligenceFacts.

(** ** The output normaliser *)

Module NormalizerFacts.
Import LocalIntelligence.


Lemma len_append a b : len (a ++ b) = len a + len b.
Proof.
  unfold len. induction a as [|c a IH]; cbn [append String.length].
  - reflexivity.
  - rewrite !Nat2Z.inj_succ. lia.
Qed.

Lemma append_assoc (a b c : string) : (a ++ b) ++ c = a ++ b ++ c.
Proof.
  induction a as [|x a IH]; cbn [append]; [ reflexivity | rewrite IH; reflexivity ].
Qed.

Lemma len_nonneg s : 0 <= len s.
Proof. unfold len. lia. Qed.

Lemma find_from_bounds c s : forall i, 0 <= i -> find_from c s i = -1 \/ i <= find_from c s i.
Proof.
  induction s as [|a s IH]; intros i Hi; cbn [find_from].
  - left; reflexivity.
  - destruct (Ascii.eqb a c); [ right; lia | ].
    destruct (IH (i + 1) ltac:(lia)); [ left; assumption | right; lia ].
Qed.

(** A character absent from [pre] is first found in [pre ++ s] where it
    is first found in [s]. *)
Lemma find_from_append c pre s : forall i,
  0 <= i -> find_from c pre i = -1 ->
  find_from c (pre ++ s) i = find_from c s (i + len pre).
Proof.
  induction pre as [|a pre IH]; intros i Hi Habs; cbn [find_from append] in *.
  - f_equal. unfold len. cbn. lia.
  - destruct (Ascii.eqb a c); [ lia | ].
    rewrite IH by (lia || assumption). f_equal.
    unfold len. cbn [String.length]. rewrite Nat2Z.inj_succ. lia.
Qed.

Lemma rfind_from_append c a b : forall i last,
  rfind_from c (a ++ b) i last = rfind_from c b (i + len a) (rfind_from c a i last).
Proof.
  induction a as [|x a IH]; intros i last; cbn [rfind_from append].
  - f_equal. unfold len. cbn. lia.
  - rewrite IH. f_equal.
    unfold len. cbn [String.length]. rewrite Nat2Z.inj_succ. lia.
Qed.

Lemma rfind_from_ge c s : forall i last,
  0 <= i -> rfind_from c s i last = last \/ i <= rfind_from c s i last.
Proof.
  induction s as [|a s IH]; intros i last Hi; cbn [rfind_from].
  - left; reflexivity.
  - destruct (Ascii.eqb a c).
    + destruct (IH (i + 1) i ltac:(lia)) as [-> | H]; right; lia.
    + destruct (IH (i + 1) last ltac:(lia)) as [-> | H]; [ left; reflexivity | right; lia ].
Qed.

(** A character absent from [s] leaves the last position found so far
    untouched. *)
Lemma rfind_from_absent c s : forall i,
  0 <= i -> rfind_from c s i (-1) = -1 ->
  forall j last, rfind_from c s j last = last.
Proof.
  induction s as [|a s IH]; intros i Hi Habs j last; cbn [rfind_from] in *.
  - reflexivity.
  - destruct (Ascii.eqb a c).
    + destruct (rfind_from_ge c s (i + 1) i ltac:(lia)); lia.
    + apply (IH (i + 1)); [ lia | assumption ].
Qed.

Lemma substring_skip pre : forall n s,
  substring (String.length pre) n (pre ++ s) = substring 0 n s.
Proof.
  induction pre as [|a pre IH]; intros n s; cbn [String.length append].
  - reflexivity.
  - cbn [substring]. apply IH.
Qed.

Lemma substring_take body : forall s,
  substring 0 (String.length body) (body ++ s) = body.
Proof.
  induction body as [|a body IH]; intros s; cbn [String.length append substring].
  - destruct s; reflexivity.
  - f_equal. apply IH.
Qed.

Lemma slice_middle pre body post :
  slice (pre ++ body ++ post) (len pre) (len pre + len body) = body.
Proof.
  unfold slice, clamp.
  pose proof (len_nonneg pre). pose proof (len_nonneg body). pose proof (len_nonneg post).
  rewrite !len_append.
  destruct (Z.ltb_spec (len pre) 0); [ lia | ].
  destruct (Z.ltb_spec (len pre + len body) 0); [ lia | ].
  rewrite !Z.min_l by lia.
  replace (len pre + len body - len pre) with (len body) by lia.
  unfold len. rewrite !Nat2Z.id.
  rewrite substring_skip. apply substring_take.
Qed.

Lemma slice_to_substring s n : 0 <= n -> slice_to s n = substring 0 (Z.to_nat n) s.
Proof.
  intros Hn. unfold slice_to, slice, clamp.
  pose proof (len_nonneg s).
  cbn [Z.ltb Z.compare]. rewrite Z.min_l by lia.
  destruct (Z.ltb_spec n 0); [ lia | ].
  rewrite Z.sub_0_r. cbn [Z.to_nat].
  destruct (Z.min_spec n (len s)) as [[Hlt ->] | [Hge ->]]; [ reflexivity | ].
  (* beyond the end, substring stops at the end *)
  unfold len in *. rewrite Nat2Z.id.
  assert (Hle : (String.length s <= Z.to_nat n)%nat) by lia.
  clear -Hle. revert Hle. generalize (Z.to_nat n) as k.
  induction s as [|a s IH]; intros k Hle.
  - destruct k; reflexivity.
  - destruct k as [|k]; cbn [String.length] in Hle; [ lia | ].
    cbn [String.length substring]. f_equal. apply IH. lia.
Qed.

Section Normalizer.

Variable json_loads : string -> result pyval.

Lemma braces_located pre mid post :
  find pre "{" = -1 -> rfind post "}" = -1 ->
  find (pre ++ "{" ++ mid ++ "}" ++ post) "{" = len pre /\
  rfind (pre ++ "{" ++ mid ++ "}" ++ post) "}" + 1 = len pre + len ("{" ++ mid ++ "}").
Proof.
  intros Hpre Hpost. unfold find, rfind in *. split.
  - rewrite find_from_append by (lia || assumption).
    cbn [append find_from Ascii.eqb Bool.eqb]. lia.
  - replace (pre ++ "{" ++ mid ++ "}" ++ post)
      with ((pre ++ "{" ++ mid) ++ "}" ++ post)
      by (rewrite !append_assoc; reflexivity).
    rewrite rfind_from_append.
    cbn [append rfind_from Ascii.eqb Bool.eqb].
    rewrite (rfind_from_absent "}" post 0 ltac:(lia) Hpost).
    cbn [append]. rewrite !len_append.
    change (len (String "{" (mid ++ "}"))) with (len ("{" ++ (mid ++ "}"))).
    change (len (String "{" mid)) with (len ("{" ++ mid)).
    rewrite !len_append. unfold len. cbn [String.length]. lia.
Qed.


Lemma rfind_end_not_minus_one content : rfind content "}" + 1 <> -1.
Proof.
  unfold rfind. destruct (rfind_from_ge "}" content 0 (-1) ltac:(lia)); lia.
Qed.

(** C7.  Output normalisation: on every text the normaliser returns and
    never raises.  It hands [json.loads] the slice from the first opening
    brace to the last closing brace and returns what that yields; when
    there is no opening brace or [json.loads] raises, it returns the
    degraded dict, whose description is the first 200 characters of the
    text followed by three dots and which carries the parsing note.  The
    noisy example yields the [apple] dict. *)
Theorem output_normalization (content : string) :
  let extracted := slice content (find content "{") (rfind content "}" + 1) in
  ((exists v,
      find content "{" <> -1 /\ json_loads extracted = Return v /\
      _parse_local_response json_loads (PyStr content) = Return v) \/
   ((find content "{" = -1 \/ exists e, json_loads extracted = Raise e) /\
    _parse_local_response json_loads (PyStr content) = Return (parse_fallback content))) /\
  (forall pre mid post,
     content = pre ++ "{" ++ mid ++ "}" ++ post ->
     find pre "{" = -1 -> rfind post "}" = -1 ->
     extracted = "{" ++ mid ++ "}") /\
  parse_fallback content
  = PyDict [ ("overall_description", PyStr (substring 0 200 content ++ "..."));
             ("total_calories_estimate", PyStr "Estimated");
             ("items", PyList []);
             ("note", PyStr "Raw output returned due to parsing error.") ] /\
  (json_loads ("{ " ++ quoted "overall_description" ++ ": " ++ quoted "apple" ++ " }")
   = Return Samples.apple ->
   _parse_local_response json_loads (PyStr Samples.noisy_text) = Return Samples.apple).
Proof.
  cbn zeta. split; [ | split; [ | split ] ].
  - unfold _parse_local_response, parse_attempt.
    destruct (Z.eqb_spec (find content "{") (-1)) as [Hs | Hs]; cbn [negb andb].
    + right. split; [ left; assumption | reflexivity ].
    + destruct (Z.eqb_spec (rfind content "}" + 1) (-1)) as [He | He]; cbn [negb].
      * exfalso. exact (rfind_end_not_minus_one content He).
      * destruct (json_loads (slice content (find content "{") (rfind content "}" + 1)))
          as [v | e] eqn:E.
        -- left. exists v. auto.
        -- right. split; [ right; exists e; reflexivity | reflexivity ].
  - intros pre mid post -> Hpre Hpost.
    destruct (braces_located pre mid post Hpre Hpost) as [-> ->].
    replace (pre ++ "{" ++ mid ++ "}" ++ post)
      with (pre ++ ("{" ++ mid ++ "}") ++ post)
      by (rewrite !append_assoc; reflexivity).
    apply slice_middle.
  - unfold parse_fallback. rewrite slice_to_substring by lia. reflexivity.
  - intros H. unfold _parse_local_response, parse_attempt.
    change (find Samples.noisy_text "{") with 6.
    change (rfind Samples.noisy_text "}" + 1) with 40.
    cbn [Z.eqb negb andb Pos.eqb].
    change (slice Samples.noisy_text 6 40)
      with ("{ " ++ quoted "overall_description" ++ ": " ++ quoted "apple" ++ " }").
    rewrite H. reflexivity.
Qed.

End Normalizer.

(** *** Concrete runs *)

Lemma output_normalization_witness :
  Json.loads ("{ " ++ quoted "overall_description" ++ ": " ++ quoted "apple" ++ " }")
  = Return Samples.apple /\
  _parse_local_response Json.loads (PyStr Samples.noisy_text) = Return Samples.apple.
Proof.
  split; [ reflexivity | ].
  exact (proj2 (proj2 (proj2 (output_normalization Json.loads Samples.noisy_text)))
           eq_refl).
Defined.

End NormalizerFacts.

(** ** The search client *)

Module SearchFacts.
Import Search.

Section Facts.

Variable self : SerpAPIWrapper.
Variable w : world.
Variable str : exn -> string.

(** The body of [search_food_info] turns every exception into an error
    dict: it always returns. *)
Lemma search_body_returns query st :
  exists v, snd (search_body self w str query st) = Return v.
Proof.
  unfold search_body.
  destruct (key_missing (api_key self)); [ cbn; eauto | ].
  unfold try_except.
  match goal with
  | |- context [match ?m st with _ => _ end] => destruct (m st) as [st' [v | e]]
  end; cbn; try destruct (is_httpx_HTTPError e); cbn; eauto.
Qed.

Lemma cache_find_head query v c : cache_find query ((query, v) :: c) = Some v.
Proof. cbn. rewrite String.eqb_refl. reflexivity. Qed.

(** C4, as amended.  The cache memoizes whatever a lookup returned, error
    results included: a lookup for a query followed at once by a second
    lookup for the same query gives the first one's result again, which
    is the cached entry, with no further network attempt, sleep or
    throttle stamp, whatever the outside would have answered. *)
Theorem lookup_is_memoized (w' : world) (query : string) (st : state) :
  let '(st1, r1) := search_food_info self w str query st in
  let '(st2, r2) := search_food_info self w' str query st1 in
  (exists v, r1 = Return v /\ r2 = Return v /\ cache_find query (cache st1) = Some v) /\
  trace st2 = trace st1 /\ issued st2 = issued st1 /\
  clock st2 = clock st1 /\ _last_request_ts st2 = _last_request_ts st1.
Proof.
  unfold search_food_info at 1.
  destruct (cache_find query (cache st)) as [v | ] eqn:Hfind.
  - unfold search_food_info. cbn [cache set_cache].
    rewrite cache_find_head. cbn. eauto 10 using cache_find_head.
  - destruct (search_body_returns query st) as [v Hv].
    destruct (search_body self w str query st) as [st' r]. cbn in Hv. subst r.
    unfold search_food_info. cbn [cache set_cache firstn maxsize].
    rewrite cache_find_head. cbn. eauto 10 using cache_find_head.
Qed.


Lemma cache_values_remove (P : pyval -> Prop) query (c : list (string * pyval)) :
  Forall (fun kv => P (snd kv)) c ->
  Forall (fun kv => P (snd kv)) (cache_remove query c).
Proof.
  intros H. unfold cache_remove. rewrite Forall_forall in *.
  intros kv Hin. apply filter_In in Hin. apply H, Hin.
Qed.

Lemma cache_values_firstn (P : pyval -> Prop) n : forall (c : list (string * pyval)),
  Forall (fun kv => P (snd kv)) c ->
  Forall (fun kv => P (snd kv)) (firstn n c).
Proof.
  induction n as [|n IH]; intros c H; [ constructor | ].
  destruct H as [|kv c Hkv Hc]; cbn [firstn]; constructor; auto.
Qed.

Lemma cache_find_value (P : pyval -> Prop) query c v :
  Forall (fun kv => P (snd kv)) c -> cache_find query c = Some v -> P v.
Proof.
  induction c as [|[k x] c IH]; cbn; intros H Hf; [ discriminate | ].
  inversion H; subst.
  destruct (String.eqb k query); [ injection Hf as <-; assumption | auto ].
Qed.

(** C8.  Missing credential: without an API key the body returns the
    "API Key missing" dict and leaves the whole state as it was, so no
    network attempt is made, the throttle is not touched and nothing is
    raised; over any sequence of lookups on a fresh wrapper every result
    is that dict and the trace stays empty. *)
Theorem missing_key_short_circuit
    (Hkey : key_missing (api_key self) = true) (query : string) (st : state) :
  search_body self w str query st = (st, Return (error_result "API Key missing")) /\
  (forall queries t0,
     let '(st', rs) := lookups self w str queries (initial t0) in
     trace st' = [] /\ issued st' = [] /\
     _last_request_ts st' = _last_request_ts (initial t0) /\ clock st' = t0 /\
     Forall (fun r => r = Return (error_result "API Key missing")) rs).
Proof.
  assert (Hbody : forall q s,
            search_body self w str q s = (s, Return (error_result "API Key missing"))).
  { intros q s. unfold search_body. rewrite Hkey. reflexivity. }
  split; [ apply Hbody | ].
  intros queries t0.
  set (P := fun v : pyval => v = error_result "API Key missing").
  assert (Hgen : forall s,
            Forall (fun kv => P (snd kv)) (cache s) ->
            let '(st', rs) := lookups self w str queries s in
            trace st' = trace s /\ issued st' = issued s /\
            _last_request_ts st' = _last_request_ts s /\ clock st' = clock s /\
            Forall (fun r => r = Return (error_result "API Key missing")) rs).
  { induction queries as [|q qs IH]; intros s Hc; cbn [lookups].
    - auto.
    - unfold search_food_info.
      destruct (cache_find q (cache s)) as [v|] eqn:Hf.
      + pose proof (cache_find_value P q _ v Hc Hf) as Hv. unfold P in Hv. subst v.
        specialize (IH (set_cache ((q, error_result "API Key missing")
                                     :: cache_remove q (cache s)) s)).
        destruct (lookups self w str qs _) as [st2 rs].
        cbn [cache set_cache trace issued _last_request_ts clock] in IH.
        destruct IH as (? & ? & ? & ? & ?).
        { constructor; [ reflexivity | apply cache_values_remove, Hc ]. }
        auto 10.
      + rewrite Hbody.
        specialize (IH (set_cache (firstn maxsize
                          ((q, error_result "API Key missing") :: cache s)) s)).
        destruct (lookups self w str qs _) as [st2 rs].
        cbn [cache set_cache trace issued _last_request_ts clock] in IH.
        destruct IH as (? & ? & ? & ? & ?).
        { apply cache_values_firstn. constructor; [ reflexivity | exact Hc ]. }
        auto 10. }
  specialize (Hgen (initial t0)).
  destruct (lookups self w str queries (initial t0)) as [st' rs].
  apply Hgen. constructor.
Qed.

Lemma snippet_of_dict r : snippet_of (PyDict r) = Return (projection_of (PyDict r)).
Proof.
  unfold snippet_of, projection_of, field, py_get, rbind.
  destruct (dict_lookup r "title"), (dict_lookup r "snippet"), (dict_lookup r "link");
    reflexivity.
Qed.

Lemma snippet_of_returns res s :
  snippet_of res = Return s -> s = projection_of res /\ is_dict res = true.
Proof.
  destruct res; cbn; try discriminate.
  rewrite snippet_of_dict. intros [= <-]. auto.
Qed.

Lemma rmap_snippets items : forall snippets,
  rmap snippet_of items = Return snippets ->
  snippets = map projection_of items /\ forallb is_dict items = true.
Proof.
  induction items as [|res items IH]; cbn [rmap map forallb]; intros snippets H.
  - injection H as <-. auto.
  - destruct (snippet_of res) as [s|e] eqn:Hs; cbn [rbind] in H; [ | discriminate ].
    destruct (rmap snippet_of items) as [ss|e]; cbn [rbind] in H; [ | discriminate ].
    injection H as <-.
    destruct (snippet_of_returns _ _ Hs) as [-> ->].
    destruct (IH ss eq_refl) as [-> ->]. auto.
Qed.

Lemma rmap_dicts items :
  forallb is_dict items = true ->
  rmap snippet_of items = Return (map projection_of items).
Proof.
  induction items as [|res items IH]; cbn [rmap map forallb]; intros H.
  - reflexivity.
  - apply andb_prop in H as [Hd Hr]. destruct res; try discriminate.
    rewrite snippet_of_dict, (IH Hr). reflexivity.
Qed.

Lemma forallb_firstn {A} (f : A -> bool) n l :
  forallb f l = true -> forallb f (firstn n l) = true.
Proof.
  revert n. induction l as [|x l IH]; intros [|n]; cbn; auto.
  intros H. apply andb_prop in H as [-> Hl]. cbn. auto.
Qed.

(** *** One turn of the retry loop *)

Lemma throttle_run st : _throttle self w st = (throttled self w st, Return tt).
Proof.
  unfold throttled, _throttle, bind, monotonic, stamp, sleep, ret.
  destruct (gt0 (throttle_wait (min_interval self) (clock st) (_last_request_ts st)));
    reflexivity.
Qed.

Lemma client_get_run params st :
  client_get self w params st = (got self w params st, next_answer w st).
Proof.
  unfold got, next_answer, client_get.
  destruct (network w (length (trace st))); reflexivity.
Qed.

Lemma sleep_run d st : sleep w d st = (slept w d st, Return tt).
Proof. reflexivity. Qed.

(** A 429 with retries left: back off and go round again. *)
Lemma turn_retry params attempt backoff st r :
  next_answer w (throttled self w st) = Return r ->
  status_code r = 429 ->
  attempt < max_retries self ->
  turn self w params attempt backoff st
  = (slept w (backoff * backoff_factor self)
       (got self w params (throttled self w st)),
     Return (Continue (backoff * backoff_factor self)%Q)).
Proof.
  intros Ha Hs Hlt. unfold turn, bind. rewrite throttle_run.
  unfold try_except. rewrite client_get_run, Ha, Hs.
  cbn [Z.eqb Pos.eqb].
  apply Z.ltb_lt in Hlt. rewrite Hlt.
  unfold back_off, bind. rewrite sleep_run. reflexivity.
Qed.

(** A 429 on the last attempt: [raise_for_status] raises. *)
Lemma turn_exhausted params attempt backoff st r :
  next_answer w (throttled self w st) = Return r ->
  status_code r = 429 ->
  max_retries self <= attempt ->
  turn self w params attempt backoff st
  = (got self w params (throttled self w st), Raise (HTTPStatusError 429)).
Proof.
  intros Ha Hs Hge. unfold turn, bind. rewrite throttle_run.
  unfold try_except. rewrite client_get_run, Ha, Hs.
  cbn [Z.eqb Pos.eqb].
  apply Z.ltb_ge in Hge. rewrite Hge.
  unfold raise_for_status. rewrite Hs. reflexivity.
Qed.

(** Any other failure leaves the loop at once. *)
Lemma turn_fails params attempt backoff st e :
  failure_of (next_answer w (throttled self w st)) = Some e ->
  turn self w params attempt backoff st
  = (got self w params (throttled self w st), Raise e).
Proof.
  intros Hf. unfold turn, bind. rewrite throttle_run.
  unfold try_except. rewrite client_get_run.
  destruct (next_answer w (throttled self w st)) as [r | e0]; cbn [failure_of] in Hf.
  - destruct (Z.eqb_spec (status_code r) 429) as [H429 | H429]; [ discriminate | ].
    cbn [orb] in Hf.
    unfold raise_for_status.
    destruct (is_success (status_code r)); [ discriminate | ].
    injection Hf as <-. cbn.
    apply Z.eqb_neq in H429. rewrite H429. reflexivity.
  - destruct e0; cbn in Hf; try discriminate; injection Hf as <-; reflexivity.
Qed.

(** A 2xx answer with a readable body ends the loop with the body. *)
Lemma turn_succeeds params attempt backoff st r data :
  next_answer w (throttled self w st) = Return r ->
  is_success (status_code r) = true ->
  json r = Return data ->
  turn self w params attempt backoff st
  = (got self w params (throttled self w st), Return (Break data)).
Proof.
  intros Ha Hs Hj. unfold turn, bind. rewrite throttle_run.
  unfold try_except. rewrite client_get_run, Ha.
  destruct (Z.eqb_spec (status_code r) 429) as [H429 | H429].
  - rewrite H429 in Hs. discriminate.
  - unfold raise_for_status. rewrite Hs. unfold lift. cbn. rewrite Hj. reflexivity.
Qed.


Lemma range_succ n : 0 <= n -> exists rest, range (n + 1) = 0 :: rest.
Proof.
  intros Hn. unfold range.
  replace (Z.to_nat (n + 1)) with (Datatypes.S (Z.to_nat n)) by lia.
  cbn. eauto.
Qed.

(** C9.  Result shaping: whenever the projection returns, the mapping it
    returns has exactly the two keys [snippets] and [knowledge_graph];
    the latter is the payload's block, or the empty mapping when absent;
    the former holds the first three organic results at most, each
    reduced to exactly [title], [snippet] and [link].  On a payload of
    the documented shape the projection does return, and on a 2xx answer
    the lookup returns the projection of the decoded body. *)
Theorem result_shaping (data : pyval) :
  let kept := map projection_of (firstn 3 (organic_of data)) in
  (forall result,
     shape_results data = Return result ->
     result = PyDict [ ("snippets", PyList kept);
                       ("knowledge_graph", knowledge_graph_of data) ]) /\
  (documented_shape data = true ->
   shape_results data
   = Return (PyDict [ ("snippets", PyList kept);
                      ("knowledge_graph", knowledge_graph_of data) ])) /\
  (length kept <= 3)%nat /\
  Forall (fun s => exists title snippet link,
            s = PyDict [ ("title", title); ("snippet", snippet); ("link", link) ])
         kept /\
  (forall query st r,
     key_missing (api_key self) = false -> 0 <= max_retries self ->
     next_answer w (throttled self w st) = Return r ->
     is_success (status_code r) = true -> json r = Return data ->
     snd (search_body self w str query st)
     = Return match shape_results data with
              | Return result => result
              | Raise e => error_result (str e)
              end).
Proof.
  cbn zeta. split; [ | split; [ | split; [ | split ] ] ].
  - intros result H. unfold shape_results in H.
    destruct data as [ | | | | | | d]; try discriminate.
    cbn [py_get py_in py_getitem organic_of knowledge_graph_of] in *.
    destruct (dict_lookup d "knowledge_graph") as [kg|];
      destruct (dict_lookup d "organic_results") as [organic|];
      cbn [rbind] in H; try (injection H as <-; reflexivity);
      (destruct organic as [ | | | | s | l | ]; cbn [rbind py_slice_items] in H;
       try discriminate;
       [ destruct s as [|c s]; cbn in H; [ injection H as <-; reflexivity | discriminate ]
       | destruct (rmap snippet_of (firstn 3 l)) as [snippets|e] eqn:Hs;
         cbn [rbind] in H; [ | discriminate ];
         injection H as <-;
         destruct (rmap_snippets _ _ Hs) as [-> _]; reflexivity ]).
  - intros Hshape. unfold shape_results.
    destruct data as [ | | | | | | d]; try discriminate.
    cbn [py_get py_in py_getitem organic_of knowledge_graph_of documented_shape] in *.
    destruct (dict_lookup d "knowledge_graph") as [kg|];
      destruct (dict_lookup d "organic_results") as [organic|];
      cbn [rbind]; try reflexivity;
      (destruct organic as [ | | | | s | l | ]; try discriminate;
       cbn [rbind py_slice_items];
       rewrite (rmap_dicts _ (forallb_firstn is_dict 3 l Hshape)); reflexivity).
  - rewrite length_map. apply firstn_le_length.
  - apply Forall_forall. intros s Hin. apply in_map_iff in Hin as (res & <- & _).
    unfold projection_of. eauto.
  - intros query st r Hkey Hmax Ha Hs Hj.
    destruct (range_succ (max_retries self) Hmax) as [rest Hrange].
    unfold search_body. rewrite Hkey, Hrange.
    unfold try_except, bind at 1. cbn [retry_loop].
    unfold bind at 1.
    rewrite (turn_succeeds _ 0 (min_interval self) st r data Ha Hs Hj).
    unfold ret, lift. destruct (shape_results data) as [result | e];
      [ | destruct (is_httpx_HTTPError e) ]; reflexivity.
Qed.


(** After a back-off of at least [min_interval] that followed a throttled
    attempt, [_throttle] stamps without sleeping. *)
Lemma throttled_after_backoff params d st :
  patient w ->
  (min_interval self <= d)%Q ->
  let st' := slept w d (got self w params (throttled self w st)) in
  throttled self w st'
  = mkState (clock st') (clock st') (trace st') (issued st') (cache st').
Proof.
  intros Hp Hd st'.
  assert (Hlast : _last_request_ts st' = clock (throttled self w st)).
  { unfold st', slept, sleep, got, client_get. cbn [fst].
    destruct (network w (length (trace (throttled self w st)))). cbn.
    unfold throttled, _throttle, bind, monotonic, stamp, sleep, ret.
    destruct (gt0 _); reflexivity. }
  assert (Hclock : (clock (throttled self w st) + d <= clock st')%Q).
  { unfold st', slept, sleep, got, client_get. cbn [fst].
    destruct (Hp (length (trace (throttled self w st)))) as [Hdt _].
    destruct (network w (length (trace (throttled self w st)))) as [dt ans].
    cbn [fst clock trace] in *.
    match goal with
    | |- (_ <= _ + _ + oversleep w ?n)%Q => destruct (Hp n) as [_ Hos]
    end.
    pose proof (Q.le_max_r 0 d). lra. }
  unfold throttled at 1, _throttle, bind, monotonic, stamp, ret.
  replace (gt0 (throttle_wait (min_interval self) (clock st') (_last_request_ts st')))
    with false; [ reflexivity | ].
  symmetry. unfold gt0. apply negb_false_iff, Qle_bool_iff.
  unfold throttle_wait. rewrite Hlast. lra.
Qed.

Lemma throttled_trace st :
  trace (throttled self w st) = trace st \/
  exists d, trace (throttled self w st) = (trace st ++ [EvSleep d])%list.
Proof.
  unfold throttled, _throttle, bind, monotonic, stamp, sleep, ret.
  destruct (gt0 _); cbn; eauto.
Qed.

Lemma throttled_issued st : issued (throttled self w st) = issued st.
Proof.
  unfold throttled, _throttle, bind, monotonic, stamp, sleep, ret.
  destruct (gt0 _); reflexivity.
Qed.

(** *** Where a lookup stops

    One turn of the loop adds to the trace whatever [_throttle] slept,
    then the attempt, then the back-off if it goes round again. *)
Lemma turn_trace params attempt backoff st :
  exists tail,
    trace (fst (turn self w params attempt backoff st))
    = (trace (throttled self w st) ++ EvGet (base_url self) params :: tail)%list /\
    Forall (fun ev => is_get ev = false) tail.
Proof.
  unfold turn, bind. rewrite throttle_run.
  unfold try_except, client_get.
  destruct (network w (length (trace (throttled self w st)))) as [dt [r | e]].
  - unfold raise_for_status, back_off, bind, sleep, lift, ret, raise.
    destruct (status_code r =? 429) eqn:H429;
      destruct (attempt <? max_retries self);
      destruct (is_success (status_code r));
      destruct (json r) as [data | e];
      cbn; rewrite ?H429; cbn; rewrite <- ?app_assoc; cbn [app].
    all: try (eexists; split; [ reflexivity | repeat constructor ]).
    all: destruct e as [ | sc | | ]; cbn; rewrite <- ?app_assoc; cbn [app].
    all: try (eexists; split; [ reflexivity | repeat constructor ]).
    all: destruct (sc =? 429); cbn; rewrite <- ?app_assoc; cbn [app].
    all: eexists; split; [ reflexivity | repeat constructor ].
  - destruct e as [ | sc | | ]; cbn.
    all: try (eexists; split; [ reflexivity | repeat constructor ]).
    unfold back_off, bind, sleep, ret, raise.
    destruct (sc =? 429); destruct (attempt <? max_retries self);
      cbn; rewrite <- ?app_assoc; cbn [app].
    all: eexists; split; [ reflexivity | repeat constructor ].
Qed.

Lemma throttled_trace_quiet st :
  exists pre, trace (throttled self w st) = (trace st ++ pre)%list /\
              Forall (fun ev => is_get ev = false) pre.
Proof.
  destruct (throttled_trace st) as [E | (d & E)]; rewrite E.
  - exists []. rewrite app_nil_r. split; [ reflexivity | constructor ].
  - exists [EvSleep d]. split; [ reflexivity | repeat constructor ].
Qed.

Lemma get_position (l pre tail : list event) ev0 i ev :
  Forall (fun ev => is_get ev = false) pre ->
  Forall (fun ev => is_get ev = false) tail ->
  nth_error (l ++ pre ++ ev0 :: tail) i = Some ev ->
  is_get ev = true ->
  (length l <= i)%nat ->
  i = (length l + length pre)%nat.
Proof.
  intros Hpre Htail Hnth Hget Hi.
  rewrite nth_error_app2 in Hnth by exact Hi.
  destruct (Nat.lt_ge_cases (i - length l) (length pre)) as [Hlt | Hge].
  - rewrite nth_error_app1 in Hnth by exact Hlt.
    apply nth_error_In in Hnth.
    rewrite Forall_forall in Hpre. rewrite (Hpre _ Hnth) in Hget. discriminate.
  - rewrite nth_error_app2 in Hnth by exact Hge.
    destruct (i - length l - length pre)%nat as [|j] eqn:Ej; [ lia | ].
    cbn in Hnth. apply nth_error_In in Hnth.
    rewrite Forall_forall in Htail. rewrite (Htail _ Hnth) in Hget. discriminate.
Qed.

Lemma retry_loop_trace_grows params : forall (todo : list Z) backoff st,
  exists added,
    trace (fst (retry_loop self w params todo backoff st)) = (trace st ++ added)%list.
Proof.
  induction todo as [|attempt todo IH]; intros backoff st; cbn [retry_loop].
  - exists []. cbn. rewrite app_nil_r. reflexivity.
  - unfold bind.
    destruct (turn_trace params attempt backoff st) as (tail & Ht & _).
    destruct (throttled_trace_quiet st) as (pre & Hp & _).
    rewrite Hp in Ht.
    destruct (turn self w params attempt backoff st) as [st1 [[backoff' | data] | e]];
      unfold ret; cbn [fst] in *.
    + destruct (IH backoff' st1) as (added & ->). rewrite Ht.
      rewrite <- !app_assoc. eauto.
    + rewrite Ht, <- app_assoc. eauto.
    + rewrite Ht, <- app_assoc. eauto.
Qed.

(** An attempt of the loop whose answer is a failure other than a rate
    limit is the last event of the loop, which raises that failure. *)
Lemma retry_loop_failure_is_last params : forall (todo : list Z) backoff st i ev e,
  (length (trace st) <= i)%nat ->
  nth_error (trace (fst (retry_loop self w params todo backoff st))) i = Some ev ->
  is_get ev = true ->
  failure_of (snd (network w i)) = Some e ->
  Datatypes.S i = length (trace (fst (retry_loop self w params todo backoff st))) /\
  snd (retry_loop self w params todo backoff st) = Raise e.
Proof.
  induction todo as [|attempt todo IH]; intros backoff st i ev e Hi Hnth Hget Hfail.
  - cbn in Hnth. assert (nth_error (trace st) i <> None) as Hn by congruence.
    apply nth_error_Some in Hn. lia.
  - cbn [retry_loop] in *. unfold bind in *.
    destruct (turn_trace params attempt backoff st) as (tail & Ht & Htail).
    destruct (throttled_trace_quiet st) as (pre & Hp & Hpre).
    pose proof (turn_fails params attempt backoff st) as Hturn.
    unfold next_answer in Hturn. rewrite Hp in Hturn, Ht. rewrite length_app in Hturn.
    rewrite <- app_assoc in Ht.
    destruct (turn self w params attempt backoff st) as [st1 [[backoff' | data] | e1]];
      unfold ret in *; cbn [fst snd] in *.
    + destruct (Nat.lt_ge_cases i (length (trace st1))) as [Hlt | Hge].
      * destruct (retry_loop_trace_grows params todo backoff' st1) as (added & Ea).
        rewrite Ea, nth_error_app1 in Hnth by exact Hlt.
        rewrite Ht in Hnth.
        pose proof (get_position _ _ _ _ _ _ Hpre Htail Hnth Hget Hi) as ->.
        specialize (Hturn e Hfail). discriminate.
      * exact (IH backoff' st1 i ev e Hge Hnth Hget Hfail).
    + rewrite Ht in Hnth.
      pose proof (get_position _ _ _ _ _ _ Hpre Htail Hnth Hget Hi) as ->.
      specialize (Hturn e Hfail). discriminate.
    + rewrite Ht in Hnth.
      pose proof (get_position _ _ _ _ _ _ Hpre Htail Hnth Hget Hi) as ->.
      specialize (Hturn e Hfail). injection Hturn as Hst1 ->.
      split; [ | reflexivity ].
      rewrite Hst1.
      unfold got, client_get.
      destruct (network w (length (trace (throttled self w st)))) as [dt a].
      cbn [fst trace]. rewrite Hp, !length_app. cbn. lia.
Qed.


(** The same for the body of a lookup that has a key: the failure is
    turned into its error dict and nothing is done after the attempt. *)
Lemma search_body_failure_is_last query st (pre post : list event) ev e :
  key_missing (api_key self) = false ->
  trace (fst (search_body self w str query st)) = (pre ++ ev :: post)%list ->
  (length (trace st) <= length pre)%nat ->
  is_get ev = true ->
  failure_of (snd (network w (length pre))) = Some e ->
  post = [] /\ snd (search_body self w str query st) = Return (error_result (str e)).
Proof.
  intros Hkey Htrace Hpre Hget Hfail.
  unfold search_body in *. rewrite Hkey in *.
  unfold try_except, bind, lift in *.
  match goal with
  | |- context [retry_loop self w ?p ?a ?b st] =>
      pose proof (retry_loop_failure_is_last p a b st (length pre) ev e Hpre) as Hlast;
      destruct (retry_loop self w p a b st) as [st' [data | e']]
  end; cbn [fst snd] in *.
  - assert (Et : trace st' = (pre ++ ev :: post)%list).
    { destruct (shape_results data) as [v | e'];
        [ | destruct (is_httpx_HTTPError e') ]; exact Htrace. }
    rewrite Et, nth_error_app2, Nat.sub_diag in Hlast by lia.
    destruct (Hlast eq_refl Hget Hfail) as [_ Hr]. discriminate.
  - assert (Et : trace st' = (pre ++ ev :: post)%list)
      by (destruct (is_httpx_HTTPError e'); exact Htrace).
    rewrite Et, nth_error_app2, Nat.sub_diag in Hlast by lia.
    destruct (Hlast eq_refl Hget Hfail) as [Hlen Hr].
    injection Hr as ->.
    split.
    + rewrite length_app in Hlen. cbn [length] in Hlen.
      destruct post; [ reflexivity | cbn in Hlen; lia ].
    + destruct (is_httpx_HTTPError e); reflexivity.
Qed.

End Facts.

Section Schedule.

Variable settings : Settings.
Variable str : exn -> string.

Lemma init_min_interval : (0 <= min_interval (__init__ settings))%Q.
Proof. apply Q.le_max_l. Qed.

Lemma init_backoff_factor : (1 <= backoff_factor (__init__ settings))%Q.
Proof. apply Q.le_max_l. Qed.

Lemma init_max_retries : 0 <= max_retries (__init__ settings).
Proof. cbn. lia. Qed.

(** C5, as amended.  With [SERPAPI_MAX_RETRIES = 2] and every attempt
    answered 429, a lookup makes exactly three network attempts and
    returns the error dict of the 429; the sleeps between the attempts
    are [min_interval * backoff_factor] and
    [min_interval * backoff_factor * backoff_factor], and nothing else
    happens after the first attempt.  Whatever the retry bound, a
    transport error or a status error other than 429 ends the lookup
    without any retry: answered to the first attempt, it leaves that
    attempt as the only event after [_throttle]; answered to any attempt
    of the lookup, also one that follows rate-limited ones, that attempt
    is the last event of the lookup (no sleep and no attempt comes after
    it) and the lookup returns the error dict of that failure.  An
    attempt is an event of the trace, answered by the outside at its
    position in the trace.  Before the first attempt [_throttle] sleeps
    at most once. *)
Theorem retry_bound_and_backoff (query : string) (st : state)
    (Hkey : key_missing (SERPAPI_API_KEY settings) = false) :
  let self := __init__ settings in
  let params := params_for (match api_key self with Some k => k | None => "" end) query in
  let get := EvGet (base_url self) params in
  let b1 := (min_interval self * backoff_factor self)%Q in
  let b2 := (b1 * backoff_factor self)%Q in
  (forall w,
     SERPAPI_MAX_RETRIES settings = 2 -> always_429 w -> patient w ->
     let st' := fst (search_body self w str query st) in
     snd (search_body self w str query st)
     = Return (error_result (str (HTTPStatusError 429))) /\
     trace st'
     = (trace (throttled self w st) ++ [get; EvSleep b1; get; EvSleep b2; get])%list /\
     length (issued st') = (length (issued st) + 3)%nat) /\
  (forall w e,
     failure_of (next_answer w (throttled (__init__ settings) w st)) = Some e ->
     let st' := fst (search_body self w str query st) in
     snd (search_body self w str query st) = Return (error_result (str e)) /\
     trace st' = (trace (throttled self w st) ++ [get])%list /\
     length (issued st') = (length (issued st) + 1)%nat) /\
  (forall w pre ev post e,
     trace (fst (search_body self w str query st)) = (pre ++ ev :: post)%list ->
     (length (trace st) <= length pre)%nat ->
     is_get ev = true ->
     failure_of (snd (network w (length pre))) = Some e ->
     post = [] /\
     snd (search_body self w str query st) = Return (error_result (str e))) /\
  (forall w,
     trace (throttled self w st) = trace st \/
     exists wait, trace (throttled self w st) = (trace st ++ [EvSleep wait])%list).
Proof.
  cbn zeta.
  split; [ | split; [ | split; [ | intros w; apply throttled_trace ] ] ].
  3:{ intros w pre ev post e.
      apply (search_body_failure_is_last (__init__ settings) w str query st).
      exact Hkey. }
  - intros w Hretries H429 Hp.
    set (self := __init__ settings).
    set (params := params_for _ query).
    assert (Hmax : max_retries self = 2) by (cbn; rewrite Hretries; reflexivity).
    pose proof init_min_interval as Hmi. pose proof init_backoff_factor as Hbf.
    fold self in Hmi, Hbf.
    set (b1 := (min_interval self * backoff_factor self)%Q).
    set (b2 := (b1 * backoff_factor self)%Q).
    assert (Hb1 : (min_interval self <= b1)%Q) by (unfold b1; nra).
    assert (Hb2 : (min_interval self <= b2)%Q) by (unfold b2, b1 in *; nra).
    set (st1 := throttled self w st).
    set (st2 := slept w b1 (got self w params st1)).
    set (st3 := throttled self w st2).
    set (st4 := slept w b2 (got self w params st3)).
    set (st5 := throttled self w st4).
    assert (T1 : turn self w params 0 (min_interval self) st
                 = (st2, Return (Continue b1))).
    { destruct (H429 (length (trace st1))) as (r & Hr & Hs).
      apply (turn_retry self w params 0 (min_interval self) st r Hr Hs). lia. }
    assert (T2 : turn self w params 1 b1 st2 = (st4, Return (Continue b2))).
    { destruct (H429 (length (trace st3))) as (r & Hr & Hs).
      apply (turn_retry self w params 1 b1 st2 r Hr Hs). lia. }
    assert (T3 : turn self w params 2 b2 st4
                 = (got self w params st5, Raise (HTTPStatusError 429))).
    { destruct (H429 (length (trace st5))) as (r & Hr & Hs).
      apply (turn_exhausted self w params 2 b2 st4 r Hr Hs). lia. }
    assert (Hbody : search_body self w str query st
                    = (got self w params st5,
                       Return (error_result (str (HTTPStatusError 429))))).
    { unfold search_body.
      replace (key_missing (api_key self)) with false by (symmetry; exact Hkey).
      fold params. rewrite Hmax.
      change (range (2 + 1)) with [0; 1; 2].
      unfold try_except, bind at 1. cbn [retry_loop].
      unfold bind at 1. rewrite T1.
      unfold bind at 1. rewrite T2.
      unfold bind at 1. rewrite T3. reflexivity. }
    rewrite Hbody. cbn [fst snd].
    pose proof (throttled_after_backoff self w params b1 st Hp Hb1) as E3.
    pose proof (throttled_after_backoff self w params b2 st2 Hp Hb2) as E5.
    cbn zeta in E3, E5. fold st1 st2 st3 in E3. fold st3 st4 st5 in E5.
    split; [ reflexivity | ].
    unfold got, client_get.
    destruct (network w (length (trace st5))) as [dt5 a5]. cbn [fst trace issued].
    rewrite E5. cbn [trace issued].
    unfold st4, slept, sleep, got, client_get. cbn [fst].
    destruct (network w (length (trace st3))) as [dt3 a3]. cbn [fst trace issued].
    rewrite E3. cbn [trace issued].
    unfold st2, slept, sleep, got, client_get. cbn [fst].
    destruct (network w (length (trace st1))) as [dt1 a1]. cbn [fst trace issued].
    split.
    + rewrite <- !app_assoc. reflexivity.
    + rewrite !length_app. cbn [length]. unfold st1.
      rewrite throttled_issued. lia.
  - intros w e Hf.
    set (self := __init__ settings) in *.
    set (params := params_for _ query).
    destruct (range_succ (max_retries self) init_max_retries) as [rest Hrange].
    assert (Hbody : search_body self w str query st
                    = (got self w params (throttled self w st),
                       Return (error_result (str e)))).
    { unfold search_body.
      replace (key_missing (api_key self)) with false by (symmetry; exact Hkey).
      fold params. rewrite Hrange.
      unfold try_except, bind at 1. cbn [retry_loop].
      unfold bind at 1.
      rewrite (turn_fails self w params 0 (min_interval self) st e Hf).
      destruct (is_httpx_HTTPError e); reflexivity. }
    rewrite Hbody. cbn [fst snd].
    split; [ reflexivity | ].
    unfold got, client_get.
    destruct (network w (length (trace (throttled self w st)))) as [dt a].
    cbn [fst trace issued]. split; [ reflexivity | ].
    rewrite length_app, throttled_issued. cbn. lia.
Qed.

End Schedule.

(** *** Concrete runs *)

(** Against C4 as stated: a lookup that failed (status 500) has its error
    dict stored in the cache, and the second lookup for the same query
    returns it without a new network attempt. *)
Lemma failed_lookup_is_cached :
  let self := __init__ Samples.settings in
  let w := Samples.server 500 in
  let first := search_food_info self w Samples.str "apple" (initial 100) in
  let second := search_food_info self w Samples.str "apple" (fst first) in
  snd first = Return (error_result "server error") /\
  cache_find "apple" (cache (fst first)) = Some (error_result "server error") /\
  snd second = Return (error_result "server error") /\
  attempts (trace (fst first)) = 1%nat /\
  attempts (trace (fst second)) = 1%nat /\
  ~ (attempts (trace (fst first)) < attempts (trace (fst second)))%nat.
Proof.
  vm_compute. repeat split; try reflexivity. intros H. lia.
Qed.

(** Against C5 as stated: with [min_interval = 1], [backoff_factor = 2]
    and three 429 answers, the delays slept between the attempts are 2
    and 4, not 1 and 2. *)
Lemma backoff_delays_are_scaled :
  let self := __init__ Samples.settings in
  let run := search_body self (Samples.server 429) Samples.str "apple" (initial 100) in
  max_retries self = 2 /\
  attempts (trace (fst run)) = 3%nat /\
  sleeps (trace (fst run)) = [2%Q; 4%Q] /\
  ~ Forall2 Qeq (sleeps (trace (fst run)))
      [min_interval self; (min_interval self * backoff_factor self)%Q].
Proof.
  cbn zeta. split; [ reflexivity | ]. split; [ reflexivity | ].
  split; [ vm_compute; reflexivity | ].
  intros H. inversion H as [ | x y l l' Hxy _ ]; subst.
  vm_compute in Hxy. discriminate.
Qed.

Lemma retry_bound_witness :
  key_missing (SERPAPI_API_KEY Samples.settings) = false /\
  SERPAPI_MAX_RETRIES Samples.settings = 2 /\
  always_429 (Samples.server 429) /\
  patient (Samples.server 429) /\
  snd (search_body (__init__ Samples.settings) (Samples.server 429) Samples.str
         "apple" (initial 100))
  = Return (error_result "429 Too Many Requests") /\
  length (issued (fst (search_body (__init__ Samples.settings) (Samples.server 429)
                         Samples.str "apple" (initial 100)))) = 3%nat /\
  (let get := EvGet "https://serpapi.com/search" (params_for "key" "apple") in
   trace (fst (search_body (__init__ Samples.settings) MoreSamples.overloaded
                 Samples.str "apple" (initial 100)))
   = ([get; EvSleep (1 * 2)] ++ get :: [])%list /\
   failure_of (snd (network MoreSamples.overloaded 2)) = Some (HTTPStatusError 500) /\
   snd (search_body (__init__ Samples.settings) MoreSamples.overloaded
          Samples.str "apple" (initial 100))
   = Return (error_result "server error")).
Proof.
  assert (H429 : always_429 (Samples.server 429)).
  { intros n. eexists. split; reflexivity. }
  assert (Hp : patient (Samples.server 429)).
  { intros n. split; cbn; apply Qle_refl. }
  pose proof (retry_bound_and_backoff Samples.settings Samples.str "apple"
                (initial 100) eq_refl) as H.
  cbn zeta in H. destruct H as (Hall & _ & Hlast & _).
  split; [ reflexivity | ]. split; [ reflexivity | ].
  split; [ exact H429 | ]. split; [ exact Hp | ].
  destruct (Hall (Samples.server 429) eq_refl H429 Hp) as (Hr & _ & Hn).
  split; [ exact Hr | ]. split; [ exact Hn | ].
  cbn zeta.
  assert (Htrace :
    trace (fst (search_body (__init__ Samples.settings) MoreSamples.overloaded
                  Samples.str "apple" (initial 100)))
    = ([EvGet "https://serpapi.com/search" (params_for "key" "apple"); EvSleep (1 * 2)]
       ++ EvGet "https://serpapi.com/search" (params_for "key" "apple") :: [])%list)
    by reflexivity.
  split; [ exact Htrace | ]. split; [ reflexivity | ].
  exact (proj2 (Hlast MoreSamples.overloaded _ _ _ (HTTPStatusError 500)
                  Htrace ltac:(cbn; lia) eq_refl eq_refl)).
Defined.

Lemma missing_key_witness :
  key_missing (api_key (__init__ Samples.settings_without_key)) = true /\
  search_body (__init__ Samples.settings_without_key) (Samples.server 200)
    Samples.str "apple" (initial 0)
  = (initial 0, Return (error_result "API Key missing")).
Proof.
  split; [ reflexivity | ].
  exact (proj1 (missing_key_short_circuit (__init__ Samples.settings_without_key)
                  (Samples.server 200) Samples.str eq_refl "apple" (initial 0))).
Defined.

Lemma result_shaping_witness :
  documented_shape Samples.payload = true /\
  shape_results Samples.payload
  = Return (PyDict
      [ ("snippets",
         PyList
           [ PyDict [ ("title", PyStr "title 1"); ("snippet", PyStr "snippet 1");
                      ("link", PyStr "https://example.org/1") ];
             PyDict [ ("title", PyStr "title 2"); ("snippet", PyStr "snippet 2");
                      ("link", PyStr "https://example.org/2") ];
             PyDict [ ("title", PyStr "title 3"); ("snippet", PyStr "snippet 3");
                      ("link", PyStr "https://example.org/3") ] ]);
        ("knowledge_graph", PyDict [ ("title", PyStr "Apple") ]) ]).
Proof.
  split; [ reflexivity | ].
  exact (proj1 (proj2 (result_shaping (__init__ Samples.settings)
                         (Samples.server_ok Samples.payload) Samples.str
                         Samples.payload)) eq_refl).
Defined.

End SearchFacts.

(** ** Spacing of the network attempts *)

Module EventLoopFacts.
Import Search EventLoop.

Section Invariant.

Variable self : SerpAPIWrapper.

Lemma set_task_sleeper i p ts j attempt backoff wake :
  (forall a b k, p <> ThrottleSleep a b k) ->
  set_task i p ts j = ThrottleSleep attempt backoff wake ->
  j <> i /\ ts j = ThrottleSleep attempt backoff wake.
Proof.
  intros Hp. unfold set_task. destruct (Nat.eqb_spec j i) as [-> | Hji].
  - intros H. exfalso. exact (Hp _ _ _ H).
  - auto.
Qed.

Lemma spaced_cons t s :
  invariant self s ->
  (last_request_ts s + min_interval self <= t)%Q ->
  spaced (min_interval self) (t :: stamps s).
Proof.
  intros I Ht. pose proof (inv_spaced self s I) as Hs. pose proof (inv_stamp self s I) as Hl.
  destruct (stamps s) as [|t1 rest] eqn:E; cbn [spaced]; [ exact Logic.I | ].
  split; [ | exact Hs ].
  rewrite <- (Hl t1 rest eq_refl). exact Ht.
Qed.

Lemma invariant_start t0 : invariant self (start t0).
Proof.
  constructor; cbn.
  - exact Logic.I.
  - discriminate.
  - discriminate.
  - discriminate.
Qed.

Ltac not_sleeper := intros ? ? ?; try destruct (_ || _); try destruct (retries _ _ _); discriminate.

Lemma invariant_step s s' : invariant self s -> step self s s' -> invariant self s'.
Proof.
  intros I Hstep.
  destruct Hstep as
    [ s d Hd
    | s i Hi
    | s i attempt backoff Hi Hlock Hwait
    | s i attempt backoff Hi Hlock Hwait
    | s i attempt backoff wake Hi Hwake
    | s i attempt backoff answer Hi
    | s i attempt backoff wake Hi Hwake ].
  - (* time passes *)
    destruct I as [Hs Hl Hh Hu]. constructor; cbn; assumption.
  - (* a call starts *)
    destruct I as [Hs Hl Hh Hu]. constructor; cbn [stamps last_request_ts locked tasks];
      try assumption.
    + intros j a b k Hj. apply set_task_sleeper in Hj as [_ Hj]; [ eauto | not_sleeper ].
    + intros j j' a b k a' b' k' Hj Hj'.
      apply set_task_sleeper in Hj as [_ Hj]; [ | not_sleeper ].
      apply set_task_sleeper in Hj' as [_ Hj']; [ | not_sleeper ].
      eauto.
  - (* _throttle without waiting *)
    assert (Hnone : forall j a b k, tasks s j <> ThrottleSleep a b k).
    { intros j a b k Hj. destruct (inv_holder self s I _ _ _ _ Hj) as [Hl _]. congruence. }
    constructor; cbn [stamps last_request_ts locked tasks].
    + apply spaced_cons; [ assumption | ].
      unfold gt0 in Hwait. apply negb_false_iff, Qle_bool_iff in Hwait.
      unfold throttle_wait in Hwait. lra.
    + intros t rest [= <- _]. reflexivity.
    + intros j a b k Hj. apply set_task_sleeper in Hj as [_ Hj]; [ | not_sleeper ].
      exfalso. exact (Hnone _ _ _ _ Hj).
    + intros j j' a b k a' b' k' Hj _.
      apply set_task_sleeper in Hj as [_ Hj]; [ | not_sleeper ].
      exfalso. exact (Hnone _ _ _ _ Hj).
  - (* _throttle starts to sleep, keeping the lock *)
    assert (Hnone : forall j a b k, tasks s j <> ThrottleSleep a b k).
    { intros j a b k Hj. destruct (inv_holder self s I _ _ _ _ Hj) as [Hl _]. congruence. }
    assert (Hother : forall j a b k,
              set_task i (ThrottleSleep attempt backoff
                (now s + throttle_wait (min_interval self) (now s) (last_request_ts s))%Q)
                (tasks s) j = ThrottleSleep a b k ->
              j = i /\ (last_request_ts s + min_interval self <= k)%Q).
    { intros j a b k. unfold set_task. destruct (Nat.eqb_spec j i) as [-> | Hji].
      - intros [= _ _ <-]. split; [ reflexivity | ]. unfold throttle_wait. lra.
      - intros Hj. exfalso. exact (Hnone _ _ _ _ Hj). }
    destruct I as [Hs Hl Hh Hu]. constructor; cbn [stamps last_request_ts locked tasks];
      try assumption.
    + intros j a b k Hj. split; [ reflexivity | apply (Hother _ _ _ _ Hj) ].
    + intros j j' a b k a' b' k' Hj Hj'.
      destruct (Hother _ _ _ _ Hj) as [-> _]. destruct (Hother _ _ _ _ Hj') as [-> _].
      reflexivity.
  - (* the sleep inside _throttle ends *)
    assert (Hnone : forall j a b k,
              set_task i (InGet attempt backoff) (tasks s) j <> ThrottleSleep a b k).
    { intros j a b k Hj. apply set_task_sleeper in Hj as [Hji Hj]; [ | not_sleeper ].
      apply Hji. exact (inv_unique self s I _ _ _ _ _ _ _ _ Hj Hi). }
    constructor; cbn [stamps last_request_ts locked tasks].
    + apply spaced_cons; [ assumption | ].
      destruct (inv_holder self s I _ _ _ _ Hi) as [_ Hw]. lra.
    + intros t rest [= <- _]. reflexivity.
    + intros j a b k Hj. exfalso. exact (Hnone _ _ _ _ Hj).
    + intros j j' a b k a' b' k' Hj _. exfalso. exact (Hnone _ _ _ _ Hj).
  - (* the answer arrives *)
    destruct I as [Hs Hl Hh Hu]. constructor; cbn [stamps last_request_ts locked tasks];
      try assumption.
    + intros j a b k Hj. apply set_task_sleeper in Hj as [_ Hj]; [ eauto | not_sleeper ].
    + intros j j' a b k a' b' k' Hj Hj'.
      apply set_task_sleeper in Hj as [_ Hj]; [ | not_sleeper ].
      apply set_task_sleeper in Hj' as [_ Hj']; [ | not_sleeper ].
      eauto.
  - (* the back-off ends *)
    destruct I as [Hs Hl Hh Hu]. constructor; cbn [stamps last_request_ts locked tasks];
      try assumption.
    + intros j a b k Hj. apply set_task_sleeper in Hj as [_ Hj]; [ eauto | not_sleeper ].
    + intros j j' a b k a' b' k' Hj Hj'.
      apply set_task_sleeper in Hj as [_ Hj]; [ | not_sleeper ].
      apply set_task_sleeper in Hj' as [_ Hj']; [ | not_sleeper ].
      eauto.
Qed.

Lemma invariant_reachable t0 s : reachable self t0 s -> invariant self s.
Proof.
  induction 1 as [ | s s' _ IH Hstep ].
  - apply invariant_start.
  - exact (invariant_step s s' IH Hstep).
Qed.

End Invariant.

Section Sequential.

Variable self : SerpAPIWrapper.
Variable w : world.
Variable str : exn -> string.
Hypothesis Hpatient : patient w.

Lemma throttled_clock st :
  (_last_request_ts st + min_interval self <= clock (throttled self w st))%Q.
Proof.
  unfold throttled, _throttle, bind, monotonic, stamp, sleep, ret.
  destruct (gt0 (throttle_wait (min_interval self) (clock st) (_last_request_ts st)))
    eqn:Hwait; cbn [fst clock].
  - destruct (Hpatient (length (trace st))) as [_ Hos].
    pose proof (Q.le_max_r 0
      (throttle_wait (min_interval self) (clock st) (_last_request_ts st))) as Hmax.
    unfold throttle_wait in *. lra.
  - unfold gt0 in Hwait. apply negb_false_iff, Qle_bool_iff in Hwait.
    unfold throttle_wait in Hwait. lra.
Qed.

(** Whatever the answer, a turn issues one attempt, at the time
    [_throttle] stamped. *)
Lemma turn_effect params attempt backoff st :
  issued (fst (turn self w params attempt backoff st))
  = (issued st ++ [clock (throttled self w st)])%list /\
  _last_request_ts (fst (turn self w params attempt backoff st))
  = clock (throttled self w st).
Proof.
  assert (Hlast : _last_request_ts (throttled self w st) = clock (throttled self w st)).
  { unfold throttled, _throttle, bind, monotonic, stamp, sleep, ret.
    destruct (gt0 _); reflexivity. }
  assert (Hissued : issued (throttled self w st) = issued st).
  { unfold throttled, _throttle, bind, monotonic, stamp, sleep, ret.
    destruct (gt0 _); reflexivity. }
  unfold turn, bind.
  replace (_throttle self w st) with (throttled self w st, @Return unit tt).
  2:{ unfold throttled, _throttle, bind, monotonic, stamp, sleep, ret.
      destruct (gt0 _); reflexivity. }
  unfold try_except, client_get.
  destruct (network w (length (trace (throttled self w st)))) as [dt [r | e]].
  - unfold raise_for_status, back_off, bind, sleep, lift, ret, raise.
    destruct (status_code r =? 429) eqn:H429;
      destruct (attempt <? max_retries self);
      destruct (is_success (status_code r));
      destruct (json r);
      cbn; rewrite ?H429; cbn; rewrite ?Hlast, ?Hissued; auto;
      match goal with
      | e : exn |- _ =>
          destruct e as [ | sc | | ]; cbn; rewrite ?Hlast, ?Hissued; auto;
          destruct (sc =? 429); cbn; rewrite ?Hlast, ?Hissued; auto
      end.
  - destruct e as [ | sc | | ]; cbn; rewrite ?Hlast, ?Hissued; auto.
    unfold back_off, bind, sleep, ret, raise.
    destruct ((sc =? 429) && (attempt <? max_retries self));
      cbn; rewrite ?Hlast, ?Hissued; auto.
Qed.

Lemma stamped_turn params attempt backoff st :
  stamped self st -> stamped self (fst (turn self w params attempt backoff st)).
Proof.
  intros [Hs Hl]. unfold stamped.
  destruct (turn_effect params attempt backoff st) as [-> ->].
  rewrite rev_app_distr. cbn [rev app].
  split.
  - destruct (rev (issued st)) as [|t rest] eqn:E; cbn [spaced]; [ exact Logic.I | ].
    split; [ | exact Hs ].
    rewrite <- (Hl t rest eq_refl). apply throttled_clock.
  - intros t rest [= <- _]. reflexivity.
Qed.

Lemma stamped_retry_loop params attempts : forall backoff st,
  stamped self st -> stamped self (fst (retry_loop self w params attempts backoff st)).
Proof.
  induction attempts as [|attempt attempts IH]; intros backoff st Hst; cbn [retry_loop].
  - exact Hst.
  - unfold bind at 1.
    pose proof (stamped_turn params attempt backoff st Hst) as Hturn.
    destruct (turn self w params attempt backoff st) as [st' [[backoff' | data] | e]];
      cbn [fst] in *; auto.
Qed.

Lemma stamped_search_body query st :
  stamped self st -> stamped self (fst (search_body self w str query st)).
Proof.
  intros Hst. unfold search_body.
  destruct (key_missing (api_key self)); [ exact Hst | ].
  unfold try_except, bind.
  match goal with
  | |- context [retry_loop self w ?p ?a ?b st] =>
      pose proof (stamped_retry_loop p a b st Hst) as Hloop;
      destruct (retry_loop self w p a b st) as [st' [data | e]]
  end; cbn [fst] in *.
  - unfold lift. destruct (shape_results data) as [result | e];
      [ | destruct (is_httpx_HTTPError e) ]; exact Hloop.
  - destruct (is_httpx_HTTPError e); exact Hloop.
Qed.

Lemma stamped_set_cache c st : stamped self st -> stamped self (set_cache c st).
Proof. intros H. exact H. Qed.

Lemma stamped_search_food_info query st :
  stamped self st -> stamped self (fst (search_food_info self w str query st)).
Proof.
  intros Hst. unfold search_food_info.
  destruct (cache_find query (cache st)); [ exact Hst | ].
  pose proof (stamped_search_body query st Hst) as Hbody.
  destruct (search_body self w str query st) as [st' [v | e]]; exact Hbody.
Qed.

Lemma stamped_lookups queries : forall st,
  stamped self st -> stamped self (fst (lookups self w str queries st)).
Proof.
  induction queries as [|q queries IH]; intros st Hst; cbn [lookups].
  - exact Hst.
  - pose proof (stamped_search_food_info q st Hst) as H1.
    destruct (search_food_info self w str q st) as [st1 r]. cbn [fst] in H1.
    specialize (IH st1 H1).
    destruct (lookups self w str queries st1) as [st2 rs]. exact IH.
Qed.

End Sequential.

(** C6.  Throttle spacing: in every state the event loop can reach, with
    any number of concurrent callers and retries, consecutive network
    attempts were issued at least [min_interval] apart, each at the time
    [_throttle] stamped under the lock, and a task sleeping inside
    [_throttle] holds the lock.  The same holds for any sequence of
    lookups made one after the other, as long as time does not run
    backwards. *)
Theorem throttle_spacing (self : SerpAPIWrapper) (t0 : Q) (s : loop)
    (Hreach : reachable self t0 s) :
  spaced (min_interval self) (stamps s) /\
  (forall i attempt backoff wake,
     tasks s i = ThrottleSleep attempt backoff wake -> locked s = true) /\
  (forall w str queries,
     patient w ->
     spaced (min_interval self)
            (rev (issued (fst (lookups self w str queries (initial t0)))))).
Proof.
  pose proof (invariant_reachable self t0 s Hreach) as I.
  split; [ exact (inv_spaced self s I) | ].
  split.
  - intros i attempt backoff wake Hi. apply (inv_holder self s I _ _ _ _ Hi).
  - intros w str queries Hp.
    apply (stamped_lookups self w str Hp queries (initial t0)).
    split; cbn; [ exact Logic.I | discriminate ].
Qed.

(** *** Concrete runs *)

(** Steps of a concrete schedule: each tactic extends the reachable state
    [R] by one step of the named kind. *)
Ltac extend R proof_of_step :=
  let R' := fresh "R" in
  pose proof proof_of_step as R';
  match type of R' with
  | reachable ?self ?t0 ?s =>
      let s' := eval vm_compute in s in change (reachable self t0 s') in R'
  end;
  clear R; rename R' into R.

Ltac caller_arrives R i :=
  match type of R with
  | reachable ?self ?t0 ?s =>
      extend R (reach_step self t0 s _ R (step_call self s i eq_refl))
  end.

Ltac clock_advances R d :=
  match type of R with
  | reachable ?self ?t0 ?s =>
      extend R (reach_step self t0 s _ R
                  (step_time self s d (Qle_bool_imp_le 0 d eq_refl)))
  end.

Ltac throttle_passes R i attempt backoff :=
  match type of R with
  | reachable ?self ?t0 ?s =>
      extend R (reach_step self t0 s _ R
                  (step_throttle_pass self s i attempt backoff eq_refl eq_refl eq_refl))
  end.

Ltac throttle_waits R i attempt backoff :=
  match type of R with
  | reachable ?self ?t0 ?s =>
      extend R (reach_step self t0 s _ R
                  (step_throttle_wait self s i attempt backoff eq_refl eq_refl eq_refl))
  end.

Ltac throttle_wakes R i attempt backoff wake :=
  match type of R with
  | reachable ?self ?t0 ?s =>
      extend R (reach_step self t0 s _ R
                  (step_throttle_wake self s i attempt backoff wake eq_refl
                     (Qle_bool_imp_le wake (now s) eq_refl)))
  end.

Ltac answer_arrives R i attempt backoff answer :=
  match type of R with
  | reachable ?self ?t0 ?s =>
      extend R (reach_step self t0 s _ R
                  (step_answer self s i attempt backoff answer eq_refl))
  end.

Ltac retry_resumes R i attempt backoff wake :=
  match type of R with
  | reachable ?self ?t0 ?s =>
      extend R (reach_step self t0 s _ R
                  (step_backoff_wake self s i attempt backoff wake eq_refl
                     (Qle_bool_imp_le wake (now s) eq_refl)))
  end.

(** Three callers of one wrapper with [min_interval = 1]: the first is
    issued at 10; the second finds the stamp fresh, sleeps inside
    [_throttle] with the lock held while the third arrives at the lock,
    and is issued at 11; the third is issued at 12; the first, answered
    429, backs off and its retry is issued at 13.  Then two lookups made
    one after the other against a server that answers 429 throughout. *)
Lemma throttle_spacing_witness :
  let self := __init__ Samples.settings in
  (exists s,
     reachable self 10 s /\
     stamps s = [13; 12; 11; 10]%Q /\
     now s = 13%Q /\
     tasks s 0%nat = InGet 1 2 /\
     tasks s 1%nat = InGet 0 1 /\
     tasks s 2%nat = InGet 0 1 /\
     spaced (min_interval self) (stamps s)) /\
  (exists s,
     reachable self 10 s /\
     stamps s = [10%Q] /\
     tasks s 0%nat = InGet 0 1 /\
     tasks s 1%nat = ThrottleSleep 0 1 11 /\
     tasks s 2%nat = AtLock 0 1 /\
     locked s = true) /\
  patient (Samples.server 429) /\
  issued (fst (lookups self (Samples.server 429) Samples.str ["apple"; "pear"] (initial 10)))
  = [10; 12; 16; 17; 19; 23]%Q /\
  spaced (min_interval self)
    (rev (issued (fst (lookups self (Samples.server 429) Samples.str ["apple"; "pear"]
                         (initial 10))))).
Proof.
  cbn zeta.
  set (self := __init__ Samples.settings).
  pose proof (reach_start self 10) as R.
  (* two callers arrive at time 10; the first passes [_throttle] *)
  caller_arrives R 0%nat.
  caller_arrives R 1%nat.
  throttle_passes R 0%nat 0 1%Q.
  (* the second has to wait inside [_throttle], holding the lock, while a
     third arrives at the lock *)
  throttle_waits R 1%nat 0 1%Q.
  caller_arrives R 2%nat.
  pose proof R as Rwaiting.
  (* the first is answered 429 and backs off; the second wakes at 11 *)
  answer_arrives R 0%nat 0 1%Q
    (Return {| status_code := 429; json := Raise (Exception "JSONDecodeError") |}).
  clock_advances R 1%Q.
  throttle_wakes R 1%nat 0 1%Q 11%Q.
  (* the third waits in turn and wakes at 12 *)
  throttle_waits R 2%nat 0 1%Q.
  clock_advances R 1%Q.
  throttle_wakes R 2%nat 0 1%Q 12%Q.
  (* the back-off of the first has ended; its retry waits and is issued
     at 13 *)
  retry_resumes R 0%nat 0 2%Q 12%Q.
  throttle_waits R 0%nat 1 2%Q.
  clock_advances R 1%Q.
  throttle_wakes R 0%nat 1 2%Q 13%Q.
  assert (Hp : patient (Samples.server 429)).
  { intros n. split; cbn; apply Qle_refl. }
  split.
  { eexists. split; [ exact R | ].
    split; [ vm_compute; reflexivity | ]. split; [ vm_compute; reflexivity | ].
    split; [ vm_compute; reflexivity | ]. split; [ vm_compute; reflexivity | ].
    split; [ vm_compute; reflexivity | ].
    exact (proj1 (throttle_spacing self 10 _ R)). }
  split.
  { eexists. split; [ exact Rwaiting | ].
    split; [ vm_compute; reflexivity | ]. split; [ vm_compute; reflexivity | ].
    split; [ vm_compute; reflexivity | ]. split; [ vm_compute; reflexivity | ].
    exact (proj1 (proj2 (throttle_spacing self 10 _ Rwaiting)) 1%nat 0 1%Q _ eq_refl). }
  split; [ exact Hp | ].
  split; [ vm_compute; reflexivity | ].
  exact (proj2 (proj2 (throttle_spacing self 10 _ Rwaiting)) (Samples.server 429)
           Samples.str ["apple"; "pear"] Hp).
Defined.

End EventLoopFacts.

(** ** More on the lifecycle manager *)

Module LifecycleMore.
Import LocalIntelligence LocalIntelligenceFacts.

Section More.

Variable settings : Settings.
Variable json_loads : string -> result pyval.
Variable b64encode : list Byte.byte -> string.

Ltac run_all :=
  unfold _load_model, _get_model_path, set_light_model, set_heavy_model,
    try_except, bind, extern, lift, get_self, put_self, ret, raise in *;
  cbn [outcome final writes calls light_model heavy_model models_dir truthy app] in *.

Ltac outside w :=
  repeat match goal with
    | |- context [import_llama_cpp w] =>
        destruct (import_llama_cpp w) as [[]|]; run_all
    | |- context [import_llama_chat_format w] =>
        destruct (import_llama_chat_format w) as [[]|]; run_all
    | |- context [hf_hub_download w ?a ?b ?c] =>
        destruct (hf_hub_download w a b c); run_all
    | |- context [MoondreamChatHandler w ?a] =>
        destruct (MoondreamChatHandler w a); run_all
    | |- context [Llama_init w ?a] =>
        destruct (Llama_init w a) as [[]|]; run_all
    end.

(** X1.  A load that raises is all or nothing.  Either one of the two
    imports failed: then the error is that import's, nothing was assigned
    or called and the attributes are as before.  Or both imports
    succeeded: then the name is "light" or "heavy", and no engine is
    resident afterwards, as the requested slot was empty and the other
    one has been released before the download was tried. *)
Theorem failed_load_leaves_no_engine (w : world) (model_type : string) self e
    (Hfail : outcome (_load_model settings w model_type self) = Raise e) :
  let r := _load_model settings w model_type self in
  (import_failure w e /\ ~ imported w /\ r = mkRun (Raise e) self [] []) \/
  (imported w /\ (model_type = "light" \/ model_type = "heavy") /\
   light_model (final r) = None /\ heavy_model (final r) = None).
Proof.
  cbn zeta. revert Hfail. unfold imported, import_failure, _load_model.
  destruct (import_llama_cpp w) as [[]|e1] eqn:E1.
  2:{ run_all. intros [= <-]. left.
      split; [ auto | ]. split; [ intros [? _]; discriminate | reflexivity ]. }
  destruct (import_llama_chat_format w) as [[]|e2] eqn:E2.
  2:{ run_all. intros [= <-]. left.
      split; [ auto | ]. split; [ intros [_ ?]; discriminate | reflexivity ]. }
  destruct (String.eqb_spec model_type "light") as [-> | Hl];
    [ | destruct (String.eqb_spec model_type "heavy") as [-> | Hh] ];
    destruct self as [dir [l|] [h|]]; run_all; outside w;
    cbn; intros; try discriminate; right; auto.
Qed.

(** A returning load leaves the requested slot filled, from any state. *)
Lemma load_returns_resident (w : world) (deep_search : bool) self :
  outcome (_load_model settings w (tier_name deep_search) self) = Return tt ->
  exists m, slot deep_search (final (_load_model settings w (tier_name deep_search) self))
            = Some m.
Proof.
  destruct self as [dir [l|] [h|]];
    destruct deep_search; unfold tier_name, _load_model;
    cbn [String.eqb Ascii.eqb Bool.eqb];
    run_all; outside w; cbn; intros; try discriminate; eauto.
Qed.

Lemma load_resident_noop (w : world) (deep_search : bool) self m :
  imported w ->
  slot deep_search self = Some m ->
  _load_model settings w (tier_name deep_search) self = mkRun (Return tt) self [] [].
Proof.
  intros Himports Hm.
  exact (proj2 (proj2 (proj2 (resident_load_run settings w deep_search self m Hm)))
           Himports).
Qed.

(** The imports of one call either both succeed or the first failing one
    raises. *)
Lemma imports_cases (w : world) :
  imported w \/
  exists e, import_llama_cpp w = Raise e \/
            (import_llama_cpp w = Return tt /\ import_llama_chat_format w = Raise e).
Proof.
  unfold imported.
  destruct (import_llama_cpp w) as [[]|e1]; [ | right; eauto ].
  destruct (import_llama_chat_format w) as [[]|e2]; [ left | right ]; eauto.
Qed.

(** An [analyze_image] whose imports fail raises before anything is
    assigned or called. *)
Lemma analyze_image_import_failure (w : world) image_bytes deep_search self e :
  import_llama_cpp w = Raise e \/
  (import_llama_cpp w = Return tt /\ import_llama_chat_format w = Raise e) ->
  analyze_image settings json_loads b64encode w image_bytes deep_search self
  = mkRun (Raise e) self [] [].
Proof.
  intros He.
  pose proof (analyze_image_cases settings json_loads b64encode w image_bytes
                deep_search self) as H.
  change (if deep_search then "heavy" else "light") with (tier_name deep_search) in H.
  rewrite (import_failure_raises settings w (tier_name deep_search) self e He) in H.
  exact H.
Qed.

(** X2.  After an [analyze_image] that returned, a second one with the
    same flag reuses the resident engine: it assigns nothing, leaves the
    attributes as they are, downloads and constructs nothing, and its
    only possible call is the inference on that engine.  When its imports
    succeed, as they do once the modules are loaded, it makes exactly
    that call and returns what the guarded inference gives. *)
Theorem same_tier_reuses_engine (w1 w2 : world) (image1 image2 : list Byte.byte)
    (deep_search : bool) self v
    (Hfirst : outcome (analyze_image settings json_loads b64encode w1 image1
                         deep_search self) = Return v) :
  let self1 := final (analyze_image settings json_loads b64encode w1 image1
                        deep_search self) in
  let messages := messages_for ("data:image/jpeg;base64," ++ b64encode image2) in
  let r2 := analyze_image settings json_loads b64encode w2 image2 deep_search self1 in
  exists m,
    slot deep_search self1 = Some m /\
    writes r2 = [] /\
    final r2 = self1 /\
    (forall ev, In ev (calls r2) ->
       ev = Ev_create_chat_completion m messages (max_tokens_for deep_search)) /\
    (imported w2 ->
     r2 = mkRun (Return (local_answer json_loads w2 m messages deep_search)) self1 []
            [Ev_create_chat_completion m messages (max_tokens_for deep_search)]).
Proof.
  cbn zeta.
  pose proof (analyze_image_cases settings json_loads b64encode w1 image1 deep_search self)
    as H1.
  pose proof (load_returns_resident w1 deep_search self) as Hres.
  unfold tier_name in *.
  destruct (_load_model settings w1 (if deep_search then "heavy" else "light") self)
    as [[[]|e] self1 ws cs]; cbn [outcome final] in *.
  2:{ rewrite H1 in Hfirst. discriminate. }
  destruct H1 as (v1 & cs1 & _ & Hrun). rewrite Hrun. cbn [final].
  destruct (Hres eq_refl) as (m & Hm). exists m. split; [ exact Hm | ].
  remember (messages_for ("data:image/jpeg;base64," ++ b64encode image2)) as messages.
  assert (Hok : imported w2 ->
            analyze_image settings json_loads b64encode w2 image2 deep_search self1
            = mkRun (Return (local_answer json_loads w2 m messages deep_search)) self1 []
                [Ev_create_chat_completion m messages (max_tokens_for deep_search)]).
  { intros Himports.
    pose proof (analyze_image_cases settings json_loads b64encode w2 image2
                  deep_search self1) as H2.
    rewrite <- Heqmessages in H2.
    change (if deep_search then "heavy" else "light") with (tier_name deep_search) in H2.
    rewrite (load_resident_noop w2 deep_search self1 m Himports Hm) in H2.
    destruct H2 as (v2 & cs2 & Hinfer & Hrun2).
    change (if deep_search then heavy_model self1 else light_model self1)
      with (slot deep_search self1) in Hinfer.
    rewrite Hm, guarded_infer_run in Hinfer.
    injection Hinfer as <- <-. exact Hrun2. }
  destruct (imports_cases w2) as [Himports | (e & He)].
  - rewrite (Hok Himports). cbn [writes final calls].
    split; [ reflexivity | ]. split; [ reflexivity | ].
    split; [ intros ev [<- | []]; reflexivity | intros _; reflexivity ].
  - rewrite (analyze_image_import_failure w2 image2 deep_search self1 e He) in *.
    cbn [writes final calls].
    split; [ reflexivity | ]. split; [ reflexivity | ].
    split; [ intros ev [] | exact Hok ].
Qed.


(** X3.  After an [analyze_image] that returned, one with the opposite
    flag never assigns or calls anything before it has released the
    resident engine: its first assignment, if any, leaves both slots
    empty, and its first call, if any, is the download of the other
    tier's artifact.  When its imports succeed, as they do once the
    modules are loaded, that assignment and that call are made. *)
Theorem switching_tier_evicts_then_downloads (w1 w2 : world)
    (image1 image2 : list Byte.byte) (deep_search : bool) self v
    (Hslot : single_slot self)
    (Hfirst : outcome (analyze_image settings json_loads b64encode w1 image1
                         deep_search self) = Return v) :
  let self1 := final (analyze_image settings json_loads b64encode w1 image1
                        deep_search self) in
  let r2 := analyze_image settings json_loads b64encode w2 image2
              (negb deep_search) self1 in
  let download :=
    Ev_hf_hub_download
      (if deep_search then LOCAL_MODEL_LIGHT_REPO settings
       else LOCAL_MODEL_HEAVY_REPO settings)
      (if deep_search then LOCAL_MODEL_LIGHT_FILENAME settings
       else LOCAL_MODEL_HEAVY_FILENAME settings)
      (models_dir self) in
  (forall first rest, writes r2 = first :: rest ->
     first = mkClient (models_dir self) None None) /\
  (forall first rest, calls r2 = first :: rest -> first = download) /\
  (imported w2 ->
   exists later_writes later_calls,
     writes r2 = mkClient (models_dir self) None None :: later_writes /\
     calls r2 = download :: later_calls).
Proof.
  cbn zeta.
  pose proof (analyze_image_cases settings json_loads b64encode w1 image1 deep_search self)
    as H1.
  pose proof (load_tier_spec settings w1 deep_search self Hslot) as [_ Hres].
  assert (Hdir : models_dir (final (_load_model settings w1 (tier_name deep_search) self))
                 = models_dir self).
  { destruct self as [dir [l|] [h|]];
      destruct deep_search; unfold tier_name, _load_model;
      cbn [String.eqb Ascii.eqb Bool.eqb];
      run_all; outside w1; reflexivity. }
  unfold tier_name in *.
  destruct (_load_model settings w1 (if deep_search then "heavy" else "light") self)
    as [[[]|e] self1 ws cs]; cbn [outcome final] in *.
  2:{ rewrite H1 in Hfirst. discriminate. }
  destruct H1 as (v1 & cs1 & _ & Hrun). rewrite Hrun. cbn [final].
  destruct (Hres eq_refl) as (m & Hm & Hother).
  assert (Hok : imported w2 ->
            exists later_writes later_calls,
              writes (analyze_image settings json_loads b64encode w2 image2
                        (negb deep_search) self1)
              = mkClient (models_dir self) None None :: later_writes /\
              calls (analyze_image settings json_loads b64encode w2 image2
                       (negb deep_search) self1)
              = Ev_hf_hub_download
                  (if deep_search then LOCAL_MODEL_LIGHT_REPO settings
                   else LOCAL_MODEL_HEAVY_REPO settings)
                  (if deep_search then LOCAL_MODEL_LIGHT_FILENAME settings
                   else LOCAL_MODEL_HEAVY_FILENAME settings)
                  (models_dir self) :: later_calls).
  { intros [Hi1 Hi2].
    pose proof (analyze_image_cases settings json_loads b64encode w2 image2
                  (negb deep_search) self1) as H2.
    assert (Hload2 : exists o s2 ws2 cs2,
              _load_model settings w2 (if negb deep_search then "heavy" else "light") self1
              = mkRun o s2 (mkClient (models_dir self) None None :: ws2)
                  (Ev_hf_hub_download
                     (if deep_search then LOCAL_MODEL_LIGHT_REPO settings
                      else LOCAL_MODEL_HEAVY_REPO settings)
                     (if deep_search then LOCAL_MODEL_LIGHT_FILENAME settings
                      else LOCAL_MODEL_HEAVY_FILENAME settings)
                     (models_dir self) :: cs2)).
    { destruct self1 as [dir1 l1 h1]. cbn in Hdir. subst dir1.
      destruct deep_search; cbn in Hm, Hother; subst; cbn [negb];
        unfold _load_model; rewrite Hi1, Hi2; cbn [String.eqb Ascii.eqb Bool.eqb];
        run_all; outside w2; eauto. }
    destruct Hload2 as (o & s2 & ws2 & cs2 & E2). rewrite E2 in H2.
    destruct o as [[]|e2].
    - destruct H2 as (v2 & cs2' & _ & ->). cbn. eauto.
    - rewrite H2. cbn. eauto. }
  destruct (imports_cases w2) as [Himports | (e & He)].
  - destruct (Hok Himports) as (later_writes & later_calls & Ew & Ec).
    split; [ intros first rest E; rewrite Ew in E; injection E as <- _; reflexivity | ].
    split; [ intros first rest E; rewrite Ec in E; injection E as <- _; reflexivity | ].
    intros _. eauto.
  - rewrite (analyze_image_import_failure w2 image2 (negb deep_search) self1 e He) in *.
    cbn [writes calls].
    split; [ intros first rest E; discriminate | ].
    split; [ intros first rest E; discriminate | exact Hok ].
Qed.

(** X4.  Call budget of one [analyze_image]: at most one download and at
    most one inference call; no inference call when it raises; when it
    returns, the inference call is the last external call. *)
Theorem analyze_image_call_budget (w : world) (image_bytes : list Byte.byte)
    (deep_search : bool) self :
  let r := analyze_image settings json_loads b64encode w image_bytes deep_search self in
  (length (filter Observations.is_download (calls r)) <= 1)%nat /\
  (length (filter Observations.is_inference (calls r)) <= 1)%nat /\
  (forall e, outcome r = Raise e -> filter Observations.is_inference (calls r) = []) /\
  (forall v, outcome r = Return v ->
     exists before m messages max_tokens,
       calls r = (before ++ [Ev_create_chat_completion m messages max_tokens])%list /\
       filter Observations.is_inference before = []).
Proof.
  cbn zeta.
  pose proof (analyze_image_cases settings json_loads b64encode w image_bytes
                deep_search self) as H.
  pose proof (load_returns_resident w deep_search self) as Hres.
  remember (messages_for ("data:image/jpeg;base64," ++ b64encode image_bytes))
    as messages eqn:Emessages.
  assert (Hload : exists o s1 ws cs,
            _load_model settings w (if deep_search then "heavy" else "light") self
            = mkRun o s1 ws cs /\
            (length (filter Observations.is_download cs) <= 1)%nat /\
            filter Observations.is_inference cs = []).
  { destruct self as [dir [l|] [h|]];
      destruct deep_search; unfold _load_model;
      cbn [String.eqb Ascii.eqb Bool.eqb];
      run_all; outside w; do 4 eexists; (split; [ reflexivity | cbn; auto ]). }
  destruct Hload as (o & s1 & ws & cs & E & Hdl & Hinf).
  unfold tier_name in Hres. rewrite E in H, Hres. cbn [outcome final] in Hres.
  destruct o as [[]|e].
  - destruct H as (v & cs' & Hinfer & ->). cbn [calls outcome].
    destruct (Hres eq_refl) as (m & Hm).
    change (if deep_search then heavy_model s1 else light_model s1)
      with (slot deep_search s1) in Hinfer.
    rewrite Hm, guarded_infer_run in Hinfer. injection Hinfer as _ <-.
    rewrite !filter_app, !length_app, Hinf. cbn.
    repeat split; try lia.
    + intros e He. discriminate.
    + intros v' _. exists cs, m, messages, (max_tokens_for deep_search). auto.
  - rewrite H. cbn [calls outcome]. rewrite Hinf. cbn.
    repeat split; try lia; try reflexivity. intros v Hv. discriminate.
Qed.

(** X5.  When the engine answers with a dict whose first choice carries a
    string content, [analyze_image] gives back exactly what
    [_parse_local_response] makes of that string; further choices and
    other keys are ignored. *)
Theorem analyze_image_normalises_first_choice (w : world)
    (image_bytes : list Byte.byte) (deep_search : bool) self
    (m : Llama) (response choice message : pydict) (others : list pyval)
    (content : string) :
  let L := _load_model settings w (tier_name deep_search) self in
  let messages := messages_for ("data:image/jpeg;base64," ++ b64encode image_bytes) in
  outcome L = Return tt ->
  slot deep_search (final L) = Some m ->
  create_chat_completion w m messages (max_tokens_for deep_search) (PyFloat "0.2")
  = Return (PyDict response) ->
  dict_lookup response "choices" = Some (PyList (PyDict choice :: others)) ->
  dict_lookup choice "message" = Some (PyDict message) ->
  dict_lookup message "content" = Some (PyStr content) ->
  outcome (analyze_image settings json_loads b64encode w image_bytes deep_search self)
  = _parse_local_response json_loads (PyStr content).
Proof.
  cbn zeta. intros HL Hm Hchat Hchoices Hmessage Hcontent.
  pose proof (analyze_image_cases settings json_loads b64encode w image_bytes
                deep_search self) as H.
  remember (messages_for ("data:image/jpeg;base64," ++ b64encode image_bytes))
    as messages eqn:Emessages.
  unfold tier_name in *.
  destruct (_load_model settings w (if deep_search then "heavy" else "light") self)
    as [[[]|e] s1 ws cs]; cbn [outcome final] in *; [ | discriminate ].
  destruct H as (v & cs' & Hinfer & ->). cbn [outcome].
  change (if deep_search then heavy_model s1 else light_model s1)
    with (slot deep_search s1) in Hinfer.
  rewrite Hm, guarded_infer_run in Hinfer. injection Hinfer as <- _.
  unfold local_answer. rewrite Hchat.
  unfold content_of, py_getitem, py_getitem0, rbind.
  rewrite Hchoices, Hmessage, Hcontent.
  unfold _parse_local_response.
  destruct (parse_attempt json_loads content); reflexivity.
Qed.

End More.
(** *** Concrete runs *)

Lemma failed_load_witness :
  outcome (_load_model Samples.settings Samples.offline "light" MoreSamples.with_heavy)
  = Raise (Exception "ConnectionError") /\
  heavy_model (final (_load_model Samples.settings Samples.offline "light"
                        MoreSamples.with_heavy)) = None /\
  outcome (_load_model Samples.settings MoreSamples.no_llama_cpp "other"
             MoreSamples.with_heavy)
  = Raise (Exception "ModuleNotFoundError") /\
  final (_load_model Samples.settings MoreSamples.no_llama_cpp "other"
           MoreSamples.with_heavy) = MoreSamples.with_heavy.
Proof.
  split; [ reflexivity | ].
  split.
  - destruct (failed_load_leaves_no_engine Samples.settings Samples.offline
                "light" MoreSamples.with_heavy (Exception "ConnectionError") eq_refl)
      as [(_ & Hnot & _) | (_ & _ & _ & Hheavy)].
    + exfalso. apply Hnot. split; reflexivity.
    + exact Hheavy.
  - split; [ reflexivity | ].
    destruct (failed_load_leaves_no_engine Samples.settings MoreSamples.no_llama_cpp
                "other" MoreSamples.with_heavy (Exception "ModuleNotFoundError") eq_refl)
      as [(_ & _ & Hrun) | (Himported & _)].
    + rewrite Hrun. reflexivity.
    + destruct Himported as [Himported _]. discriminate Himported.
Defined.

Lemma same_tier_witness :
  imported Samples.broken_engine /\
  outcome (analyze_image Samples.settings Json.loads Samples.b64encode Samples.online
             Samples.image false (__init__ "models")) = Return Samples.apple /\
  calls (analyze_image Samples.settings Json.loads Samples.b64encode Samples.broken_engine
           Samples.image false
           (final (analyze_image Samples.settings Json.loads Samples.b64encode
                     Samples.online Samples.image false (__init__ "models"))))
  = [Ev_create_chat_completion MoreSamples.light_engine
       (messages_for ("data:image/jpeg;base64," ++ Samples.b64encode Samples.image)) 150].
Proof.
  split; [ split; reflexivity | ]. split; [ reflexivity | ].
  destruct (same_tier_reuses_engine Samples.settings Json.loads Samples.b64encode
              Samples.online Samples.broken_engine Samples.image Samples.image false
              (__init__ "models") Samples.apple eq_refl) as (m & Hm & _ & _ & _ & Hrun).
  rewrite (Hrun (conj eq_refl eq_refl)). cbn [calls].
  assert (E : m = MoreSamples.light_engine)
    by (vm_compute in Hm; injection Hm as <-; reflexivity).
  rewrite E. reflexivity.
Defined.

Lemma switching_tier_witness :
  single_slot (__init__ "models") /\
  imported Samples.online /\
  outcome (analyze_image Samples.settings Json.loads Samples.b64encode Samples.online
             Samples.image false (__init__ "models")) = Return Samples.apple /\
  exists later_writes later_calls,
    writes (analyze_image Samples.settings Json.loads Samples.b64encode Samples.online
              Samples.image true
              (final (analyze_image Samples.settings Json.loads Samples.b64encode
                        Samples.online Samples.image false (__init__ "models"))))
    = mkClient "models" None None :: later_writes /\
    calls (analyze_image Samples.settings Json.loads Samples.b64encode Samples.online
             Samples.image true
             (final (analyze_image Samples.settings Json.loads Samples.b64encode
                       Samples.online Samples.image false (__init__ "models"))))
    = Ev_hf_hub_download "heavy/repo" "heavy.gguf" "models" :: later_calls.
Proof.
  assert (Hs : single_slot (__init__ "models")) by (left; reflexivity).
  split; [ exact Hs | ]. split; [ split; reflexivity | ]. split; [ reflexivity | ].
  exact (proj2 (proj2
           (switching_tier_evicts_then_downloads Samples.settings Json.loads
              Samples.b64encode Samples.online Samples.online Samples.image Samples.image
              false (__init__ "models") Samples.apple Hs eq_refl))
           (conj eq_refl eq_refl)).
Defined.

Lemma call_budget_witness :
  outcome (analyze_image Samples.settings Json.loads Samples.b64encode Samples.offline
             Samples.image true (__init__ "models"))
  = Raise (Exception "ConnectionError") /\
  filter Observations.is_inference
    (calls (analyze_image Samples.settings Json.loads Samples.b64encode Samples.offline
              Samples.image true (__init__ "models"))) = [].
Proof.
  split; [ reflexivity | ].
  exact (proj1 (proj2 (proj2 (analyze_image_call_budget Samples.settings Json.loads
                                Samples.b64encode Samples.offline Samples.image true
                                (__init__ "models"))))
           (Exception "ConnectionError") eq_refl).
Defined.

Lemma first_choice_witness :
  outcome (_load_model Samples.settings Samples.online (tier_name false)
             (__init__ "models")) = Return tt /\
  slot false (final (_load_model Samples.settings Samples.online (tier_name false)
                       (__init__ "models"))) = Some MoreSamples.light_engine /\
  outcome (analyze_image Samples.settings Json.loads Samples.b64encode Samples.online
             Samples.image false (__init__ "models"))
  = _parse_local_response Json.loads (PyStr Samples.noisy_text).
Proof.
  split; [ reflexivity | ]. split; [ reflexivity | ].
  exact (analyze_image_normalises_first_choice Samples.settings Json.loads
           Samples.b64encode Samples.online Samples.image false (__init__ "models")
           MoreSamples.light_engine
           [ ("choices",
              PyList [ PyDict [ ("message",
                                 PyDict [ ("content", PyStr Samples.noisy_text) ]) ] ]) ]
           [ ("message", PyDict [ ("content", PyStr Samples.noisy_text) ]) ]
           [ ("content", PyStr Samples.noisy_text) ] [] Samples.noisy_text
           eq_refl eq_refl eq_refl eq_refl eq_refl eq_refl).
Defined.

End LifecycleMore.

(** ** More on the output normaliser *)

Module NormalizerMore.
Import LocalIntelligence NormalizerFacts.

Lemma substring_zero_length n : forall s, substring n 0 s = "".
Proof.
  induction n as [|n IH]; intros [|a s]; cbn; auto.
Qed.

Lemma substring_prefix_split n : forall s,
  exists rest,
    s = substring 0 n s ++ rest /\
    (String.length (substring 0 n s) <= n)%nat /\
    (rest <> "" -> String.length (substring 0 n s) = n).
Proof.
  induction n as [|n IH]; intros s.
  - exists s. destruct s; cbn; repeat split; auto.
  - destruct s as [|a s]; cbn [substring].
    + exists "". cbn. repeat split; [ lia | congruence ].
    + destruct (IH s) as (rest & Hs & Hlen & Hfull).
      exists rest. cbn [append String.length].
      repeat split; [ congruence | lia | intros H; rewrite (Hfull H); reflexivity ].
Qed.

Section More.

Variable json_loads : string -> result pyval.

(** X6.  The description of the degraded result is a prefix of the text of
    at most 200 characters followed by three dots; the text is cut only
    when it is longer than 200 characters. *)
Theorem degraded_excerpt_is_bounded_prefix (content : string) :
  exists excerpt rest,
    parse_fallback content
    = PyDict [ ("overall_description", PyStr (excerpt ++ "..."));
               ("total_calories_estimate", PyStr "Estimated");
               ("items", PyList []);
               ("note", PyStr "Raw output returned due to parsing error.") ] /\
    content = excerpt ++ rest /\
    (String.length excerpt <= 200)%nat /\
    (rest <> "" -> String.length excerpt = 200%nat).
Proof.
  destruct (substring_prefix_split 200 content) as (rest & Hs & Hlen & Hfull).
  exists (substring 0 200 content), rest.
  split; [ | auto ].
  unfold parse_fallback. rewrite slice_to_substring by lia. reflexivity.
Qed.

Lemma rfind_lower_bound content c : -1 <= rfind content c.
Proof.
  unfold rfind. destruct (rfind_from_ge c content 0 (-1) ltac:(lia)); lia.
Qed.

(** X7.  When the last closing brace comes before the first opening brace
    (or there is none), the slice handed to [json.loads] is empty, and
    since that is not JSON the degraded result is returned. *)
Theorem closing_brace_before_opening (content : string) (e : exn)
    (Horder : rfind content "}" < find content "{")
    (Hempty : json_loads "" = Raise e) :
  slice content (find content "{") (rfind content "}" + 1) = "" /\
  _parse_local_response json_loads (PyStr content) = Return (parse_fallback content).
Proof.
  pose proof (rfind_lower_bound content "}") as Hr.
  assert (Hslice : slice content (find content "{") (rfind content "}" + 1) = "").
  { unfold slice, clamp.
    destruct (Z.ltb_spec (find content "{") 0); [ lia | ].
    destruct (Z.ltb_spec (rfind content "}" + 1) 0); [ lia | ].
    replace (Z.to_nat (Z.min (rfind content "}" + 1) (len content)
                       - Z.min (find content "{") (len content))) with 0%nat by lia.
    apply substring_zero_length. }
  split; [ exact Hslice | ].
  unfold _parse_local_response, parse_attempt.
  destruct (Z.eqb_spec (find content "{") (-1)); [ lia | ].
  destruct (Z.eqb_spec (rfind content "}" + 1) (-1)); [ lia | ].
  cbn [negb andb]. rewrite Hslice, Hempty. reflexivity.
Qed.

End More.

Lemma closing_brace_before_opening_witness :
  rfind "} {" "}" < find "} {" "{" /\
  Json.loads "" = Raise (Exception "JSONDecodeError") /\
  _parse_local_response Json.loads (PyStr "} {") = Return (parse_fallback "} {").
Proof.
  split; [ reflexivity | ]. split; [ reflexivity | ].
  exact (proj2 (closing_brace_before_opening Json.loads "} {"
                  (Exception "JSONDecodeError") eq_refl eq_refl)).
Defined.

(** *** Concrete runs *)

Lemma degraded_excerpt_witness :
  exists excerpt,
    "no braces here" = excerpt ++ "" /\ (String.length excerpt <= 200)%nat.
Proof.
  destruct (degraded_excerpt_is_bounded_prefix "no braces here")
    as (excerpt & rest & _ & Hsplit & Hlen & Hfull).
  exists excerpt. split; [ | exact Hlen ].
  destruct rest as [|a rest]; [ exact Hsplit | ].
  exfalso. specialize (Hfull ltac:(discriminate)).
  apply (f_equal String.length) in Hsplit.
  assert (Happ : forall x y, String.length (x ++ y)
                             = (String.length x + String.length y)%nat).
  { induction x; cbn; intros; [ reflexivity | rewrite IHx; reflexivity ]. }
  rewrite Happ, Hfull in Hsplit. cbn in Hsplit. lia.
Defined.

End NormalizerMore.

(** ** More on the search client *)

Module SearchMore.
Import Search SearchFacts Observations.

Lemma sleeps_app tr1 tr2 : sleeps (tr1 ++ tr2) = (sleeps tr1 ++ sleeps tr2)%list.
Proof.
  induction tr1 as [|[d | url p] tr1 IH]; cbn [sleeps app]; [ reflexivity | | exact IH ].
  rewrite IH. reflexivity.
Qed.

Section Loop.

Variable self : SerpAPIWrapper.
Variable w : world.
Variable str : exn -> string.

(** Enough time has passed since the stamp for [_throttle] not to wait. *)
Lemma throttled_rested st :
  (_last_request_ts st + min_interval self <= clock st)%Q ->
  throttled self w st
  = mkState (clock st) (clock st) (trace st) (issued st) (cache st).
Proof.
  intros H. unfold throttled, _throttle, bind, monotonic, stamp, ret.
  replace (gt0 (throttle_wait (min_interval self) (clock st) (_last_request_ts st)))
    with false; [ reflexivity | ].
  symmetry. unfold gt0. apply negb_false_iff, Qle_bool_iff.
  unfold throttle_wait. lra.
Qed.

Lemma throttled_stamp st :
  _last_request_ts (throttled self w st) = clock (throttled self w st).
Proof.
  unfold throttled, _throttle, bind, monotonic, stamp, sleep, ret.
  destruct (gt0 _); reflexivity.
Qed.

Lemma rested_after_backoff params d st :
  patient w -> (min_interval self <= d)%Q ->
  let st' := slept w d (got self w params (throttled self w st)) in
  (_last_request_ts st' + min_interval self <= clock st')%Q.
Proof.
  intros Hp Hd. cbn zeta.
  unfold slept, sleep, got, client_get. cbn [fst].
  destruct (Hp (length (trace (throttled self w st)))) as [Hdt _].
  destruct (network w (length (trace (throttled self w st)))) as [dt ans].
  cbn [fst clock trace _last_request_ts] in *.
  match goal with
  | |- (_ <= _ + _ + oversleep w ?n)%Q => destruct (Hp n) as [_ Hos]
  end.
  rewrite throttled_stamp.
  pose proof (Q.le_max_r 0 d). lra.
Qed.

Lemma got_trace params st :
  trace (got self w params st) = (trace st ++ [EvGet (base_url self) params])%list /\
  length (issued (got self w params st)) = Datatypes.S (length (issued st)).
Proof.
  unfold got, client_get. destruct (network w (length (trace st))).
  cbn. rewrite length_app. cbn. split; [ reflexivity | lia ].
Qed.

(** The loop on the attempts [k, k+1, ..., max_retries], every one of
    them answered 429. *)
Lemma retry_loop_all_429 params :
  patient w -> always_429 w ->
  (0 <= min_interval self)%Q -> (1 <= backoff_factor self)%Q ->
  forall n k backoff st,
    Z.of_nat (k + n) = max_retries self ->
    (min_interval self <= backoff)%Q ->
    let run := retry_loop self w params (map Z.of_nat (seq k (Datatypes.S n)))
                 backoff st in
    snd run = Raise (HTTPStatusError 429) /\
    sleeps (trace (fst run))
    = (sleeps (trace (throttled self w st))
       ++ backoffs (backoff_factor self) n backoff)%list /\
    length (issued (fst run)) = (length (issued st) + Datatypes.S n)%nat.
Proof.
  intros Hp H429 Hmi Hbf.
  induction n as [|n IH]; intros k backoff st Hk Hb; cbn zeta.
  - assert (E : retry_loop self w params (map Z.of_nat (seq k 1)) backoff st
                = (got self w params (throttled self w st),
                   Raise (HTTPStatusError 429))).
    { cbn [seq map retry_loop]. unfold bind.
      destruct (H429 (length (trace (throttled self w st)))) as (r & Hr & Hs).
      rewrite (turn_exhausted self w params (Z.of_nat k) backoff st r Hr Hs) by lia.
      reflexivity. }
    rewrite E. cbn [fst snd backoffs].
    destruct (got_trace params (throttled self w st)) as [-> ->].
    rewrite sleeps_app, throttled_issued. cbn [sleeps].
    split; [ reflexivity | split; [ reflexivity | lia ] ].
  - change (seq k (Datatypes.S (Datatypes.S n)))
      with (k :: seq (Datatypes.S k) (Datatypes.S n)).
    cbn [map].
    set (b' := (backoff * backoff_factor self)%Q).
    assert (Hb' : (min_interval self <= b')%Q) by (unfold b'; nra).
    set (st2 := slept w b' (got self w params (throttled self w st))).
    assert (E : retry_loop self w params
                  (Z.of_nat k :: map Z.of_nat (seq (Datatypes.S k) (Datatypes.S n)))
                  backoff st
                = retry_loop self w params
                    (map Z.of_nat (seq (Datatypes.S k) (Datatypes.S n))) b' st2).
    { cbn [retry_loop]. unfold bind at 1.
      destruct (H429 (length (trace (throttled self w st)))) as (r & Hr & Hs).
      rewrite (turn_retry self w params (Z.of_nat k) backoff st r Hr Hs) by lia.
      reflexivity. }
    rewrite E.
    specialize (IH (Datatypes.S k) b' st2 ltac:(lia) Hb'). cbn zeta in IH.
    destruct IH as (Hres & Hsleeps & Hissued).
    split; [ exact Hres | ].
    rewrite Hsleeps, Hissued.
    rewrite (throttled_rested st2 (rested_after_backoff params b' st Hp Hb')).
    cbn [trace backoffs]. fold b'.
    unfold st2 at 1 2, slept, sleep. cbn [fst trace issued].
    destruct (got_trace params (throttled self w st)) as [-> ->].
    rewrite !sleeps_app, throttled_issued. cbn [sleeps].
    rewrite <- !app_assoc. cbn [app].
    split; [ reflexivity | lia ].
Qed.

Lemma turn_cache params attempt backoff st :
  cache (fst (turn self w params attempt backoff st)) = cache st.
Proof.
  assert (Hc : cache (throttled self w st) = cache st).
  { unfold throttled, _throttle, bind, monotonic, stamp, sleep, ret.
    destruct (gt0 _); reflexivity. }
  unfold turn, bind. rewrite throttle_run.
  unfold try_except, client_get.
  destruct (network w (length (trace (throttled self w st)))) as [dt [r | e]].
  - unfold raise_for_status, back_off, bind, sleep, lift, ret, raise.
    destruct (status_code r =? 429) eqn:H429;
      destruct (attempt <? max_retries self);
      destruct (is_success (status_code r));
      destruct (json r);
      cbn; rewrite ?H429; cbn; rewrite ?Hc; auto;
      match goal with
      | e : exn |- _ =>
          destruct e as [ | sc | | ]; cbn; rewrite ?Hc; auto;
          destruct (sc =? 429); cbn; rewrite ?Hc; auto
      end.
  - destruct e as [ | sc | | ]; cbn; rewrite ?Hc; auto.
    unfold back_off, bind, sleep, ret, raise.
    destruct ((sc =? 429) && (attempt <? max_retries self));
      cbn; rewrite ?Hc; auto.
Qed.

Lemma turn_issues_one params attempt backoff st :
  length (issued (fst (turn self w params attempt backoff st)))
  = Datatypes.S (length (issued st)).
Proof.
  destruct (EventLoopFacts.turn_effect self w params attempt backoff st) as [-> _].
  rewrite length_app. cbn. lia.
Qed.

(** Whatever is answered, the loop issues at most one attempt per entry of
    its attempt list, at least one if the list is not empty, and leaves
    the cache alone. *)
Lemma retry_loop_attempts params : forall (todo : list Z) backoff st,
  (length (issued st) + (match todo with [] => 0 | _ :: _ => 1 end)
   <= length (issued (fst (retry_loop self w params todo backoff st))))%nat /\
  (length (issued (fst (retry_loop self w params todo backoff st)))
   <= length (issued st) + length todo)%nat /\
  cache (fst (retry_loop self w params todo backoff st)) = cache st.
Proof.
  induction todo as [|attempt todo IH]; intros backoff st.
  - cbn. repeat split; lia.
  - cbn [retry_loop length]. unfold bind.
    pose proof (turn_issues_one params attempt backoff st) as Hi.
    pose proof (turn_cache params attempt backoff st) as Hc.
    destruct (turn self w params attempt backoff st) as [st1 [[backoff' | data] | e]];
      cbn [fst] in *.
    + destruct (IH backoff' st1) as (Hlo & Hhi & Hcache).
      rewrite Hcache, Hc. repeat split; lia.
    + cbn. repeat split; try lia. exact Hc.
    + cbn. repeat split; try lia. exact Hc.
Qed.

(** X13.  When the clock is not behind the stamp, [_throttle] sleeps at
    most once, for a positive time of at most [min_interval], and leaves
    the stamp equal to the clock; with [min_interval] zero it never
    sleeps. *)
Theorem throttle_wait_is_bounded (st : state)
    (Hclock : (_last_request_ts st <= clock st)%Q) :
  _last_request_ts (throttled self w st) = clock (throttled self w st) /\
  issued (throttled self w st) = issued st /\
  cache (throttled self w st) = cache st /\
  (trace (throttled self w st) = trace st \/
   exists wait,
     trace (throttled self w st) = (trace st ++ [EvSleep wait])%list /\
     (0 < wait)%Q /\ (wait <= min_interval self)%Q) /\
  ((min_interval self <= 0)%Q -> throttled self w st
                                 = mkState (clock st) (clock st) (trace st)
                                           (issued st) (cache st)).
Proof.
  split; [ apply throttled_stamp | ].
  split; [ apply throttled_issued | ].
  unfold throttled, _throttle, bind, monotonic, stamp, sleep, ret.
  destruct (gt0 (throttle_wait (min_interval self) (clock st) (_last_request_ts st)))
    eqn:Hwait; cbn [fst trace cache].
  - assert (Hpos : (0 < throttle_wait (min_interval self) (clock st)
                         (_last_request_ts st))%Q).
    { unfold gt0 in Hwait. apply negb_true_iff in Hwait.
      apply Qnot_le_lt. intros Hle. apply Qle_bool_iff in Hle. congruence. }
    split; [ reflexivity | ]. split.
    + right. eexists. split; [ reflexivity | ].
      split; [ exact Hpos | unfold throttle_wait; lra ].
    + intros Hmi. exfalso. unfold throttle_wait in Hpos. lra.
  - split; [ reflexivity | ]. split; [ left; reflexivity | reflexivity ].
Qed.

End Loop.

Lemma shape_results_projection data v :
  shape_results data = Return v -> is_projection v.
Proof.
  intros H. unfold shape_results in H.
  destruct data as [ | | | | | | d]; try discriminate.
  cbn [py_get py_in py_getitem] in H.
  assert (Hkg : exists kg,
            match dict_lookup d "knowledge_graph" with
            | Some x => Return x
            | None => Return (PyDict [])
            end = Return kg)
    by (destruct (dict_lookup d "knowledge_graph"); eauto).
  destruct Hkg as (kg & Hkg). rewrite Hkg in H. cbn [rbind] in H.
  destruct (dict_lookup d "organic_results") as [organic|]; cbn [rbind] in H.
  - destruct (py_slice_items organic 3) as [items|e] eqn:Hitems;
      cbn [rbind] in H; [ | discriminate ].
    destruct (rmap snippet_of items) as [snippets|e] eqn:Hs;
      cbn [rbind] in H; [ | discriminate ].
    injection H as <-.
    destruct (rmap_snippets _ _ Hs) as [-> _].
    exists (map projection_of items), kg. split; [ reflexivity | ].
    rewrite length_map.
    assert (Hlen : exists l : list pyval, items = firstn 3 l).
    { destruct organic as [ | | | | s | l | ]; try discriminate Hitems;
        unfold py_slice_items in Hitems; [ exists (chars s) | exists l ]; congruence. }
    destruct Hlen as (l & ->). apply firstn_le_length.
  - injection H as <-. exists [], kg. split; [ reflexivity | cbn; lia ].
Qed.

Section Client.

Variable settings : Settings.
Variable w : world.
Variable str : exn -> string.

Lemma range_length n : length (range n) = Z.to_nat n.
Proof. unfold range. rewrite length_map, length_seq. reflexivity. Qed.

(** X8.  Retry schedule for any retry bound: when every attempt is
    answered 429, a lookup makes [max_retries + 1] attempts, sleeps
    [min_interval * backoff_factor^k] for k = 1 .. [max_retries] between
    them and returns the error dict of the 429.  With a configured bound
    of zero or less there is one attempt and no back-off. *)
Theorem exhausted_retries_schedule (query : string) (st : state)
    (Hkey : key_missing (SERPAPI_API_KEY settings) = false)
    (H429 : always_429 w) (Hpatient : patient w) :
  let self := __init__ settings in
  let retries := Z.to_nat (max_retries self) in
  let run := search_body self w str query st in
  snd run = Return (error_result (str (HTTPStatusError 429))) /\
  sleeps (trace (fst run))
  = (sleeps (trace (throttled self w st))
     ++ backoffs (backoff_factor self) retries (min_interval self))%list /\
  length (issued (fst run)) = (length (issued st) + retries + 1)%nat /\
  (SERPAPI_MAX_RETRIES settings <= 0 ->
   sleeps (trace (fst run)) = sleeps (trace (throttled self w st)) /\
   length (issued (fst run)) = (length (issued st) + 1)%nat).
Proof.
  cbn zeta. set (self := __init__ settings).
  set (params := params_for (match api_key self with Some k => k | None => "" end) query).
  pose proof (init_max_retries settings) as Hmax. fold self in Hmax.
  pose proof (retry_loop_all_429 self w params Hpatient H429
                (init_min_interval settings) (init_backoff_factor settings)
                (Z.to_nat (max_retries self)) 0%nat (min_interval self) st
                ltac:(cbn [Nat.add]; lia) ltac:(apply Qle_refl)) as Hloop.
  cbn zeta in Hloop.
  assert (Hrange : range (max_retries self + 1)
                   = map Z.of_nat (seq 0 (Datatypes.S (Z.to_nat (max_retries self))))).
  { unfold range. f_equal. f_equal. lia. }
  assert (Hbody : search_body self w str query st
                  = (fst (retry_loop self w params
                            (map Z.of_nat (seq 0 (Datatypes.S (Z.to_nat (max_retries self)))))
                            (min_interval self) st),
                     Return (error_result (str (HTTPStatusError 429))))).
  { unfold search_body.
    replace (key_missing (api_key self)) with false by (symmetry; exact Hkey).
    fold params. rewrite Hrange.
    unfold try_except, bind.
    destruct (retry_loop self w params _ (min_interval self) st) as [st' r].
    cbn [fst snd] in *. destruct Hloop as (-> & _). reflexivity. }
  rewrite Hbody. cbn [fst snd].
  destruct Hloop as (_ & Hsleeps & Hissued).
  split; [ reflexivity | ]. split; [ exact Hsleeps | ].
  split; [ rewrite Hissued; lia | ].
  intros Hzero.
  assert (Hn : Z.to_nat (max_retries self) = 0%nat) by (cbn; lia).
  rewrite Hsleeps, Hissued, Hn. cbn [backoffs]. rewrite app_nil_r.
  split; [ reflexivity | lia ].
Qed.

(** X9.  Whatever the server answers, one lookup issues at most
    [max_retries + 1] network attempts; none on a cache hit; at least one
    on a miss with a key configured. *)
Theorem attempts_per_lookup_are_bounded (query : string) (st : state) :
  let self := __init__ settings in
  let st' := fst (search_food_info self w str query st) in
  (length (issued st) <= length (issued st'))%nat /\
  (length (issued st') <= length (issued st) + Z.to_nat (max_retries self + 1))%nat /\
  (forall v, cache_find query (cache st) = Some v -> issued st' = issued st) /\
  (cache_find query (cache st) = None ->
   key_missing (SERPAPI_API_KEY settings) = false ->
   (length (issued st) < length (issued st'))%nat).
Proof.
  cbn zeta. set (self := __init__ settings).
  pose proof (init_max_retries settings) as Hmax. fold self in Hmax.
  assert (Hbody :
    (length (issued st) <= length (issued (fst (search_body self w str query st))))%nat /\
    (length (issued (fst (search_body self w str query st)))
     <= length (issued st) + Z.to_nat (max_retries self + 1))%nat /\
    (key_missing (SERPAPI_API_KEY settings) = false ->
     (length (issued st) < length (issued (fst (search_body self w str query st))))%nat)).
  { unfold search_body.
    change (api_key self) with (SERPAPI_API_KEY settings).
    destruct (key_missing (SERPAPI_API_KEY settings)).
    - cbn. split; [ lia | ]. split; [ lia | discriminate ].
    - unfold try_except, bind.
      pose proof (range_length (max_retries self + 1)) as Hlen.
      destruct (SearchFacts.range_succ (max_retries self) Hmax) as (rest & Hrange).
      rewrite Hrange in Hlen |- *.
      match goal with
      | |- context [retry_loop self w ?p ?a ?b st] =>
          destruct (retry_loop_attempts self w p a b st) as (Hlo & Hhi & _);
          rewrite Hlen in Hhi;
          destruct (retry_loop self w p a b st) as [st1 [data | e]]
      end; cbn [fst] in *.
      + unfold lift. destruct (shape_results data) as [v | e];
          [ | destruct (is_httpx_HTTPError e) ]; cbn;
          (split; [ lia | ]; split; [ exact Hhi | intros _; lia ]).
      + destruct (is_httpx_HTTPError e); cbn;
          (split; [ lia | ]; split; [ exact Hhi | intros _; lia ]). }
  unfold search_food_info.
  destruct (cache_find query (cache st)) as [v | ] eqn:Hfind; cbn [fst issued set_cache].
  - split; [ lia | ]. split; [ lia | ].
    split; [ intros; reflexivity | intros H; discriminate ].
  - destruct Hbody as (Hlo & Hhi & Hkey).
    destruct (search_body self w str query st) as [st1 [v | e]];
      cbn [fst issued set_cache] in *;
      (split; [ lia | ]; split; [ lia | ];
       split; [ intros v' H; discriminate | intros _ Hk; exact (Hkey Hk) ]).
Qed.

Lemma range_two n : 1 <= n -> exists rest, range (n + 1) = 0 :: 1 :: rest.
Proof.
  intros Hn. unfold range.
  replace (Z.to_nat (n + 1)) with (Datatypes.S (Datatypes.S (Z.to_nat (n - 1)))) by lia.
  cbn. eauto.
Qed.

(** X10.  A lookup that is rate limited once and then answered with a 2xx
    body returns the projection of that body, after exactly two attempts
    with one back-off of [min_interval * backoff_factor] between them. *)
Theorem rate_limit_then_success (query : string) (st : state)
    (r1 r2 : Response) (data : pyval)
    (Hkey : key_missing (SERPAPI_API_KEY settings) = false)
    (Hretries : 1 <= SERPAPI_MAX_RETRIES settings)
    (Hpatient : patient w) :
  let self := __init__ settings in
  let params := params_for (match api_key self with Some k => k | None => "" end) query in
  let get := EvGet (base_url self) params in
  let b1 := (min_interval self * backoff_factor self)%Q in
  let st1 := throttled self w st in
  let st2 := slept w b1 (got self w params st1) in
  next_answer w st1 = Return r1 -> status_code r1 = 429 ->
  next_answer w st2 = Return r2 -> is_success (status_code r2) = true ->
  json r2 = Return data ->
  let run := search_body self w str query st in
  snd run = Return match shape_results data with
                   | Return result => result
                   | Raise e => error_result (str e)
                   end /\
  trace (fst run) = (trace st1 ++ [get; EvSleep b1; get])%list /\
  length (issued (fst run)) = (length (issued st) + 2)%nat.
Proof.
  cbn zeta. set (self := __init__ settings).
  set (params := params_for (match api_key self with Some k => k | None => "" end) query).
  set (b1 := (min_interval self * backoff_factor self)%Q).
  set (st1 := throttled self w st).
  set (st2 := slept w b1 (got self w params st1)).
  intros Ha1 Hs1 Ha2 Hs2 Hj.
  pose proof (init_min_interval settings) as Hmi.
  pose proof (init_backoff_factor settings) as Hbf. fold self in Hmi, Hbf.
  assert (Hb1 : (min_interval self <= b1)%Q) by (unfold b1; nra).
  assert (Hmax : 1 <= max_retries self) by (cbn; lia).
  pose proof (throttled_rested self w st2
                (rested_after_backoff self w params b1 st Hpatient Hb1)) as E2.
  fold st1 st2 in E2.
  assert (Ha2' : next_answer w (throttled self w st2) = Return r2).
  { unfold next_answer in *. rewrite E2. exact Ha2. }
  destruct (range_two (max_retries self) Hmax) as (rest & Hrange).
  assert (Hbody : search_body self w str query st
                  = (got self w params (throttled self w st2),
                     Return match shape_results data with
                            | Return result => result
                            | Raise e => error_result (str e)
                            end)).
  { unfold search_body.
    replace (key_missing (api_key self)) with false by (symmetry; exact Hkey).
    fold params. rewrite Hrange.
    unfold try_except, bind at 1. cbn [retry_loop].
    unfold bind at 1.
    rewrite (turn_retry self w params 0 (min_interval self) st r1 Ha1 Hs1) by lia.
    fold b1 st1 st2.
    unfold bind at 1.
    rewrite (turn_succeeds self w params 1 b1 st2 r2 data Ha2' Hs2 Hj).
    unfold ret, lift. destruct (shape_results data) as [result | e];
      [ | destruct (is_httpx_HTTPError e) ]; reflexivity. }
  rewrite Hbody. cbn [fst snd]. split; [ reflexivity | ].
  rewrite E2.
  destruct (got_trace self w params
              (mkState (clock st2) (clock st2) (trace st2) (issued st2) (cache st2)))
    as [-> ->].
  cbn [trace issued]. unfold st2, slept, sleep. cbn [fst trace issued].
  destruct (got_trace self w params st1) as [-> ->].
  unfold st1. rewrite throttled_issued, <- !app_assoc. cbn [app].
  split; [ reflexivity | lia ].
Qed.

Lemma cache_remove_shrinks q : forall (c : list (string * pyval)) v,
  cache_find q c = Some v -> (length (cache_remove q c) < length c)%nat.
Proof.
  induction c as [|[k x] c IH]; intros v Hf; cbn in *; [ discriminate | ].
  destruct (String.eqb k q); cbn.
  - pose proof (filter_length_le (fun kv => negb (String.eqb (fst kv) q)) c) as Hle.
    unfold cache_remove. lia.
  - specialize (IH v Hf). unfold cache_remove in IH. lia.
Qed.

Lemma lookup_keeps_cache_bound (self : SerpAPIWrapper) query st :
  (length (cache st) <= maxsize)%nat ->
  (length (cache (fst (search_food_info self w str query st))) <= maxsize)%nat.
Proof.
  intros Hb. unfold search_food_info.
  destruct (cache_find query (cache st)) as [v|] eqn:Hf; cbn [fst cache set_cache].
  - pose proof (cache_remove_shrinks query _ v Hf). cbn [length]. lia.
  - pose proof (search_body_returns self w str query st) as [v' Hv'].
    destruct (search_body self w str query st) as [st1 [v | e]];
      cbn [fst snd cache set_cache] in *; [ | discriminate ].
    apply firstn_le_length.
Qed.

(** X11.  Over any sequence of lookups on a fresh wrapper the cache never
    holds more than 128 entries. *)
Theorem cache_never_exceeds_maxsize (self : SerpAPIWrapper) (queries : list string)
    (t0 : Q) :
  (length (cache (fst (lookups self w str queries (initial t0)))) <= 128)%nat.
Proof.
  change 128%nat with maxsize.
  assert (Hgen : forall st, (length (cache st) <= maxsize)%nat ->
            (length (cache (fst (lookups self w str queries st))) <= maxsize)%nat).
  { induction queries as [|q qs IH]; intros st Hb; cbn [lookups]; [ exact Hb | ].
    pose proof (lookup_keeps_cache_bound self q st Hb) as H1.
    destruct (search_food_info self w str q st) as [st1 r]. cbn [fst] in H1.
    specialize (IH st1 H1).
    destruct (lookups self w str qs st1) as [st2 rs]. exact IH. }
  apply Hgen. cbn. unfold maxsize. lia.
Qed.

Lemma search_body_cache (self : SerpAPIWrapper) query st :
  cache (fst (search_body self w str query st)) = cache st.
Proof.
  unfold search_body.
  destruct (key_missing (api_key self)); [ reflexivity | ].
  unfold try_except, bind.
  match goal with
  | |- context [retry_loop self w ?p ?a ?b st] =>
      destruct (retry_loop_attempts self w p a b st) as (_ & _ & Hc);
      destruct (retry_loop self w p a b st) as [st1 [data | e]]
  end; cbn [fst] in Hc.
  - unfold lift. destruct (shape_results data) as [v | e];
      [ | destruct (is_httpx_HTTPError e) ]; exact Hc.
  - destruct (is_httpx_HTTPError e); exact Hc.
Qed.

Lemma search_body_well_shaped (self : SerpAPIWrapper) query st :
  exists v, snd (search_body self w str query st) = Return v /\ well_shaped v.
Proof.
  unfold search_body.
  destruct (key_missing (api_key self)).
  - cbn. eexists. split; [ reflexivity | left; eexists; reflexivity ].
  - unfold try_except, bind.
    match goal with
    | |- context [retry_loop self w ?p ?a ?b st] =>
        destruct (retry_loop self w p a b st) as [st1 [data | e]]
    end.
    + unfold lift. destruct (shape_results data) as [v | e] eqn:Hshape.
      * cbn. exists v. split; [ reflexivity | right ].
        exact (shape_results_projection data v Hshape).
      * destruct (is_httpx_HTTPError e); cbn; eexists;
          (split; [ reflexivity | left; eexists; reflexivity ]).
    + destruct (is_httpx_HTTPError e); cbn; eexists;
        (split; [ reflexivity | left; eexists; reflexivity ]).
Qed.

(** X12.  Over any sequence of lookups on a fresh wrapper every call
    returns (never raises), and what it returns is an error dict
    [{"error": msg}] or a projection with exactly the keys [snippets] (at
    most three entries) and [knowledge_graph]. *)
Theorem lookups_return_error_or_projection (self : SerpAPIWrapper)
    (queries : list string) (t0 : Q) :
  Forall (fun r => exists v, r = Return v /\ (is_error_dict v \/ is_projection v))
         (snd (lookups self w str queries (initial t0))).
Proof.
  assert (Hgen : forall st,
            Forall (fun kv => well_shaped (snd kv)) (cache st) ->
            Forall (fun r => exists v, r = Return v /\ well_shaped v)
                   (snd (lookups self w str queries st))).
  { induction queries as [|q qs IH]; intros st Hc; cbn [lookups]; [ constructor | ].
    unfold search_food_info.
    destruct (cache_find q (cache st)) as [v|] eqn:Hf.
    - pose proof (cache_find_value well_shaped q _ v Hc Hf) as Hv.
      specialize (IH (set_cache ((q, v) :: cache_remove q (cache st)) st)).
      destruct (lookups self w str qs _) as [st2 rs]. cbn [snd] in *.
      constructor; [ eauto | ].
      apply IH. cbn [cache set_cache].
      constructor; [ exact Hv | apply cache_values_remove, Hc ].
    - destruct (search_body_well_shaped self q st) as (v & Hv & Hshape).
      pose proof (search_body_cache self q st) as Hsame.
      destruct (search_body self w str q st) as [st1 r].
      cbn [fst snd] in Hv, Hsame. subst r.
      specialize (IH (set_cache (firstn maxsize ((q, v) :: cache st1)) st1)).
      destruct (lookups self w str qs _) as [st2 rs]. cbn [snd] in *.
      constructor; [ eauto | ].
      apply IH. cbn [cache set_cache]. apply cache_values_firstn.
      constructor; [ exact Hshape | rewrite Hsame; exact Hc ]. }
  apply Hgen. constructor.
Qed.

End Client.
(** *** Concrete runs *)

Lemma exhausted_retries_witness :
  key_missing (SERPAPI_API_KEY Samples.settings) = false /\
  always_429 (Samples.server 429) /\ patient (Samples.server 429) /\
  sleeps (trace (fst (search_body (__init__ Samples.settings) (Samples.server 429)
                        Samples.str "apple" (initial 100))))
  = backoffs 2 2 1.
Proof.
  assert (H429 : always_429 (Samples.server 429)).
  { intros n. eexists. split; reflexivity. }
  assert (Hp : patient (Samples.server 429)).
  { intros n. split; cbn; apply Qle_refl. }
  split; [ reflexivity | ]. split; [ exact H429 | ]. split; [ exact Hp | ].
  exact (proj1 (proj2 (exhausted_retries_schedule Samples.settings (Samples.server 429)
                         Samples.str "apple" (initial 100) eq_refl H429 Hp))).
Defined.

Lemma attempts_bound_witness :
  cache_find "apple" (cache (initial 100)) = None /\
  key_missing (SERPAPI_API_KEY Samples.settings) = false /\
  (length (issued (initial 100))
   < length (issued (fst (search_food_info (__init__ Samples.settings)
                            (Samples.server 500) Samples.str "apple" (initial 100)))))%nat.
Proof.
  split; [ reflexivity | ]. split; [ reflexivity | ].
  exact (proj2 (proj2 (proj2 (attempts_per_lookup_are_bounded Samples.settings
                                (Samples.server 500) Samples.str "apple" (initial 100))))
           eq_refl eq_refl).
Defined.

Lemma rate_limit_then_success_witness :
  key_missing (SERPAPI_API_KEY Samples.settings) = false /\
  1 <= SERPAPI_MAX_RETRIES Samples.settings /\
  patient MoreSamples.flaky /\
  length (issued (fst (search_body (__init__ Samples.settings) MoreSamples.flaky
                         Samples.str "apple" (initial 100)))) = 2%nat /\
  exists snippets kg,
    snd (search_body (__init__ Samples.settings) MoreSamples.flaky Samples.str "apple"
           (initial 100))
    = Return (PyDict [ ("snippets", PyList snippets); ("knowledge_graph", kg) ]).
Proof.
  assert (Hp : patient MoreSamples.flaky).
  { intros n. unfold MoreSamples.flaky. cbn. destruct (Nat.eqb n 0); split; apply Qle_refl. }
  split; [ reflexivity | ]. split; [ cbn; lia | ]. split; [ exact Hp | ].
  destruct (rate_limit_then_success Samples.settings MoreSamples.flaky Samples.str
              "apple" (initial 100)
              {| status_code := 429; json := Raise (Exception "JSONDecodeError") |}
              {| status_code := 200; json := Return Samples.payload |}
              Samples.payload eq_refl ltac:(cbn; lia) Hp
              eq_refl eq_refl eq_refl eq_refl eq_refl) as (Hres & _ & Hn).
  split; [ exact Hn | ].
  rewrite Hres. do 2 eexists. reflexivity.
Defined.

Lemma throttle_wait_witness :
  (_last_request_ts (initial 0) <= clock (initial 0))%Q /\
  exists wait,
    trace (throttled (__init__ Samples.settings) (Samples.server 200) (initial 0))
    = [EvSleep wait] /\ (wait <= 1)%Q.
Proof.
  split; [ apply Qle_refl | ].
  destruct (throttle_wait_is_bounded (__init__ Samples.settings) (Samples.server 200)
              (initial 0) (Qle_refl 0)) as (_ & _ & _ & [Hnone | (wait & Ht & _ & Hle)] & _).
  - exfalso. vm_compute in Hnone. discriminate.
  - exists wait. split; [ exact Ht | exact Hle ].
Defined.

End SearchMore.

(** ** The route *)

Module RouterFacts.
Import LocalIntelligence Router.

Section Route.

Variable settings : Settings.
Variable json_loads : string -> result pyval.
Variable b64encode : list Byte.byte -> string.
Variable str : exn -> string.

(** X14.  Error mapping of the route: an upload without a content type
    raises [AttributeError] before anything is done; one that is not an
    image is rejected with status 400 and nothing is called; a failing
    read gives status 500 with the text of the error; with a content type
    present every failure is an [HTTPException] of status 400 or 500; and
    the route returns a value exactly when the dispatcher returns it. *)
Theorem route_error_mapping (cloud : result pyval) (w : world) (file : UploadFile)
    (deep_search : bool) self :
  let r := analyze_food settings json_loads b64encode str cloud w file deep_search self in
  (content_type file = None ->
   r = mkRun (Raise (Exception "AttributeError")) self [] []) /\
  (forall ct, content_type file = Some ct -> String.prefix "image/" ct = false ->
   r = mkRun (Raise (HTTPException 400 "File must be an image.")) self [] []) /\
  (forall ct e, content_type file = Some ct -> String.prefix "image/" ct = true ->
   read file = Raise e ->
   r = mkRun (Raise (HTTPException 500 (str e))) self [] []) /\
  (forall ct x, content_type file = Some ct -> outcome r = Raise x ->
   x = HTTPException 400 "File must be an image." \/
   exists e, x = HTTPException 500 (str e)) /\
  (forall ct contents, content_type file = Some ct -> String.prefix "image/" ct = true ->
   read file = Return contents ->
   forall v,
     outcome r = Return v <->
     outcome (Vision.analyze_food_image_with_search settings json_loads b64encode
                cloud w contents deep_search self) = Return v).
Proof.
  cbn zeta. unfold analyze_food.
  destruct (content_type file) as [ct0|].
  2:{ repeat split; try discriminate; auto. }
  split; [ discriminate | ].
  destruct (String.prefix "image/" ct0) eqn:Himg; cbn [negb].
  - unfold try_except, bind, lift.
    destruct (read file) as [contents | e0].
    + destruct (Vision.analyze_food_image_with_search settings json_loads b64encode
                  cloud w contents deep_search self) as [[v | e] s1 ws cs] eqn:E; cbn.
      * split; [ intros ct [= <-] H; congruence | ].
        split; [ intros ct e [= <-] _ H; congruence | ].
        split; [ intros ct x _ H; congruence | ].
        intros ct c [= <-] _ [= <-] v0. rewrite E. reflexivity.
      * split; [ intros ct [= <-] H; congruence | ].
        split; [ intros ct e' [= <-] _ H; congruence | ].
        split; [ intros ct x _ [= <-]; right; eauto | ].
        intros ct c [= <-] _ [= <-] v0. rewrite E. cbn. split; congruence.
    + cbn.
      split; [ intros ct [= <-] H; congruence | ].
      split; [ intros ct e [= <-] _ [= <-]; reflexivity | ].
      split; [ intros ct x _ [= <-]; right; eauto | ].
      intros ct c [= <-] _ H. congruence.
  - unfold raise. cbn.
    split; [ intros ct _ _; reflexivity | ].
    split; [ intros ct e [= <-] H; congruence | ].
    split; [ intros ct x _ [= <-]; left; reflexivity | ].
    intros ct c [= <-] H. congruence.
Qed.

End Route.
(** *** Concrete runs *)

Lemma route_error_mapping_witness :
  content_type MoreSamples.text_file = Some "text/plain" /\
  String.prefix "image/" "text/plain" = false /\
  analyze_food Samples.settings Json.loads Samples.b64encode Samples.str
    (Return Samples.apple) Samples.online MoreSamples.text_file false (__init__ "models")
  = mkRun (Raise (HTTPException 400 "File must be an image.")) (__init__ "models") [] [].
Proof.
  split; [ reflexivity | ]. split; [ reflexivity | ].
  exact (proj1 (proj2 (route_error_mapping Samples.settings Json.loads Samples.b64encode
                         Samples.str (Return Samples.apple) Samples.online
                         MoreSamples.text_file false (__init__ "models")))
           "text/plain" eq_refl eq_refl).
Defined.

End RouterFacts.

(** ** The test front end *)

Module UiTesterFacts.
Import UiTester.

Lemma rstrip_empty_iff s c :
  rstrip s c = "" -> exists k, s = replicate k c.
Proof.
  induction s as [|a s IH]; cbn [rstrip]; intros H.
  - exists 0%nat. reflexivity.
  - destruct (rstrip s c) as [|b r] eqn:E; [ | discriminate ].
    destruct (Ascii.eqb_spec a c) as [-> | Hac]; [ | discriminate ].
    destruct (IH eq_refl) as (k & ->). exists (Datatypes.S k). reflexivity.
Qed.

Lemma rstrip_cons a s c :
  rstrip (String a s) c
  = match rstrip s c with
    | EmptyString => if Ascii.eqb a c then EmptyString else String a EmptyString
    | r => String a r
    end.
Proof. reflexivity. Qed.

Lemma last_char_cons a s : s <> "" -> last_char (String a s) = last_char s.
Proof. destruct s; [ congruence | reflexivity ]. Qed.

(** [rstrip] removes exactly the trailing run of the character: the
    string is the result followed by copies of the character, the result
    does not end with it, stripping again changes nothing, and a string
    that does not end with it is left as it is. *)
Lemma rstrip_strips_exactly_the_trailing_run (s : string) (c : ascii) :
  (exists k, s = rstrip s c ++ replicate k c) /\
  last_char (rstrip s c) <> Some c /\
  rstrip (rstrip s c) c = rstrip s c /\
  (last_char s <> Some c -> rstrip s c = s).
Proof.
  induction s as [|a s (IHk & IHlast & IHidem & IHsame)]; cbn [rstrip].
  - repeat split; try (exists 0%nat; reflexivity); cbn; congruence.
  - destruct (rstrip s c) as [|b r] eqn:E.
    + destruct (rstrip_empty_iff s c E) as (k & Hk).
      destruct (Ascii.eqb_spec a c) as [-> | Hac].
      * split; [ exists (Datatypes.S k); cbn; rewrite Hk; reflexivity | ].
        split; [ cbn; congruence | ].
        split; [ reflexivity | ].
        intros Hlast. exfalso. apply Hlast. subst s. clear.
        induction k as [|k IH]; [ reflexivity | ].
        cbn [replicate]. rewrite last_char_cons; [ | discriminate ].
        destruct k; [ reflexivity | exact IH ].
      * split; [ exists k; cbn; rewrite Hk; reflexivity | ].
        split; [ cbn; congruence | ].
        split.
        { cbn. destruct (Ascii.eqb_spec a c); [ congruence | reflexivity ]. }
        intros Hlast. destruct k as [|k]; [ subst s; reflexivity | ].
        exfalso. apply Hlast. subst s. clear.
        rewrite last_char_cons by discriminate.
        induction k as [|k IH]; [ reflexivity | ].
        cbn [replicate]. rewrite last_char_cons by discriminate.
        destruct k; [ reflexivity | exact IH ].
    + destruct IHk as (k & Hk).
      split; [ exists k; change (String a s = String a (String b r ++ replicate k c));
               f_equal; exact Hk | ].
      split; [ rewrite last_char_cons by discriminate; exact IHlast | ].
      split.
      { rewrite rstrip_cons, IHidem. reflexivity. }
      intros Hlast. f_equal. apply IHsame.
      destruct s as [|a' s']; [ cbn in E; discriminate | ].
      rewrite last_char_cons in Hlast by discriminate. exact Hlast.
Qed.

(** Trailing copies of the character do not change what [rstrip] leaves,
    so the part [rstrip] leaves is the only one that does not end with
    the character and gives the string back when copies are appended. *)
Lemma rstrip_replicate k c : rstrip (replicate k c) c = "".
Proof.
  induction k as [|k IH]; [ reflexivity | ].
  cbn [replicate]. rewrite rstrip_cons, IH, Ascii.eqb_refl. reflexivity.
Qed.

Lemma rstrip_app_replicate x k c : rstrip (x ++ replicate k c) c = rstrip x c.
Proof.
  induction x as [|a x IH]; cbn [append].
  - apply rstrip_replicate.
  - rewrite !rstrip_cons, IH. reflexivity.
Qed.

Lemma rstrip_unique s x k c :
  s = x ++ replicate k c -> last_char x <> Some c -> rstrip s c = x.
Proof.
  intros -> Hlast. rewrite rstrip_app_replicate.
  apply (rstrip_strips_exactly_the_trailing_run x c), Hlast.
Qed.

Section Ui.

Variable DEFAULT_API_BASE : string.
Variable json_dumps : pyval -> result string.
Variable str : exn -> string.
Variable post : request -> result response.

(** X15.  [call_api] sends at most one request, and none without an image
    or when saving the image fails.  The base URL given splits in exactly
    one way into a part that does not end with a slash and a run of
    slashes; the request goes to that part, or to the default base when
    that part is empty, followed by [/api/v1/food/analyze]; it carries
    the image as [upload.jpg] and the flag as [true] or [false].  An
    answer with a status other than 200 is shown as
    [HTTP <status>: <text>]. *)
Theorem call_api_sends_one_normalised_request
    (image : option (result (list Byte.byte))) (deep_search : bool)
    (api_base_url : string) :
  let run := call_api DEFAULT_API_BASE json_dumps str post image deep_search api_base_url in
  let target (stripped : string) :=
    match stripped with
    | EmptyString => DEFAULT_API_BASE
    | String _ _ => stripped
    end ++ "/api/v1/food/analyze" in
  (length (snd run) <= 1)%nat /\
  (image = None -> run = ("Please upload an image.", [])) /\
  (forall e, image = Some (Raise e) -> run = ("Error: " ++ str e, [])) /\
  (forall req, In req (snd run) ->
     exists stripped k image_bytes,
       image = Some (Return image_bytes) /\
       api_base_url = stripped ++ replicate k "/" /\
       last_char stripped <> Some "/"%char /\
       req = {| url := target stripped;
                file := ("upload.jpg", image_bytes, "image/jpeg");
                data := [ ("deep_search", if deep_search then "true" else "false") ] |}) /\
  (forall req stripped k, In req (snd run) ->
     api_base_url = stripped ++ replicate k "/" ->
     last_char stripped <> Some "/"%char ->
     url req = target stripped) /\
  (forall resp req, snd run = [req] -> post req = Return resp ->
     status_code resp <> 200 ->
     fst run = "HTTP " ++ str_int (status_code resp) ++ ": " ++ text resp).
Proof.
  cbn zeta. unfold call_api.
  set (target := fun stripped : string =>
         match stripped with
         | EmptyString => DEFAULT_API_BASE
         | String _ _ => stripped
         end ++ "/api/v1/food/analyze").
  assert (Hbase : api_base DEFAULT_API_BASE api_base_url ++ "/api/v1/food/analyze"
                  = target (rstrip api_base_url "/")).
  { unfold api_base, target. destruct (rstrip api_base_url "/"); reflexivity. }
  destruct (rstrip_strips_exactly_the_trailing_run api_base_url "/")
    as ((k0 & Hk0) & Hlast0 & _).
  assert (Huniq : forall stripped k,
            api_base_url = stripped ++ replicate k "/" ->
            last_char stripped <> Some "/"%char ->
            api_base DEFAULT_API_BASE api_base_url ++ "/api/v1/food/analyze"
            = target stripped).
  { intros stripped k Hk Hlast. rewrite Hbase.
    rewrite (rstrip_unique api_base_url stripped k "/" Hk Hlast). reflexivity. }
  destruct image as [[image_bytes | e] | ].
  - set (req := {| url := api_base DEFAULT_API_BASE api_base_url ++ "/api/v1/food/analyze";
                   file := ("upload.jpg", image_bytes, "image/jpeg");
                   data := [("deep_search", lower_bool deep_search)] |}).
    assert (Hreq : forall r, In r [req] ->
              exists stripped k bytes,
                Some (Return image_bytes) = Some (Return bytes) /\
                api_base_url = stripped ++ replicate k "/" /\
                last_char stripped <> Some "/"%char /\
                r = {| url := target stripped;
                       file := ("upload.jpg", bytes, "image/jpeg");
                       data := [ ("deep_search",
                                  if deep_search then "true" else "false") ] |}).
    { intros r [<- | []]. exists (rstrip api_base_url "/"), k0, image_bytes.
      split; [ reflexivity | ]. split; [ exact Hk0 | ]. split; [ exact Hlast0 | ].
      unfold req. rewrite Hbase. reflexivity. }
    assert (Hurl : forall r stripped k, In r [req] ->
              api_base_url = stripped ++ replicate k "/" ->
              last_char stripped <> Some "/"%char ->
              url r = target stripped).
    { intros r stripped k [<- | []] Hk Hlast. exact (Huniq stripped k Hk Hlast). }
    destruct (post req) as [resp | e] eqn:Hpost.
    + destruct (Z.eqb_spec (status_code resp) 200) as [H200 | H200]; cbn [negb].
      * destruct (rbind (json resp) json_dumps) as [shown | e]; cbn [fst snd];
          (split; [ cbn; lia | ]; split; [ discriminate | ];
           split; [ discriminate | ]; split; [ exact Hreq | ];
           split; [ exact Hurl | ];
           intros resp' req' [= <-] Hp Hs; rewrite Hpost in Hp;
           injection Hp as <-; congruence).
      * cbn [fst snd]. split; [ cbn; lia | ]. split; [ discriminate | ].
        split; [ discriminate | ]. split; [ exact Hreq | ]. split; [ exact Hurl | ].
        intros resp' req' [= <-] Hp Hs. rewrite Hpost in Hp.
        injection Hp as <-. reflexivity.
    + cbn [fst snd]. split; [ cbn; lia | ]. split; [ discriminate | ].
      split; [ discriminate | ]. split; [ exact Hreq | ]. split; [ exact Hurl | ].
      intros resp' req' [= <-] Hp Hs. rewrite Hpost in Hp. discriminate.
  - cbn [fst snd]. split; [ cbn; lia | ]. split; [ discriminate | ].
    split; [ intros e' [= <-]; reflexivity | ].
    split; [ intros req [] | ].
    split; [ intros req stripped k [] | intros resp req H; discriminate ].
  - cbn [fst snd]. split; [ cbn; lia | ]. split; [ reflexivity | ].
    split; [ discriminate | ].
    split; [ intros req [] | ].
    split; [ intros req stripped k [] | intros resp req H; discriminate ].
Qed.

End Ui.
(** *** Concrete runs *)

Lemma call_api_witness :
  snd (call_api "http://127.0.0.1:8000" MoreSamples.json_dumps Samples.str
         MoreSamples.unavailable (Some (Return Samples.image)) true "http://localhost:8000//")
  = [ MoreSamples.upload_request ] /\
  "http://localhost:8000//" = "http://localhost:8000" ++ replicate 2 "/" /\
  last_char "http://localhost:8000" <> Some "/"%char /\
  url MoreSamples.upload_request = "http://localhost:8000/api/v1/food/analyze" /\
  fst (call_api "http://127.0.0.1:8000" MoreSamples.json_dumps Samples.str
         MoreSamples.unavailable (Some (Return Samples.image)) true "http://localhost:8000//")
  = "HTTP 503: Service Unavailable".
Proof.
  pose proof (call_api_sends_one_normalised_request "http://127.0.0.1:8000"
                MoreSamples.json_dumps Samples.str MoreSamples.unavailable
                (Some (Return Samples.image)) true "http://localhost:8000//") as H.
  cbn zeta in H. destruct H as (_ & _ & _ & _ & Hurl & Hshown).
  assert (Hlast : last_char "http://localhost:8000" <> Some "/"%char)
    by (cbn; discriminate).
  split; [ reflexivity | ]. split; [ reflexivity | ]. split; [ exact Hlast | ].
  split.
  - exact (Hurl MoreSamples.upload_request "http://localhost:8000" 2%nat
             (or_introl eq_refl) eq_refl Hlast).
  - exact (Hshown {| status_code := 503; text := "Service Unavailable";
                     json := Raise (Exception "JSONDecodeError") |}
             MoreSamples.upload_request eq_refl eq_refl ltac:(cbn; discriminate)).
Defined.

End UiTesterFacts.
